(** * react-time-picker: the segmented time input ([TimeInput.tsx])

    A shallow embedding of the keystroke router, the value reconciler and
    the format tokenizer of [TimeInput], with the JavaScript primitives
    they rely on ([Number], truthiness, [||], [&&], string slices). *)

From Stdlib Require Import String Ascii List ZArith QArith Bool Lia Arith.
From Stdlib Require Import DecimalString.
Import ListNotations.

Local Close Scope Q_scope.
Local Open Scope string_scope.
Local Open Scope bool_scope.

(* ================================================================== *)
(** ** JavaScript primitives *)
(* ================================================================== *)

Module JS.

(** Strings are sequences of code units below 256 ([string] of the
    standard library); [length] counts them. *)

(** A JavaScript number.  Finite values are kept as exact rationals: the
    binary64 rounding of non-integers, and overflow and underflow, are
    not part of this model, which agrees with the engine on every
    integer below 2^53; the component computes with such integers. *)
Inductive number :=
| NaN
| Finite (q : Q)
| Infinity (negative : bool).

Definition isNaN (n : number) : bool :=
  match n with NaN => true | _ => false end.

Definition Qlt_bool (x y : Q) : bool := negb (Qle_bool y x).

(** [a < b]; every comparison with [NaN] is false. *)
Definition lt (a b : number) : bool :=
  match a, b with
  | NaN, _ | _, NaN => false
  | Finite x, Finite y => Qlt_bool x y
  | Finite _, Infinity neg => negb neg
  | Infinity neg, Finite _ => neg
  | Infinity n1, Infinity n2 => n1 && negb n2
  end.

Definition gt (a b : number) : bool := lt b a.

Definition Qsign_neg (q : Q) : bool := Qlt_bool q 0.

Definition mul (a b : number) : number :=
  match a, b with
  | NaN, _ | _, NaN => NaN
  | Finite x, Finite y => Finite (Qred (x * y))
  | Finite x, Infinity neg | Infinity neg, Finite x =>
      if Qeq_bool x 0 then NaN else Infinity (xorb neg (Qsign_neg x))
  | Infinity n1, Infinity n2 => Infinity (xorb n1 n2)
  end.

Definition ofZ (z : Z) : number := Finite (inject_Z z).

(** *** [Number(string)]: StringToNumber *)

Definition code (c : ascii) : Z := Z.of_N (N_of_ascii c).

(** WhiteSpace and LineTerminator code units below 256. *)
Definition isWhiteSpace (c : ascii) : bool :=
  let n := code c in
  ((9 <=? n) && (n <=? 13) || (n =? 32) || (n =? 160))%Z.

Fixpoint trimStart (cs : list ascii) : list ascii :=
  match cs with
  | c :: cs' => if isWhiteSpace c then trimStart cs' else cs
  | [] => []
  end.

Definition trim (cs : list ascii) : list ascii :=
  rev (trimStart (rev (trimStart cs))).

Definition digitValue (c : ascii) : option Z :=
  let n := code c in
  (if (48 <=? n) && (n <=? 57) then Some (n - 48)
   else if (97 <=? n) && (n <=? 102) then Some (n - 87)
   else if (65 <=? n) && (n <=? 70) then Some (n - 55)
   else None)%Z.

Definition isDecimalDigit (c : ascii) : bool :=
  let n := code c in ((48 <=? n) && (n <=? 57))%Z.

Fixpoint digits (base : Z) (cs : list ascii) (acc : Z) : option Z :=
  match cs with
  | [] => Some acc
  | c :: cs' =>
      match digitValue c with
      | Some d => if (d <? base)%Z then digits base cs' (acc * base + d)%Z else None
      | None => None
      end
  end.

(** One or more digits of the base. *)
Definition digits1 (base : Z) (cs : list ascii) : option Z :=
  match cs with [] => None | _ => digits base cs 0 end.

Fixpoint spanDigits (cs : list ascii) : list ascii * list ascii :=
  match cs with
  | c :: cs' =>
      if isDecimalDigit c
      then let (d, r) := spanDigits cs' in (c :: d, r)
      else ([], cs)
  | [] => ([], [])
  end.

Definition parseExponent (cs : list ascii) : option Z :=
  match cs with
  | [] => Some 0%Z
  | e :: r =>
      if (Ascii.eqb e "e" || Ascii.eqb e "E")%char then
        match r with
        | "+"%char :: d => digits1 10 d
        | "-"%char :: d => option_map Z.opp (digits1 10 d)
        | d => digits1 10 d
        end
      else None
  end.

Definition parseUnsignedDecimal (cs : list ascii) : option number :=
  if String.eqb (string_of_list_ascii cs) "Infinity" then Some (Infinity false)
  else
    let (ip, r1) := spanDigits cs in
    let (fp, r2) := match r1 with
                    | "."%char :: t => spanDigits t
                    | _ => ([], r1)
                    end in
    match ip, fp with
    | [], [] => None
    | _, _ =>
        match parseExponent r2, digits 10 (ip ++ fp) 0 with
        | Some e, Some m =>
            Some (Finite (Qred (inject_Z m * Qpower 10 (e - Z.of_nat (List.length fp)))))
        | _, _ => None
        end
    end.

Definition negate (n : number) : number :=
  match n with
  | NaN => NaN
  | Finite q => Finite (Qred (- q))
  | Infinity neg => Infinity (negb neg)
  end.

Definition parseDecimal (cs : list ascii) : option number :=
  match cs with
  | "+"%char :: r => parseUnsignedDecimal r
  | "-"%char :: r => option_map negate (parseUnsignedDecimal r)
  | _ => parseUnsignedDecimal cs
  end.

Definition parseNonDecimal (cs : list ascii) : option number :=
  match cs with
  | "0"%char :: p :: r =>
      let base := (if Ascii.eqb p "x" || Ascii.eqb p "X" then Some 16
                   else if Ascii.eqb p "o" || Ascii.eqb p "O" then Some 8
                   else if Ascii.eqb p "b" || Ascii.eqb p "B" then Some 2
                   else None)%char%Z in
      match base with
      | Some b => option_map ofZ (digits1 b r)
      | None => None
      end
  | _ => None
  end.

(** [Number(s)] for a string [s]. *)
Definition Number (s : string) : number :=
  match trim (list_ascii_of_string s) with
  | [] => ofZ 0
  | cs =>
      match parseNonDecimal cs with
      | Some n => n
      | None => match parseDecimal cs with Some n => n | None => NaN end
      end
  end.

(** *** Values of mixed type: [string | number | undefined] *)

Inductive value :=
| Undefined
| Str (s : string)
| Num (n : number).

Definition numberTruthy (n : number) : bool :=
  match n with
  | NaN => false
  | Finite q => negb (Qeq_bool q 0)
  | Infinity _ => true
  end.

Definition stringTruthy (s : string) : bool :=
  match s with EmptyString => false | _ => true end.

(** ToBoolean. *)
Definition truthy (v : value) : bool :=
  match v with
  | Undefined => false
  | Str s => stringTruthy s
  | Num n => numberTruthy n
  end.

(** [a || b] and [a && b]. *)
Definition or (a b : value) : value := if truthy a then a else b.
Definition and (a b : value) : value := if truthy a then b else a.

(** [Number(v)]. *)
Definition ToNumber (v : value) : number :=
  match v with
  | Undefined => NaN
  | Str s => Number s
  | Num n => n
  end.

(** *** String methods *)

(** [s.slice(0, -1)] *)
Definition sliceDropLast (s : string) : string :=
  string_of_list_ascii (removelast (list_ascii_of_string s)).

(** [s.slice(-2)] *)
Definition sliceLast2 (s : string) : string :=
  let n := String.length s in substring (n - 2) 2 s.

(** [xs.includes(x)] on an array of strings. *)
Definition includes (xs : list string) (x : string) : bool :=
  existsb (String.eqb x) xs.

(** *** [Number::toString] *)

Section ToString.

(** The digits of a number that is not an integer below 10^21 (the
    shortest round-trip decimal of a binary64) are left to the engine. *)
Variable fractionToString : Q -> string.

Definition numberToString (n : number) : string :=
  match n with
  | NaN => "NaN"
  | Infinity neg => if neg then "-Infinity" else "Infinity"
  | Finite q =>
      let r := Qred q in
      if (Pos.eqb (Qden r) 1 && (Z.abs (Qnum r) <? 10 ^ 21))%Z
      then NilEmpty.string_of_int (Z.to_int (Qnum r))
      else fractionToString q
  end.

(** Template-literal interpolation [`${v}`]. *)
Definition toString (v : value) : string :=
  match v with
  | Undefined => "undefined"
  | Str s => s
  | Num n => numberToString n
  end.

End ToString.

End JS.

(* ================================================================== *)
(** ** The DOM as the component sees it *)
(* ================================================================== *)

Module DOM.

(** The properties of an element that [TimeInput] reads. *)
Record HTMLElement := {
  name : string;
  type : string;
  value : string;
  max : option string;            (* getAttribute('max') *)
  valid : bool;                   (* validity.valid *)
  dataset_input : option string   (* dataset.input *)
}.

(** [valueAsNumber] of a number input: its value is sanitized by the
    browser to the empty string or a floating-point literal, on which the
    HTML parsing rules and [Number] agree. *)
Definition valueAsNumber (e : HTMLElement) : JS.number :=
  match value e with
  | EmptyString => JS.NaN
  | v => JS.Number v
  end.

(** The children of the wrapper [div], in document order, and the index
    of the focused one. *)
Record Document := {
  children : list HTMLElement;
  activeElement : option nat
}.

Inductive Sibling := previousElementSibling | nextElementSibling.

End DOM.

(* ================================================================== *)
(** ** Results of code that may throw *)
(* ================================================================== *)

(** [new Error(message)] *)
Record Error := { message : string }.

Inductive Result (A : Type) :=
| Ok (a : A)
| Throw (e : Error).
Arguments Ok {A} a.
Arguments Throw {A} e.

Definition bind {A B} (r : Result A) (k : A -> Result B) : Result B :=
  match r with
  | Ok a => k a
  | Throw e => Throw e
  end.

Notation "x <- r ;; k" := (bind r (fun x => k))
  (at level 61, r at next level, right associativity).

(* ================================================================== *)
(** ** TimeInput *)
(* ================================================================== *)

Inductive AmPmType := am | pm.

Definition AmPmType_eqb (a b : AmPmType) : bool :=
  match a, b with
  | am, am | pm, pm => true
  | _, _ => false
  end.

Definition amPmString (a : AmPmType) : string :=
  match a with am => "am" | pm => "pm" end.

(** [value as AmPmType] for the value of the meridiem [select], whose
    options are [''], ['am'] and ['pm']; [''] is falsy like [null]. *)
Definition asAmPmType (s : string) : option AmPmType :=
  if String.eqb s "am" then Some am
  else if String.eqb s "pm" then Some pm
  else None.

Definition amPmValueOf (a : option AmPmType) : JS.value :=
  match a with
  | Some x => JS.Str (amPmString x)
  | None => JS.Undefined
  end.

Module Detail.
Inductive t := hour | minute | second.
End Detail.

(** [LooseValuePiece]: [string | Date | null]; the instant of a [Date] is
    not inspected by the code modelled here. *)
Inductive LooseValuePiece :=
| VString (s : string)
| VDate (time : Z)
| VNull.

(** Calls made on the callbacks received as props. *)
Inductive Call :=
| OnChange (value : option string) (shouldCloseClock : bool)
| OnInvalidChange.

(* ================================================================== *)
(** ** The hour convention converter ([shared/dates]) *)
(* ================================================================== *)

Module HourConvention.

(** Modelled from the spec: [convert24to12] of [shared/dates], which is
    not among the sources.  "[to12(hour24) -> (hour12, meridiem)] where
    hour 0 -> (12, am), 1-11 -> (h, am), 12 -> (12, pm), 13-23 ->
    (h-12, pm)"; the spec gives no value outside 0..23. *)
Definition to12 (hour24 : Z) : option (Z * AmPmType) :=
  (if hour24 =? 0 then Some (12, am)
   else if (1 <=? hour24) && (hour24 <=? 11) then Some (hour24, am)
   else if hour24 =? 12 then Some (12, pm)
   else if (13 <=? hour24) && (hour24 <=? 23) then Some (hour24 - 12, pm)
   else None)%Z.

(** Modelled from the spec: [convert12to24] of [shared/dates], which is
    not among the sources.  "[to24(hour12, meridiem) -> hour24] is the
    inverse; fails (or must be guarded by callers) for hour12 outside
    1-12." *)
Definition to24 (hour12 : Z) (meridiem : AmPmType) : option Z :=
  (if (1 <=? hour12) && (hour12 <=? 12) then
     Some match meridiem with
          | am => if hour12 =? 12 then 0 else hour12
          | pm => if hour12 =? 12 then 12 else hour12 + 12
          end
   else None)%Z.

End HourConvention.

(* ================================================================== *)
(** ** Instances of the collaborators, for running the model *)
(* ================================================================== *)

Module Sample.

Definition integerOf (n : JS.number) : option Z :=
  match n with
  | JS.Finite q => let r := Qred q in
                   if Pos.eqb (Qden r) 1 then Some (Qnum r) else None
  | _ => None
  end.

(** The converters of the spec on the hours it describes, [NaN]
    elsewhere. *)
Definition convert24to12 (hour24 : JS.value) : JS.number * AmPmType :=
  match integerOf (JS.ToNumber hour24) with
  | Some h => match HourConvention.to12 h with
              | Some (h12, m) => (JS.ofZ h12, m)
              | None => (JS.NaN, am)
              end
  | None => (JS.NaN, am)
  end.

Definition convert12to24 (hour12 amPm : JS.value) : JS.number :=
  match integerOf (JS.ToNumber hour12), amPm with
  | Some h, JS.Str a =>
      match asAmPmType a with
      | Some m => match HourConvention.to24 h m with
                  | Some h24 => JS.ofZ h24
                  | None => JS.NaN
                  end
      | None => JS.NaN
      end
  | _, _ => JS.NaN
  end.

(** On a zero-padded [hh:mm:ss] string the date utilities return the
    [hh:mm] prefix and the whole string. *)
Definition getHoursMinutes (value : string) : string := substring 0 5 value.
Definition getHoursMinutesSeconds (value : string) : string := substring 0 8 value.

Definition fractionToString (q : Q) : string := "".

Definition numberInput (name value max : string) : DOM.HTMLElement :=
  {| DOM.name := name; DOM.type := "number"; DOM.value := value;
     DOM.max := Some max; DOM.valid := true; DOM.dataset_input := Some "true" |}.

Definition select (value : string) : DOM.HTMLElement :=
  {| DOM.name := "amPm"; DOM.type := "select-one"; DOM.value := value;
     DOM.max := None; DOM.valid := true; DOM.dataset_input := Some "true" |}.

Definition dividerSpan : DOM.HTMLElement :=
  {| DOM.name := ""; DOM.type := ""; DOM.value := "";
     DOM.max := None; DOM.valid := true; DOM.dataset_input := None |}.

End Sample.

Module TimeInput.

Import DOM.

Definition allViews : list Detail.t := [Detail.hour; Detail.minute; Detail.second].
Definition acceptedFirstDigitsForHour : list string := ["0"; "1"; "2"].

Definition isInternalInput (element : HTMLElement) : bool :=
  match dataset_input element with
  | Some s => String.eqb s "true"
  | None => false
  end.

(** First internal input among [els], whose head has index [k]. *)
Fixpoint firstInternalUp (els : list HTMLElement) (k : nat) : option nat :=
  match els with
  | [] => None
  | e :: r => if isInternalInput e then Some k else firstInternalUp r (S k)
  end.

(** The same walking down: the head of [els] has index [k]. *)
Fixpoint firstInternalDown (els : list HTMLElement) (k : nat) : option nat :=
  match els with
  | [] => None
  | e :: r => if isInternalInput e then Some k else firstInternalDown r (pred k)
  end.

(** [findInput(element, property)], for the element at index [i]: the
    loop steps to the sibling first and stops at an internal input or at
    the end of the sibling chain. *)
Definition findInput (doc : Document) (i : nat) (property : Sibling) : option nat :=
  match property with
  | nextElementSibling => firstInternalUp (skipn (S i) (children doc)) (S i)
  | previousElementSibling => firstInternalDown (rev (firstn i (children doc))) (pred i)
  end.

(** [focus(element)]: the element, when there is one, becomes the active
    element.  The [blur] event that [element.focus()] dispatches on the
    element that loses the focus is delivered by [keyDownEvent] below. *)
Definition focus (element : option nat) (doc : Document) : Document :=
  match element with
  | Some j => {| children := children doc; activeElement := Some j |}
  | None => doc
  end.

(** Component state: the [useState] slots and the [useRef] cells that
    hold plain values. *)
Record State := {
  amPm : option AmPmType;
  twoDigitHour : string;
  hour : option string;
  minute : option string;
  second : option string;
  value : LooseValuePiece;
  isClockOpen : option bool;
  lastPressedKey : option string
}.

Definition setAmPm (a : option AmPmType) (st : State) : State :=
  {| amPm := a; twoDigitHour := twoDigitHour st; hour := hour st;
     minute := minute st; second := second st; value := value st;
     isClockOpen := isClockOpen st; lastPressedKey := lastPressedKey st |}.

Definition setTwoDigitHour (s : string) (st : State) : State :=
  {| amPm := amPm st; twoDigitHour := s; hour := hour st;
     minute := minute st; second := second st; value := value st;
     isClockOpen := isClockOpen st; lastPressedKey := lastPressedKey st |}.

Definition setHour (h : option string) (st : State) : State :=
  {| amPm := amPm st; twoDigitHour := twoDigitHour st; hour := h;
     minute := minute st; second := second st; value := value st;
     isClockOpen := isClockOpen st; lastPressedKey := lastPressedKey st |}.

Definition setMinute (m : option string) (st : State) : State :=
  {| amPm := amPm st; twoDigitHour := twoDigitHour st; hour := hour st;
     minute := m; second := second st; value := value st;
     isClockOpen := isClockOpen st; lastPressedKey := lastPressedKey st |}.

Definition setSecond (s : option string) (st : State) : State :=
  {| amPm := amPm st; twoDigitHour := twoDigitHour st; hour := hour st;
     minute := minute st; second := s; value := value st;
     isClockOpen := isClockOpen st; lastPressedKey := lastPressedKey st |}.

Definition setLastPressedKey (k : option string) (st : State) : State :=
  {| amPm := amPm st; twoDigitHour := twoDigitHour st; hour := hour st;
     minute := minute st; second := second st; value := value st;
     isClockOpen := isClockOpen st; lastPressedKey := k |}.

(** The state of a freshly mounted component. *)
Definition initialState (isClockOpenProps : option bool) : State :=
  {| amPm := None; twoDigitHour := ""; hour := None; minute := None;
     second := None; value := VNull; isClockOpen := isClockOpenProps;
     lastPressedKey := None |}.

Record KeyboardEvent := {
  key : string;
  target : nat     (* index of the target among the wrapper's children *)
}.

Record ChangeEvent := {
  targetName : string;
  targetValue : string
}.

Definition isHourName (name : string) : bool :=
  JS.includes ["hour12"; "hour24"] name.

(** [/[^0-9a-z]/i] on one character. *)
Definition isAlphaNumeric (c : ascii) : bool :=
  let n := JS.code c in
  ((48 <=? n) && (n <=? 57) || (97 <=? n) && (n <=? 122) || (65 <=? n) && (n <=? 90))%Z.

(** [placeholder.match(/[^0-9a-z]/i)]: the first such character, or null. *)
Fixpoint firstDivider (s : string) : option string :=
  match s with
  | EmptyString => None
  | String c r => if isAlphaNumeric c then firstDivider r else Some (String c "")
  end.

(** *** The format tokenizer *)

(** What the render functions return: the field widget with the props
    computed from the token, or a divider, or plain text. *)
Inductive ReactNode :=
| Text (s : string)
| Divider (index : nat) (children : string)
| Hour12Input (showLeadingZeros autoFocus isFirstDigitZero : bool)
    (amPm : option AmPmType) (value : option string)
| Hour24Input (showLeadingZeros autoFocus : bool) (value : option string)
| MinuteInput (showLeadingZeros autoFocus : bool) (hour value : option string)
| SecondInput (showLeadingZeros autoFocus : bool) (hour minute value : option string)
| AmPm (autoFocus : bool) (value : option AmPmType)
| NativeInput (value : LooseValuePiece) (valueType : Detail.t).

(** The render functions, compared by identity in [usedFunctions]. *)
Inductive RenderFunction := RenderHour | RenderMinute | RenderSecond | RenderAmPm.

Definition RenderFunction_eqb (f g : RenderFunction) : bool :=
  match f, g with
  | RenderHour, RenderHour | RenderMinute, RenderMinute
  | RenderSecond, RenderSecond | RenderAmPm, RenderAmPm => true
  | _, _ => false
  end.

(** [elementFunctions]: one-letter keys in declaration order. *)
Definition ElementFunctions := list (ascii * RenderFunction).

Definition isKey (elementFunctions : ElementFunctions) (c : ascii) : bool :=
  existsb (fun kf => Ascii.eqb (fst kf) c) elementFunctions.

Definition startsWith (c : ascii) (s : string) : bool :=
  match s with
  | String d _ => Ascii.eqb c d
  | EmptyString => false
  end.

(** [placeholder.split(pattern)] and [placeholder.match(pattern)] for the
    global pattern [k1+|k2+|...] over the keys: the text before the first
    match, then every match with the text that follows it.  A match is a
    maximal run of one key letter.  The keys are single letters or
    digits, as are [h], [H], [m], [s] and [a] of the only caller: for
    such a key [k] the pattern [k+] matches the runs of the character
    [k] and nothing else. *)
Fixpoint tokenize (elementFunctions : ElementFunctions) (s : string)
  : string * list (string * string) :=
  match s with
  | EmptyString => ("", [])
  | String c r =>
      let (element, rest) := tokenize elementFunctions r in
      if isKey elementFunctions c then
        match element, rest with
        | EmptyString, (m, after) :: rest' =>
            if startsWith c m
            then ("", (String c m, after) :: rest')
            else ("", (String c "", "") :: rest)
        | _, _ => ("", (String c "", element) :: rest)
        end
      else (String c element, rest)
  end.

Fixpoint contains (c : ascii) (s : string) : bool :=
  match s with
  | EmptyString => false
  | String d r => Ascii.eqb c d || contains c r
  end.

Fixpoint lookupKey (elementFunctions : ElementFunctions) (k : string)
  : option RenderFunction :=
  match elementFunctions with
  | [] => None
  | (c, f) :: r => if String.eqb k (String c "") then Some f else lookupKey r k
  end.

(** [elementFunctions[currentMatch] ||
     elementFunctions[Object.keys(elementFunctions).find((k) => currentMatch.match(k))]] *)
Definition lookupRenderFunction (elementFunctions : ElementFunctions)
  (currentMatch : string) : option RenderFunction :=
  match lookupKey elementFunctions currentMatch with
  | Some f => Some f
  | None =>
      match find (fun kf => contains (fst kf) currentMatch) elementFunctions with
      | Some (_, f) => Some f
      | None => None
      end
  end.

(** [renderCustomInputs]: the reduce over the split pieces, [index]
    counting them; a render function that throws aborts the reduce. *)
Fixpoint renderMatches (apply : RenderFunction -> string -> nat -> Result ReactNode)
  (elementFunctions : ElementFunctions) (allowMultipleInstances : bool)
  (usedFunctions : list RenderFunction) (index : nat)
  (matches : list (string * string)) : Result (list ReactNode) :=
  match matches with
  | [] => Ok []
  | (currentMatch, element) :: rest =>
      let continue used :=
        tail <- renderMatches apply elementFunctions allowMultipleInstances used
                  (S index) rest ;;
        Ok ((if JS.stringTruthy element then Divider (S index) element else Text "")
            :: tail) in
      match lookupRenderFunction elementFunctions currentMatch with
      | None => continue usedFunctions
      | Some renderFunction =>
          if negb allowMultipleInstances
             && existsb (RenderFunction_eqb renderFunction) usedFunctions
          then
            tail <- continue usedFunctions ;;
            Ok (Text currentMatch :: tail)
          else
            node <- apply renderFunction currentMatch index ;;
            tail <- continue (app usedFunctions [renderFunction]) ;;
            Ok (node :: tail)
      end
  end.

Definition renderCustomInputs (apply : RenderFunction -> string -> nat -> Result ReactNode)
  (placeholder : string) (elementFunctions : ElementFunctions)
  (allowMultipleInstances : bool) : Result (list ReactNode) :=
  let (element, matches) := tokenize elementFunctions placeholder in
  tail <- renderMatches apply elementFunctions allowMultipleInstances [] 0 matches ;;
  Ok ((if JS.stringTruthy element then Divider 0 element else Text "") :: tail).

(** The keys of the ten digits. *)
Definition isDigitKey (k : string) : bool :=
  JS.includes ["0"; "1"; "2"; "3"; "4"; "5"; "6"; "7"; "8"; "9"] k.

(** The values [KeyboardEvent.key] takes: the one character the key
    produces, or the name of a key ([Backspace], [ArrowLeft], [Shift],
    ...); no key name reads as a number. *)
Definition keyValue (k : string) : Prop :=
  String.length k = 1 \/ JS.isNaN (JS.Number k) = true.

(** The shapes the accumulator takes: empty, an accepted first digit, or
    an accepted first digit and one more numeric key, below 4 after
    a ["2"]. *)
Definition accumulatorShape (acc : string) : bool :=
  match acc with
  | EmptyString => true
  | String d EmptyString => JS.includes acceptedFirstDigitsForHour (String d "")
  | String d (String k EmptyString) =>
      JS.includes acceptedFirstDigitsForHour (String d "")
      && negb (JS.isNaN (JS.Number (String k "")))
      && (negb (String.eqb (String d "") "2")
          || JS.lt (JS.Number (String k "")) (JS.ofZ 4))
  | _ => false
  end.

(** The pieces of a tokenized placeholder put back together. *)
Fixpoint joinMatches (matches : list (string * string)) : string :=
  match matches with
  | [] => ""
  | (m, after) :: rest => m ++ after ++ joinMatches rest
  end.

(** Two matches with nothing between them are runs of different letters. *)
Fixpoint maximalRuns (matches : list (string * string)) : Prop :=
  match matches with
  | (m1, after) :: (((m2, _) :: _) as rest) =>
      (after = "" -> forall c, startsWith c m1 = true -> startsWith c m2 = false)
      /\ maximalRuns rest
  | _ => True
  end.

(** The render function a field node comes from. *)
Definition renderedBy (node : ReactNode) : option RenderFunction :=
  match node with
  | Hour12Input _ _ _ _ _ | Hour24Input _ _ _ => Some RenderHour
  | MinuteInput _ _ _ _ => Some RenderMinute
  | SecondInput _ _ _ _ _ => Some RenderSecond
  | AmPm _ _ => Some RenderAmPm
  | Text _ | Divider _ _ | NativeInput _ _ => None
  end.

Definition isRenderedBy (f : RenderFunction) (node : ReactNode) : bool :=
  match renderedBy node with
  | Some g => RenderFunction_eqb f g
  | None => false
  end.

Definition isFieldNode (node : ReactNode) : bool :=
  match renderedBy node with Some _ => true | None => false end.

(** The [autoFocus] prop of a field widget. *)
Definition autoFocused (node : ReactNode) : bool :=
  match node with
  | Hour12Input _ autoFocus _ _ _ => autoFocus
  | Hour24Input _ autoFocus _ => autoFocus
  | MinuteInput _ autoFocus _ _ => autoFocus
  | SecondInput _ autoFocus _ _ _ => autoFocus
  | AmPm autoFocus _ => autoFocus
  | Text _ | Divider _ _ | NativeInput _ _ => false
  end.

(** *** The formatter options and their cache *)

Module Intl.

(** The [Intl.DateTimeFormatOptions] the component builds. *)
Record DateTimeFormatOptions := {
  hour : option string;
  minute : option string;
  second : option string
}.

End Intl.

(** [allViews.indexOf(maxDetail)] *)
Fixpoint indexOfFrom (views : list Detail.t) (d : Detail.t) (k : Z) : Z :=
  match views with
  | [] => (-1)%Z
  | v :: r =>
      if match v, d with
         | Detail.hour, Detail.hour | Detail.minute, Detail.minute
         | Detail.second, Detail.second => true
         | _, _ => false
         end
      then k else indexOfFrom r d (k + 1)%Z
  end.

Definition indexOf (views : list Detail.t) (d : Detail.t) : Z := indexOfFrom views d 0.

(** [getFormatterOptionsCache]: a module-level object keyed by level,
    shared by every render of every instance. *)
Definition FormatterOptionsCache := list (Z * Intl.DateTimeFormatOptions).

Fixpoint cacheGet (cache : FormatterOptionsCache) (level : Z)
  : option Intl.DateTimeFormatOptions :=
  match cache with
  | [] => None
  | (l, o) :: r => if Z.eqb l level then Some o else cacheGet r level
  end.

(** The options built when the cache has none for the level. *)
Definition buildOptions (level : Z) : Intl.DateTimeFormatOptions :=
  {| Intl.hour := Some "numeric";
     Intl.minute := if (1 <=? level)%Z then Some "numeric" else None;
     Intl.second := if (2 <=? level)%Z then Some "numeric" else None |}.

(** The [formatterOptions] of one render: the cached options of the
    level, or fresh ones, which are then cached. *)
Definition formatterOptions (maxDetail : Detail.t) (cache : FormatterOptionsCache)
  : Intl.DateTimeFormatOptions * FormatterOptionsCache :=
  let level := indexOf allViews maxDetail in
  match cacheGet cache level with
  | Some options => (options, cache)
  | None => let options := buildOptions level in (options, (level, options) :: cache)
  end.

(** The cache after renders with the given [maxDetail] props, one after
    the other. *)
Fixpoint cacheAfter (renders : list Detail.t) (cache : FormatterOptionsCache)
  : FormatterOptionsCache :=
  match renders with
  | [] => cache
  | d :: r => cacheAfter r (snd (formatterOptions d cache))
  end.

(** What holds of the cache after any sequence of renders that starts
    from the empty cache. *)
Definition cacheInvariant (cache : FormatterOptionsCache) : Prop :=
  (forall level options,
      cacheGet cache level = Some options -> options = buildOptions level)
  /\ NoDup (map fst cache)
  /\ incl (map fst cache) [0%Z; 1%Z; 2%Z].

(** A run of [n] copies of one letter. *)
Fixpoint run (c : ascii) (n : nat) : string :=
  match n with
  | O => ""
  | S k => String c (run c k)
  end.

(** The letters of the digit-entry fields. *)
Definition numericLetters : list ascii := ["h"; "H"; "m"; "s"]%char.

(** A run of three or more letters of a digit-entry field. *)
Definition unsupported (currentMatch : string) : Prop :=
  exists c n, In c numericLetters /\ currentMatch = run c (S n) /\ 2 < S n.

(** The name a field widget gives its element. *)
Definition hasName (n : string) (e : option DOM.HTMLElement) : Prop :=
  match e with
  | Some x => DOM.name x = n
  | None => True
  end.

Definition hasType (t : string) (e : option DOM.HTMLElement) : Prop :=
  match e with
  | Some x => DOM.type x = t
  | None => True
  end.

Section Component.

#[local] Set Default Proof Using "Type".

(** [convert24to12] and [convert12to24] of [shared/dates], as the
    component calls them, on strings and numbers alike. *)
Variable convert24to12 : JS.value -> JS.number * AmPmType.
Variable convert12to24 : JS.value -> JS.value -> JS.number.

(** [getHoursMinutes] and [getHoursMinutesSeconds] of the date utilities. *)
Variable getHoursMinutes : string -> string.
Variable getHoursMinutesSeconds : string -> string.

Variable fractionToString : Q -> string.

(** The placeholder derived from the locale when no format is given. *)
Variable localePlaceholder : string.

(** The props the modelled code reads. *)
Variable format : option string.
Variable maxDetail : Detail.t.
Variable autoFocus : bool.
Variable onChangeProps : bool.       (* is the callback supplied? *)
Variable onInvalidChange : bool.     (* is the callback supplied? *)
Variable valueProps : LooseValuePiece.

Definition valueType : Detail.t := maxDetail.

(** [format || (() => ...)()] *)
Definition placeholder : string :=
  match format with
  | Some f => if JS.stringTruthy f then f else localePlaceholder
  | None => localePlaceholder
  end.

Definition divider : option string := firstDivider placeholder.

Definition elementAt (doc : Document) (i : nat) : option HTMLElement :=
  nth_error (children doc) i.

(** [event.target.name]; the target of an event is one of the children. *)
Definition nameOfTarget (doc : Document) (event : KeyboardEvent) : string :=
  match elementAt doc (target event) with
  | Some e => name e
  | None => ""
  end.

(** The part of [onKeyDown] that runs on an hour field.  The updater
    given to [setAmPm] is applied at once, to the state of this render. *)
Definition hourKeyDown (name : string) (k : string) (st : State) : State :=
  let isNumber := negb (JS.isNaN (JS.Number k)) in
  if isNumber then
    if negb (Nat.eqb (String.length (twoDigitHour st)) 0)
       || JS.includes acceptedFirstDigitsForHour k then
      if Nat.ltb (String.length (twoDigitHour st)) 2 then
        if negb (String.eqb (twoDigitHour st) "2") || JS.lt (JS.Number k) (JS.ofZ 4)
        then setTwoDigitHour (twoDigitHour st ++ k) st
        else st
      else if String.eqb name "hour12" then
        setAmPm (match amPm st with
                 | Some a => Some a
                 | None => Some (snd (convert24to12 (JS.Str (twoDigitHour st))))
                 end) st
      else st
    else st
  else if String.eqb k "Backspace" then
    setTwoDigitHour (JS.sliceDropLast (twoDigitHour st)) st
  else st.

(** [onKeyDown]: the statements of the handler itself.  The new state,
    the document after the focus move, and whether [preventDefault] was
    called.  When the focus move takes the focus from an hour field, the
    browser runs [handleBlurHourInput] before the handler returns: the
    whole event is [keyDownEvent] below. *)
Definition onKeyDown (st : State) (doc : Document) (event : KeyboardEvent)
  : State * Document * bool :=
  let k := key event in
  let st1 := setLastPressedKey (Some k) st in
  let name := nameOfTarget doc event in
  let st2 := if isHourName name then hourKeyDown name k st1 else st1 in
  if String.eqb k "ArrowLeft" || String.eqb k "ArrowRight"
     || match divider with Some d => String.eqb k d | None => false end
  then
    let property := if String.eqb k "ArrowLeft"
                    then previousElementSibling else nextElementSibling in
    let nextInput := findInput doc (target event) property in
    (st2, focus nextInput doc, true)
  else (st2, doc, false).

(** The test that decides the jump to the next field in [onKeyUp]. *)
Definition shouldAdvance (st : State) (name value max : string) : bool :=
  if isHourName name then
    negb (JS.stringTruthy (twoDigitHour st))
    || Nat.eqb (String.length (twoDigitHour st)) 2
    || JS.gt (JS.Number (twoDigitHour st)) (JS.Number max)
    || Nat.leb (String.length max) (String.length (twoDigitHour st))
  else
    JS.gt (JS.mul (JS.Number value) (JS.ofZ 10)) (JS.Number max)
    || Nat.leb (String.length max) (String.length value).

Definition onKeyUp (st : State) (doc : Document) (event : KeyboardEvent) : Document :=
  let k := key event in
  let isLastPressedKey :=
    match lastPressedKey st with
    | Some l => String.eqb l k
    | None => false
    end in
  if negb isLastPressedKey then doc
  else
    let isNumberKey := negb (JS.isNaN (JS.Number k)) in
    if negb isNumberKey then doc
    else
      match elementAt doc (target event) with
      | None => doc
      | Some input =>
          match DOM.max input with
          | None => doc
          | Some max =>
              if negb (JS.stringTruthy max) then doc
              else if shouldAdvance st (name input) (DOM.value input) max
              then focus (findInput doc (target event) nextElementSibling) doc
              else doc
          end
      end.

(** *** The value reconciler *)

(** The refs to the rendered fields; [None] is a ref whose [current] is
    [null] because the field is not rendered. *)
Record Refs := {
  amPmInput : option HTMLElement;
  hour12Input : option HTMLElement;
  hour24Input : option HTMLElement;
  minuteInput : option HTMLElement;
  secondInput : option HTMLElement
}.

(** [[...].filter(filterBoolean)] on an array of refs. *)
Fixpoint filterBoolean (xs : list (option HTMLElement)) : list HTMLElement :=
  match xs with
  | [] => []
  | Some e :: r => e :: filterBoolean r
  | None :: r => filterBoolean r
  end.

Definition hourOverrideTruthy (hourOverride : option string) : bool :=
  match hourOverride with
  | Some h => JS.stringTruthy h
  | None => false
  end.

Definition amPmOverrideTruthy (amPmOverride : option AmPmType) : bool :=
  match amPmOverride with Some _ => true | None => false end.

Definition formElements (refs : Refs) (amPmOverride : option AmPmType)
  (hourOverride : option string) : list HTMLElement :=
  filterBoolean
    (app (if amPmOverrideTruthy amPmOverride then [] else [amPmInput refs])
       (app (if hourOverrideTruthy hourOverride then [] else [hour12Input refs])
          [hour24Input refs; minuteInput refs; secondInput refs])).

(** [formElements.slice(amPmOverride ? 0 : 1)] *)
Definition formElementsWithoutSelect (refs : Refs) (amPmOverride : option AmPmType)
  (hourOverride : option string) : list HTMLElement :=
  skipn (if amPmOverrideTruthy amPmOverride then 0 else 1)
        (formElements refs amPmOverride hourOverride).

(** The [values] object: the latest assignment to a name comes first. *)
Definition Values := list (string * JS.value).

Definition collectValues (els : list HTMLElement) : Values :=
  fold_left
    (fun (values : Values) formElement =>
       (name formElement,
        if String.eqb (type formElement) "number"
        then JS.Num (valueAsNumber formElement)
        else JS.Str (DOM.value formElement)) :: values)
    els [].

Fixpoint getValue (values : Values) (k : string) : JS.value :=
  match values with
  | [] => JS.Undefined
  | (n, v) :: r => if String.eqb n k then v else getValue r k
  end.

Definition isEveryValueEmpty (refs : Refs) (amPmOverride : option AmPmType)
  (hourOverride : option string) : bool :=
  forallb (fun formElement => negb (JS.stringTruthy (DOM.value formElement)))
          (formElementsWithoutSelect refs amPmOverride hourOverride).

Definition isEveryValueFilled (refs : Refs) (amPmOverride : option AmPmType)
  (hourOverride : option string) : bool :=
  forallb (fun formElement => JS.stringTruthy (DOM.value formElement))
          (formElements refs amPmOverride hourOverride).

Definition isEveryValueValid (refs : Refs) (amPmOverride : option AmPmType)
  (hourOverride : option string) : bool :=
  forallb valid (formElements refs amPmOverride hourOverride).

(** [amPmOverride || (!values.amPm && Number(twoDigitHour.current) > 12
    ? 'pm' : values.amPm)] *)
Definition amPmValue (st : State) (values : Values) (amPmOverride : option AmPmType)
  : JS.value :=
  JS.or (amPmValueOf amPmOverride)
        (if negb (JS.truthy (getValue values "amPm"))
            && JS.gt (JS.Number (twoDigitHour st)) (JS.ofZ 12)
         then JS.Str "pm"
         else getValue values "amPm").

(** [`0${num}`.slice(-2)] *)
Definition padStart (num : JS.value) : string :=
  JS.sliceLast2 ("0" ++ JS.toString fractionToString num).

(** The [hh:mm:ss] string composed from the fields. *)
Definition proposedValue (st : State) (refs : Refs) (amPmOverride : option AmPmType)
  (hourOverride : option string) : string :=
  let values := collectValues (formElements refs amPmOverride hourOverride) in
  let amPmV := amPmValue st values amPmOverride in
  let hour :=
    if hourOverrideTruthy hourOverride
    then match hourOverride with Some h => JS.Str h | None => JS.Undefined end
    else
      JS.Num (JS.ToNumber
        (JS.or (JS.or (getValue values "hour24")
                      (JS.and (getValue values "hour12")
                         (JS.and amPmV
                            (JS.Num (convert12to24 (getValue values "hour12") amPmV)))))
               (JS.Num (JS.ofZ 0)))) in
  let minute := JS.Num (JS.ToNumber (JS.or (getValue values "minute") (JS.Num (JS.ofZ 0)))) in
  let second := JS.Num (JS.ToNumber (JS.or (getValue values "second") (JS.Num (JS.ofZ 0)))) in
  padStart hour ++ ":" ++ padStart minute ++ ":" ++ padStart second.

(** [getProcessedValue]: the [default] arm of the switch, which throws
    ['Invalid valueType'], is reached by no value of [Detail]. *)
Definition getProcessedValue (value : string) : Result string :=
  match valueType with
  | Detail.hour | Detail.minute => Ok (getHoursMinutes value)
  | Detail.second => Ok (getHoursMinutesSeconds value)
  end.

(** [processedValue === valueProps] *)
Definition sameAsValueProps (processedValue : string) : bool :=
  match valueProps with
  | VString s => String.eqb processedValue s
  | _ => false
  end.

(** [onChangeExternal(amPmOverride?, hourOverride?)]: the calls made on
    the callbacks. *)
Definition onChangeExternal (st : State) (refs : Refs)
  (amPmOverride : option AmPmType) (hourOverride : option string)
  : Result (list Call) :=
  if negb onChangeProps then Ok []
  else if isEveryValueEmpty refs amPmOverride hourOverride then
    Ok [OnChange None false]
  else if isEveryValueFilled refs amPmOverride hourOverride
          && isEveryValueValid refs amPmOverride hourOverride then
    processedValue <- getProcessedValue (proposedValue st refs amPmOverride hourOverride) ;;
    if sameAsValueProps processedValue then Ok []
    else Ok [OnChange (Some processedValue) false]
  else if negb onInvalidChange then Ok []
  else Ok [OnInvalidChange].

(** The state after the [switch] of [onChange]. *)
Definition onChangeState (st : State) (event : ChangeEvent) : State :=
  let name := targetName event in
  let value := targetValue event in
  if String.eqb name "amPm" then setAmPm (asAmPmType value) st
  else if String.eqb name "hour12" then
    if JS.gt (JS.Number value) (JS.ofZ 23) then st
    else
      let newHour :=
        if JS.stringTruthy value then
          if JS.includes acceptedFirstDigitsForHour (twoDigitHour st) then value
          else
            JS.numberToString fractionToString
              (convert12to24 (JS.Str value)
                 (match amPm st with
                  | Some a => JS.Str (amPmString a)
                  | None => if String.eqb value "12" then JS.Str "pm" else JS.Str "am"
                  end))
        else "" in
      setHour (Some newHour) st
  else if String.eqb name "hour24" then
    if JS.gt (JS.Number value) (JS.ofZ 23) then st
    else setHour (Some value) st
  else if String.eqb name "minute" then setMinute (Some value) st
  else if String.eqb name "second" then setSecond (Some value) st
  else st.

(** [onChange]: called when a non-native input is changed; [refs] is the
    DOM at the time of the event, the target already holding its new
    value. *)
Definition onChange (st : State) (refs : Refs) (event : ChangeEvent)
  : Result (State * list Call) :=
  calls <- onChangeExternal st refs None None ;;
  Ok (onChangeState st event, calls).

(** [onChangeNative] *)
Definition onChangeNative (value : string) : list Call :=
  if negb onChangeProps then []
  else [OnChange (if JS.stringTruthy value then Some value else None) false].

(** [amPm !== newAmPm], with [amPm] a string or [null] and [newAmPm] a
    string or [undefined]. *)
Definition amPmDiffers (amPm newAmPm : option AmPmType) : bool :=
  match amPm, newAmPm with
  | Some a, Some b => negb (AmPmType_eqb a b)
  | _, _ => true
  end.

Definition optionStringIs (o : option string) (s : string) : bool :=
  match o with Some x => String.eqb x s | None => false end.

Definition optionStringTruthy (o : option string) : bool :=
  match o with Some x => JS.stringTruthy x | None => false end.

(** [handleBlurHourInput], on the field named [name]. *)
Definition handleBlurHourInput (st : State) (refs : Refs) (name : string)
  : Result (State * list Call) :=
  let '(st1, newAmPm, newHour) :=
    if String.eqb name "hour12" then
      if optionStringIs (hour st) "0" then
        match amPm st with
        | None | Some am => (setAmPm (Some am) (setHour (Some "12") st), Some am, Some "00")
        | Some pm => (setHour (Some "12") st, None, Some "12")
        end
      else if optionStringTruthy (hour st) then
        let a := match amPm st with
                 | Some a => a
                 | None => snd (convert24to12
                                  (match hour st with Some h => JS.Str h | None => JS.Undefined end))
                 end in
        (setAmPm (Some a) st, Some a, None)
      else (st, None, None)
    else (st, None, None) in
  if JS.stringTruthy (twoDigitHour st) || amPmDiffers (amPm st) newAmPm then
    calls <- onChangeExternal st refs newAmPm newHour ;;
    Ok (setTwoDigitHour "" st1, calls)
  else Ok (st1, []).

(** *** Rendering *)

Definition unsupportedToken (currentMatch : string) : Error :=
  {| message := "Unsupported token: " ++ currentMatch |}.

Definition renderHour12 (st : State) (currentMatch : string) (index : nat)
  : Result ReactNode :=
  if JS.stringTruthy currentMatch && Nat.ltb 2 (String.length currentMatch)
  then Throw (unsupportedToken currentMatch)
  else
    let showLeadingZeros :=
      if JS.stringTruthy currentMatch
      then Nat.eqb (String.length currentMatch) 2 else false in
    Ok (Hour12Input showLeadingZeros (Nat.eqb index 0 && autoFocus)
          (String.eqb (twoDigitHour st) "0") (amPm st) (hour st)).

Definition renderHour24 (st : State) (currentMatch : string) (index : nat)
  : Result ReactNode :=
  if JS.stringTruthy currentMatch && Nat.ltb 2 (String.length currentMatch)
  then Throw (unsupportedToken currentMatch)
  else
    let showLeadingZeros :=
      if JS.stringTruthy currentMatch
      then Nat.eqb (String.length currentMatch) 2 else false in
    Ok (Hour24Input showLeadingZeros (Nat.eqb index 0 && autoFocus) (hour st)).

(** [renderHour]: [/h/.test(currentMatch)] picks the 12-hour input. *)
Definition renderHour (st : State) (currentMatch : string) (index : nat)
  : Result ReactNode :=
  if contains "h" currentMatch
  then renderHour12 st currentMatch index
  else renderHour24 st currentMatch index.

Definition renderMinute (st : State) (currentMatch : string) (index : nat)
  : Result ReactNode :=
  if JS.stringTruthy currentMatch && Nat.ltb 2 (String.length currentMatch)
  then Throw (unsupportedToken currentMatch)
  else
    let showLeadingZeros :=
      if JS.stringTruthy currentMatch
      then Nat.eqb (String.length currentMatch) 2 else false in
    Ok (MinuteInput showLeadingZeros (Nat.eqb index 0 && autoFocus) (hour st) (minute st)).

Definition renderSecond (st : State) (currentMatch : string) (index : nat)
  : Result ReactNode :=
  if JS.stringTruthy currentMatch && Nat.ltb 2 (String.length currentMatch)
  then Throw (unsupportedToken currentMatch)
  else
    let showLeadingZeros :=
      if JS.stringTruthy currentMatch
      then Nat.eqb (String.length currentMatch) 2 else true in
    Ok (SecondInput showLeadingZeros (Nat.eqb index 0 && autoFocus)
          (hour st) (minute st) (second st)).

Definition renderAmPm (st : State) (_currentMatch : string) (index : nat)
  : Result ReactNode :=
  Ok (AmPm (Nat.eqb index 0 && autoFocus) (amPm st)).

Definition applyRenderFunction (st : State) (f : RenderFunction)
  : string -> nat -> Result ReactNode :=
  match f with
  | RenderHour => renderHour st
  | RenderMinute => renderMinute st
  | RenderSecond => renderSecond st
  | RenderAmPm => renderAmPm st
  end.

Definition elementFunctions : ElementFunctions :=
  [("h"%char, RenderHour); ("H"%char, RenderHour); ("m"%char, RenderMinute);
   ("s"%char, RenderSecond); ("a"%char, RenderAmPm)].

Definition renderCustomInputsInternal (st : State) : Result (list ReactNode) :=
  let allowMultipleInstances :=
    match format with Some _ => true | None => false end in
  renderCustomInputs (applyRenderFunction st) placeholder elementFunctions
    allowMultipleInstances.

Definition renderNativeInput (st : State) : ReactNode :=
  NativeInput (value st) valueType.

(** The children of the wrapper [div] that [TimeInput] returns. *)
Definition render (st : State) : Result (list ReactNode) :=
  customInputs <- renderCustomInputsInternal st ;;
  Ok (renderNativeInput st :: customInputs).

(** The refs hold the elements the widgets render. *)
Definition rendered (refs : Refs) : Prop :=
  hasName "amPm" (amPmInput refs)
  /\ hasType "select-one" (amPmInput refs)
  /\ hasName "hour12" (hour12Input refs)
  /\ hasName "hour24" (hour24Input refs)
  /\ hasName "minute" (minuteInput refs)
  /\ hasName "second" (secondInput refs).

(** The digit-entry fields a reconciliation looks at. *)
Definition numericFields (refs : Refs) (hourOverride : option string)
  : list HTMLElement :=
  filterBoolean
    (app (if hourOverrideTruthy hourOverride then [] else [hour12Input refs])
       [hour24Input refs; minuteInput refs; secondInput refs]).

(** *** The blur that a focus move dispatches *)

(** [element.focus()] on another element takes the focus from the active
    element, whose [blur] event is dispatched at once, inside the handler
    that moved the focus.  The hour widgets are the only ones rendered
    with [onBlur]: this is the name of the hour field that loses the
    focus when the document goes from [doc] to [doc'], if one does. *)
Definition blurredHourInput (doc doc' : Document) : option string :=
  match activeElement doc with
  | None => None
  | Some i =>
      if match activeElement doc' with
         | Some j => Nat.eqb i j
         | None => false
         end
      then None
      else
        match elementAt doc i with
        | Some e => if isHourName (name e) then Some (name e) else None
        | None => None
        end
  end.

(** Whether [handleBlurHourInput] calls [setAmPm]: on the 12-hour field,
    with the hour ['0'] and a meridiem that is not ['pm'], or with any
    other non-empty hour. *)
Definition blurSetsAmPm (st : State) (name : string) : bool :=
  String.eqb name "hour12"
  && (if optionStringIs (hour st) "0"
      then match amPm st with
           | None | Some am => true
           | Some pm => false
           end
      else optionStringTruthy (hour st)).

(** A key-down event as the browser delivers it: [onKeyDown], and inside
    it the blur of the hour field that loses the focus.  The blur handler
    is the one of the render in progress: it reads [hour] and [amPm] as
    they were rendered, and the accumulator as [onKeyDown] has left it.
    Its state updates are queued after the one of [onKeyDown]; the
    accumulator is a ref, written at once. *)
Definition keyDownEvent (st : State) (refs : Refs) (doc : Document)
  (event : KeyboardEvent) : Result (State * Document * bool * list Call) :=
  let '(st1, doc', prevented) := onKeyDown st doc event in
  match blurredHourInput doc doc' with
  | None => Ok (st1, doc', prevented, [])
  | Some name =>
      r <- handleBlurHourInput (setTwoDigitHour (twoDigitHour st1) st) refs name ;;
      let '(st2, calls) := r in
      Ok ({| amPm := if blurSetsAmPm st name then amPm st2 else amPm st1;
             twoDigitHour := twoDigitHour st2;
             hour := hour st2;
             minute := minute st1;
             second := second st1;
             value := value st1;
             isClockOpen := isClockOpen st1;
             lastPressedKey := lastPressedKey st1 |},
          doc', prevented, calls)
  end.

(** *** Sequences of events *)

(** Key-down events delivered one after the other. *)
Fixpoint onKeyDowns (events : list KeyboardEvent) (st : State) (doc : Document)
  : State * Document :=
  match events with
  | [] => (st, doc)
  | event :: rest =>
      let '(st', doc', _) := onKeyDown st doc event in
      onKeyDowns rest st' doc'
  end.

Inductive Field := amPmField | hour12Field | hour24Field | minuteField | secondField.

Definition fieldRef (f : Field) (refs : Refs) : option HTMLElement :=
  match f with
  | amPmField => amPmInput refs
  | hour12Field => hour12Input refs
  | hour24Field => hour24Input refs
  | minuteField => minuteInput refs
  | secondField => secondInput refs
  end.

Definition withValue (v : string) (validity : bool) (e : HTMLElement) : HTMLElement :=
  {| name := name e; type := type e; DOM.value := v; max := max e;
     valid := validity; dataset_input := dataset_input e |}.

Definition updateField (f : Field) (g : HTMLElement -> HTMLElement) (refs : Refs) : Refs :=
  {| amPmInput := match f with amPmField => option_map g (amPmInput refs) | _ => amPmInput refs end;
     hour12Input := match f with hour12Field => option_map g (hour12Input refs) | _ => hour12Input refs end;
     hour24Input := match f with hour24Field => option_map g (hour24Input refs) | _ => hour24Input refs end;
     minuteInput := match f with minuteField => option_map g (minuteInput refs) | _ => minuteInput refs end;
     secondInput := match f with secondField => option_map g (secondInput refs) | _ => secondInput refs end |}.

(** [fireEvent.change(input, { target: { value: '' } })] on a rendered
    field: the field is emptied, the browser recomputes its validity, and
    [onChange] runs.  The state slot of the field becomes [''], so the
    render that follows leaves the field empty. *)
Definition clearInput (f : Field) (validity : bool) (st : State) (refs : Refs)
  : Result (State * Refs * list Call) :=
  match fieldRef f refs with
  | None => Ok (st, refs, [])
  | Some input =>
      let refs' := updateField f (withValue "" validity) refs in
      r <- onChange st refs' {| targetName := name input; targetValue := "" |} ;;
      Ok (fst r, refs', snd r)
  end.

(** The fields cleared one after the other; the calls are collected in
    the order they are made. *)
Fixpoint clearInputs (fs : list (Field * bool)) (st : State) (refs : Refs)
  : Result (State * Refs * list Call) :=
  match fs with
  | [] => Ok (st, refs, [])
  | (f, validity) :: rest =>
      r <- clearInput f validity st refs ;;
      let '(st', refs', calls) := r in
      r' <- clearInputs rest st' refs' ;;
      let '(st'', refs'', calls') := r' in
      Ok (st'', refs'', app calls calls')
  end.

Definition isOnChange (c : Call) : bool :=
  match c with OnChange _ _ => true | OnInvalidChange => false end.

(** The child at index [k] is an internal input. *)
Definition internalAt (doc : Document) (k : nat) : Prop :=
  exists e, elementAt doc k = Some e /\ isInternalInput e = true.

(** No child strictly between [a] and [b] is an internal input. *)
Definition noInternalBetween (doc : Document) (a b : nat) : Prop :=
  forall k e, a < k < b -> elementAt doc k = Some e -> isInternalInput e = false.

(** What the loop over the form elements stores for a field: the
    [valueAsNumber] of a number input, the [value] of anything else;
    nothing for a field that is not rendered. *)
Definition fieldValue (field : option HTMLElement) : JS.value :=
  match field with
  | Some formElement =>
      if String.eqb (type formElement) "number"
      then JS.Num (valueAsNumber formElement)
      else JS.Str (DOM.value formElement)
  | None => JS.Undefined
  end.

(** *** Sample data *)

(** The wrapper's children in a 12-hour layout [h:mm a], the hour field
    focused. *)
Definition sampleDocument : Document :=
  {| children := [Sample.dividerSpan; Sample.numberInput "hour12" "" "12";
                  Sample.dividerSpan; Sample.numberInput "minute" "" "59";
                  Sample.dividerSpan; Sample.select ""];
     activeElement := Some 1 |}.

(** A key event on the hour field of [sampleDocument]. *)
Definition sampleKey (k : string) : KeyboardEvent := {| key := k; target := 1 |}.

Definition sampleStateAfter (k : string) : State :=
  setLastPressedKey (Some k) (initialState None).

(** [10:17:03 pm] in a 12-hour layout with seconds. *)
Definition sampleRefs12 : Refs :=
  {| amPmInput := Some (Sample.select "pm");
     hour12Input := Some (Sample.numberInput "hour12" "10" "12");
     hour24Input := None;
     minuteInput := Some (Sample.numberInput "minute" "17" "59");
     secondInput := Some (Sample.numberInput "second" "3" "59") |}.

(** [22:17:03] in a 24-hour layout with seconds (format [H:mm:ss]). *)
Definition sampleRefs24 : Refs :=
  {| amPmInput := None;
     hour12Input := None;
     hour24Input := Some (Sample.numberInput "hour24" "22" "23");
     minuteInput := Some (Sample.numberInput "minute" "17" "59");
     secondInput := Some (Sample.numberInput "second" "3" "59") |}.

(** A 12-hour layout with seconds in which nothing is entered. *)
Definition sampleRefsEmpty : Refs :=
  {| amPmInput := Some (Sample.select "");
     hour12Input := Some (Sample.numberInput "hour12" "" "12");
     hour24Input := None;
     minuteInput := Some (Sample.numberInput "minute" "" "59");
     secondInput := Some (Sample.numberInput "second" "" "59") |}.

(** The fields of [sampleDocument]: the layout [h:mm a] with nothing
    entered. *)
Definition sampleRefsOfDocument : Refs :=
  {| amPmInput := Some (Sample.select "");
     hour12Input := Some (Sample.numberInput "hour12" "" "12");
     hour24Input := None;
     minuteInput := Some (Sample.numberInput "minute" "" "59");
     secondInput := None |}.



(** The layout of the format [a]: the meridiem selector alone. *)
Definition sampleRefsMeridiemOnly (selected : string) : Refs :=
  {| amPmInput := Some (Sample.select selected);
     hour12Input := None;
     hour24Input := None;
     minuteInput := None;
     secondInput := None |}.

(* ------------------------------------------------------------------ *)
(** *** Properties of the keystroke router *)
(* ------------------------------------------------------------------ *)

(** The collaborators are data, not facts: they are put aside before a
    propositional solver looks at the context. *)
Ltac forget_collaborators :=
  try clear getHoursMinutes; try clear getHoursMinutesSeconds;
  try clear localePlaceholder; try clear convert24to12;
  try clear convert12to24; try clear fractionToString.

Ltac propositional := forget_collaborators; tauto.

Lemma stringTruthy_false (s : string) : JS.stringTruthy s = false <-> s = "".
Proof. destruct s; simpl; split; congruence. Qed.

Lemma stringTruthy_true (s : string) : JS.stringTruthy s = true <-> s <> "".
Proof. destruct s; simpl; split; congruence. Qed.

Lemma digit_key_cases (k : string) :
  isDigitKey k = true ->
  In k ["0"; "1"; "2"; "3"; "4"; "5"; "6"; "7"; "8"; "9"].
Proof.
  unfold isDigitKey, JS.includes. rewrite existsb_exists.
  intros [x [Hin Heq]]. apply String.eqb_eq in Heq. now subst.
Qed.

Lemma digit_key_is_number (k : string) :
  isDigitKey k = true -> JS.isNaN (JS.Number k) = false.
Proof.
  intros H. apply digit_key_cases in H. simpl in H.
  repeat (destruct H as [H | H]; [subst k; vm_compute; reflexivity |]).
  contradiction.
Qed.

Lemma digit_key_value (k : string) : isDigitKey k = true -> keyValue k.
Proof.
  intros H. left. apply digit_key_cases in H. simpl in H.
  repeat (destruct H as [H | H]; [subst k; reflexivity |]).
  contradiction.
Qed.

Lemma firstInternalUp_ge (els : list HTMLElement) :
  forall k j, firstInternalUp els k = Some j -> k <= j.
Proof.
  induction els as [| e r IH]; simpl; intros k j H.
  - discriminate.
  - destruct (isInternalInput e).
    + injection H as <-. lia.
    + apply IH in H. lia.
Qed.

Lemma findInput_next_after (doc : Document) (i j : nat) :
  findInput doc i nextElementSibling = Some j -> i < j.
Proof. unfold findInput. intros H. apply firstInternalUp_ge in H. lia. Qed.

Lemma shouldAdvance_hour (st : State) (name value max : string) :
  isHourName name = true ->
  (shouldAdvance st name value max = true <->
   twoDigitHour st = ""
   \/ String.length (twoDigitHour st) = 2
   \/ JS.gt (JS.Number (twoDigitHour st)) (JS.Number max) = true
   \/ String.length max <= String.length (twoDigitHour st)).
Proof.
  intros Hn. unfold shouldAdvance. rewrite Hn.
  rewrite !orb_true_iff, negb_true_iff, stringTruthy_false, Nat.eqb_eq, Nat.leb_le.
  propositional.
Qed.

Lemma shouldAdvance_other (st : State) (name value max : string) :
  isHourName name = false ->
  (shouldAdvance st name value max = true <->
   JS.gt (JS.mul (JS.Number value) (JS.ofZ 10)) (JS.Number max) = true
   \/ String.length max <= String.length value).
Proof.
  intros Hn. unfold shouldAdvance. rewrite Hn.
  rewrite orb_true_iff, Nat.leb_le. propositional.
Qed.

Lemma isHourName_spec (name : string) :
  isHourName name = true <-> name = "hour12" \/ name = "hour24".
Proof.
  unfold isHourName, JS.includes. simpl.
  rewrite !orb_true_iff, !String.eqb_eq. forget_collaborators; intuition congruence.
Qed.

Lemma onKeyUp_numeric (st : State) (doc : Document) (event : KeyboardEvent)
  (input : HTMLElement) (max : string) :
  lastPressedKey st = Some (key event) ->
  JS.isNaN (JS.Number (key event)) = false ->
  elementAt doc (target event) = Some input ->
  DOM.max input = Some max ->
  max <> "" ->
  onKeyUp st doc event =
  if shouldAdvance st (name input) (DOM.value input) max
  then focus (findInput doc (target event) nextElementSibling) doc
  else doc.
Proof.
  intros Hk Hn He Hm Hne. unfold onKeyUp.
  rewrite Hk, String.eqb_refl, Hn, He, Hm. simpl.
  apply stringTruthy_true in Hne. rewrite Hne. reflexivity.
Qed.

(** C1.  On a key-up whose key is the last key pressed and a digit, on
    the focused field, which declares a maximum and has an internal input
    after it: the handler moves the focus to that input exactly when, on
    an hour field, the accumulator is empty, or has two characters, or
    reads as more than the maximum, or is as long as the maximum's
    string; on another field, exactly when ten times the value exceeds
    the maximum or the value is as long as the maximum's string.
    Otherwise the document is left as it is. *)
Theorem onKeyUp_advances_exactly_when
  (st : State) (doc : Document) (event : KeyboardEvent)
  (input : HTMLElement) (max : string) (next : nat) :
  lastPressedKey st = Some (key event) ->
  isDigitKey (key event) = true ->
  activeElement doc = Some (target event) ->
  elementAt doc (target event) = Some input ->
  DOM.max input = Some max ->
  max <> "" ->
  findInput doc (target event) nextElementSibling = Some next ->
  let acc := twoDigitHour st in
  let after := onKeyUp st doc event in
  (name input = "hour12" \/ name input = "hour24" ->
   (activeElement after = Some next <->
    acc = ""
    \/ String.length acc = 2
    \/ JS.gt (JS.Number acc) (JS.Number max) = true
    \/ String.length max <= String.length acc))
  /\ (name input <> "hour12" -> name input <> "hour24" ->
      (activeElement after = Some next <->
       JS.gt (JS.mul (JS.Number (DOM.value input)) (JS.ofZ 10)) (JS.Number max) = true
       \/ String.length max <= String.length (DOM.value input)))
  /\ (activeElement after = Some next \/ after = doc)
  /\ children after = children doc.
Proof.
  intros Hk Hd Hact He Hm Hne Hnext acc after.
  assert (Hup : after =
                if shouldAdvance st (name input) (DOM.value input) max
                then focus (Some next) doc else doc).
  { unfold after. rewrite <- Hnext.
    apply onKeyUp_numeric; auto using digit_key_is_number. }
  assert (Hlt : target event < next) by now apply findInput_next_after in Hnext.
  assert (Hiff : activeElement after = Some next <->
                 shouldAdvance st (name input) (DOM.value input) max = true).
  { rewrite Hup.
    destruct (shouldAdvance st (name input) (DOM.value input) max); simpl.
    - propositional.
    - rewrite Hact. split; [intros [= E]; lia | discriminate]. }
  split; [| split; [| split]].
  - intros Hh. apply isHourName_spec in Hh.
    apply shouldAdvance_hour with (st := st) (value := DOM.value input) (max := max) in Hh.
    fold acc in Hh. propositional.
  - intros H1 H2. destruct (isHourName (name input)) eqn:Hh.
    + apply isHourName_spec in Hh. propositional.
    + apply shouldAdvance_other with (st := st) (value := DOM.value input) (max := max) in Hh.
      propositional.
  - rewrite Hup.
    destruct (shouldAdvance st (name input) (DOM.value input) max); simpl; auto.
  - rewrite Hup.
    destruct (shouldAdvance st (name input) (DOM.value input) max); reflexivity.
Qed.

Lemma onKeyUp_without_next_input (st : State) (doc : Document) (event : KeyboardEvent) :
  findInput doc (target event) nextElementSibling = None ->
  onKeyUp st doc event = doc.
Proof.
  intros Hnone. unfold onKeyUp. rewrite Hnone. simpl.
  repeat match goal with
         | |- (if ?b then _ else _) = _ => destruct b
         | |- match ?x with _ => _ end = _ => destruct x
         end; reflexivity.
Qed.

Lemma length_append (s t : string) :
  String.length (s ++ t) = String.length s + String.length t.
Proof. induction s as [| c s IH]; simpl; [reflexivity | now rewrite IH]. Qed.

Lemma accepted_first_digit (d : ascii) :
  JS.includes acceptedFirstDigitsForHour (String d "") = true ->
  d = "0"%char \/ d = "1"%char \/ d = "2"%char.
Proof.
  unfold JS.includes, acceptedFirstDigitsForHour. cbn [existsb].
  rewrite !orb_true_iff, !String.eqb_eq. forget_collaborators; intuition congruence.
Qed.

Lemma accepted_first_digit_in (k : string) :
  JS.includes acceptedFirstDigitsForHour k = true <-> In k ["0"; "1"; "2"].
Proof.
  unfold JS.includes, acceptedFirstDigitsForHour. cbn [existsb In].
  rewrite !orb_true_iff, !String.eqb_eq. forget_collaborators; intuition congruence.
Qed.

(** An accumulator of one of the three shapes has at most two characters
    and reads as a number below 24. *)
Lemma accumulatorShape_bound (acc : string) :
  accumulatorShape acc = true ->
  String.length acc <= 2 /\ JS.lt (JS.Number acc) (JS.ofZ 24) = true.
Proof.
  intros H. destruct acc as [| d [| k [| x r]]];
    cbv beta iota delta [accumulatorShape] in H; try discriminate H.
  - split; [simpl; lia | vm_compute; reflexivity].
  - apply accepted_first_digit in H.
    destruct H as [-> | [-> | ->]]; (split; [simpl; lia | vm_compute; reflexivity]).
  - apply andb_true_iff in H. destruct H as [H Hc].
    apply andb_true_iff in H. destruct H as [Hd Hk].
    split; [simpl; lia |].
    apply accepted_first_digit in Hd.
    destruct k as [b0 b1 b2 b3 b4 b5 b6 b7].
    destruct Hd as [-> | [-> | ->]];
      destruct b0, b1, b2, b3, b4, b5, b6, b7;
      vm_compute in Hk; try discriminate Hk;
      vm_compute in Hc; try discriminate Hc;
      vm_compute; reflexivity.
Qed.

Lemma hourKeyDown_shape (name k : string) (st : State) :
  keyValue k ->
  accumulatorShape (twoDigitHour st) = true ->
  accumulatorShape (twoDigitHour (hourKeyDown name k st)) = true.
Proof.
  intros Hkey Hshape. unfold hourKeyDown.
  destruct (JS.isNaN (JS.Number k)) eqn:Hnan.
  - change (negb true) with false. cbv iota.
    destruct (String.eqb k "Backspace"); [| exact Hshape].
    cbv beta iota delta [setTwoDigitHour twoDigitHour].
    fold (twoDigitHour st).
    destruct (twoDigitHour st) as [| d [| k' [| x r]]];
      cbv beta iota delta [accumulatorShape] in Hshape; try discriminate Hshape.
    + reflexivity.
    + reflexivity.
    + apply andb_true_iff in Hshape. destruct Hshape as [Hshape _].
      apply andb_true_iff in Hshape. destruct Hshape as [Hd _].
      exact Hd.
  - change (negb false) with true. cbv iota.
    destruct Hkey as [Hlen | Hbad]; [| congruence].
    destruct k as [| c [| x r]]; try discriminate Hlen.
    destruct (twoDigitHour st) as [| d [| k' [| x r]]] eqn:Hacc;
      cbv beta iota delta [accumulatorShape] in Hshape; try discriminate Hshape.
    + change (Nat.eqb (String.length "") 0) with true.
      change (Nat.ltb (String.length "") 2) with true.
      change (String.eqb "" "2") with false.
      cbn [negb orb].
      destruct (JS.includes acceptedFirstDigitsForHour (String c "")) eqn:Hin.
      * cbn [setTwoDigitHour twoDigitHour append accumulatorShape]. exact Hin.
      * rewrite Hacc. reflexivity.
    + change (Nat.eqb (String.length (String d "")) 0) with false.
      change (Nat.ltb (String.length (String d "")) 2) with true.
      change (negb false) with true. cbn [orb].
      destruct (negb (String.eqb (String d "") "2")
                || JS.lt (JS.Number (String c "")) (JS.ofZ 4)) eqn:Hc.
      * cbn [setTwoDigitHour twoDigitHour append accumulatorShape].
        rewrite Hshape, Hnan, Hc. reflexivity.
      * rewrite Hacc. cbv beta iota delta [accumulatorShape]. exact Hshape.
    + change (Nat.eqb (String.length (String d (String k' ""))) 0) with false.
      change (Nat.ltb (String.length (String d (String k' ""))) 2) with false.
      change (negb false) with true. cbn [orb].
      destruct (String.eqb name "hour12");
        cbn [setAmPm twoDigitHour]; rewrite Hacc;
        cbv beta iota delta [accumulatorShape]; exact Hshape.
Qed.

Lemma onKeyDown_state (st : State) (doc : Document) (event : KeyboardEvent) :
  fst (fst (onKeyDown st doc event)) =
  let st1 := setLastPressedKey (Some (key event)) st in
  if isHourName (nameOfTarget doc event)
  then hourKeyDown (nameOfTarget doc event) (key event) st1
  else st1.
Proof.
  unfold onKeyDown.
  destruct (String.eqb (key event) "ArrowLeft" || String.eqb (key event) "ArrowRight"
            || match divider with
               | Some d => String.eqb (key event) d
               | None => false
               end); reflexivity.
Qed.

Lemma onKeyDown_shape (st : State) (doc : Document) (event : KeyboardEvent) :
  keyValue (key event) ->
  accumulatorShape (twoDigitHour st) = true ->
  accumulatorShape (twoDigitHour (fst (fst (onKeyDown st doc event)))) = true.
Proof.
  intros Hkey Hshape. rewrite onKeyDown_state. cbv zeta.
  destruct (isHourName (nameOfTarget doc event)).
  - apply hourKeyDown_shape; assumption.
  - exact Hshape.
Qed.

Lemma onKeyDowns_shape (events : list KeyboardEvent) :
  forall (st : State) (doc : Document),
    Forall (fun event => keyValue (key event)) events ->
    accumulatorShape (twoDigitHour st) = true ->
    accumulatorShape (twoDigitHour (fst (onKeyDowns events st doc))) = true.
Proof.
  induction events as [| event rest IH]; intros st doc Hall Hshape.
  - exact Hshape.
  - inversion Hall as [| ? ? Hkey Hrest]; subst.
    cbn [onKeyDowns].
    pose proof (onKeyDown_shape st doc event Hkey Hshape) as Hstep.
    destruct (onKeyDown st doc event) as [[st' doc'] prevented].
    apply IH; assumption.
Qed.

(** The accumulator after a digit key on an hour field. *)
Lemma hourKeyDown_digit (name k : string) (st : State) :
  isDigitKey k = true ->
  twoDigitHour (hourKeyDown name k st) =
  if (negb (Nat.eqb (String.length (twoDigitHour st)) 0)
      || JS.includes acceptedFirstDigitsForHour k)
     && Nat.ltb (String.length (twoDigitHour st)) 2
     && (negb (String.eqb (twoDigitHour st) "2") || JS.lt (JS.Number k) (JS.ofZ 4))
  then twoDigitHour st ++ k
  else twoDigitHour st.
Proof.
  intros Hd. unfold hourKeyDown. rewrite (digit_key_is_number k Hd).
  change (negb false) with true. cbv iota.
  destruct (negb (Nat.eqb (String.length (twoDigitHour st)) 0)
            || JS.includes acceptedFirstDigitsForHour k);
    [| reflexivity].
  destruct (Nat.ltb (String.length (twoDigitHour st)) 2).
  - destruct (negb (String.eqb (twoDigitHour st) "2") || JS.lt (JS.Number k) (JS.ofZ 4));
      reflexivity.
  - destruct (String.eqb name "hour12"); reflexivity.
Qed.

Lemma firstDivider_not_alphanumeric (s d : string) :
  firstDivider s = Some d ->
  exists c, d = String c "" /\ isAlphaNumeric c = false.
Proof.
  induction s as [| c r IH]; simpl; intros H.
  - discriminate.
  - destruct (isAlphaNumeric c) eqn:Hc.
    + auto.
    + injection H as <-. eauto.
Qed.

Lemma digit_key_keeps_focus (st : State) (doc : Document) (event : KeyboardEvent) :
  isDigitKey (key event) = true ->
  snd (fst (onKeyDown st doc event)) = doc.
Proof.
  intros Hd. unfold onKeyDown.
  assert (Hdiv : match divider with
                 | Some d => String.eqb (key event) d
                 | None => false
                 end = false).
  { destruct divider as [d |] eqn:Hdv; [| reflexivity].
    apply firstDivider_not_alphanumeric in Hdv. destruct Hdv as [c [-> Hc]].
    apply digit_key_cases in Hd. cbn [In] in Hd.
    destruct (String.eqb (key event) (String c "")) eqn:He; [| reflexivity].
    apply String.eqb_eq in He. rewrite He in Hd.
    repeat (destruct Hd as [Hd | Hd];
            [injection Hd as <-; vm_compute in Hc; discriminate Hc |]).
    contradiction. }
  rewrite Hdiv.
  apply digit_key_cases in Hd. cbn [In] in Hd.
  repeat (destruct Hd as [Hd | Hd]; [rewrite <- Hd; reflexivity |]).
  contradiction.
Qed.

(** C2.  Along every sequence of key-down events (of keys a keyboard
    event carries), started with an empty accumulator, the accumulator
    has at most two characters and reads as a number below 24.  A digit on an hour field is appended exactly when
    the accumulator is non-empty or the digit is 0, 1 or 2, the
    accumulator has fewer than two characters, and it is not ["2"] with a
    digit of 4 or more; otherwise the accumulator stays.  Typing 2 then 4
    leaves it at ["2"]. *)
Theorem hour_accumulator_invariant :
  (forall (events : list KeyboardEvent) (st : State) (doc : Document),
      Forall (fun event => keyValue (key event)) events ->
      twoDigitHour st = "" ->
      let acc := twoDigitHour (fst (onKeyDowns events st doc)) in
      String.length acc <= 2 /\ JS.lt (JS.Number acc) (JS.ofZ 24) = true)
  /\ (forall (st : State) (doc : Document) (event : KeyboardEvent),
         isHourName (nameOfTarget doc event) = true ->
         isDigitKey (key event) = true ->
         let acc := twoDigitHour st in
         let acc' := twoDigitHour (fst (fst (onKeyDown st doc event))) in
         (acc' = acc ++ key event <->
          (acc <> "" \/ In (key event) ["0"; "1"; "2"])
          /\ String.length acc < 2
          /\ (acc <> "2" \/ JS.lt (JS.Number (key event)) (JS.ofZ 4) = true))
         /\ (acc' = acc ++ key event \/ acc' = acc))
  /\ (forall (st : State) (doc : Document) (two four : KeyboardEvent),
         twoDigitHour st = "" ->
         key two = "2" -> key four = "4" ->
         isHourName (nameOfTarget doc two) = true ->
         isHourName (nameOfTarget doc four) = true ->
         twoDigitHour (fst (onKeyDowns [two; four] st doc)) = "2").
Proof.
  split; [| split].
  - intros events st doc Hall Hempty acc.
    apply accumulatorShape_bound. apply onKeyDowns_shape; [assumption |].
    rewrite Hempty. reflexivity.
  - intros st doc event Hhour Hdigit acc acc'.
    assert (Hacc' : acc' =
                    if (negb (Nat.eqb (String.length acc) 0)
                        || JS.includes acceptedFirstDigitsForHour (key event))
                       && Nat.ltb (String.length acc) 2
                       && (negb (String.eqb acc "2")
                           || JS.lt (JS.Number (key event)) (JS.ofZ 4))
                    then acc ++ key event else acc).
    { unfold acc'. rewrite onKeyDown_state. cbv zeta. rewrite Hhour.
      rewrite hourKeyDown_digit by assumption. reflexivity. }
    assert (Hne : acc ++ key event <> acc).
    { intros E. apply (f_equal String.length) in E. rewrite length_append in E.
      destruct (digit_key_value _ Hdigit) as [Hl | Hn];
        [lia | rewrite digit_key_is_number in Hn by assumption; discriminate]. }
    assert (Hcond : (negb (Nat.eqb (String.length acc) 0)
                     || JS.includes acceptedFirstDigitsForHour (key event))
                    && Nat.ltb (String.length acc) 2
                    && (negb (String.eqb acc "2")
                        || JS.lt (JS.Number (key event)) (JS.ofZ 4)) = true <->
                    (acc <> "" \/ In (key event) ["0"; "1"; "2"])
                    /\ String.length acc < 2
                    /\ (acc <> "2" \/ JS.lt (JS.Number (key event)) (JS.ofZ 4) = true)).
    { rewrite !andb_true_iff, !orb_true_iff, !negb_true_iff, Nat.ltb_lt,
        Nat.eqb_neq, String.eqb_neq, accepted_first_digit_in.
      assert (String.length acc <> 0 <-> acc <> "")
        by (destruct acc; simpl; split; congruence).
      propositional. }
    rewrite Hacc'.
    destruct ((negb (Nat.eqb (String.length acc) 0)
               || JS.includes acceptedFirstDigitsForHour (key event))
              && Nat.ltb (String.length acc) 2
              && (negb (String.eqb acc "2")
                  || JS.lt (JS.Number (key event)) (JS.ofZ 4))).
    + split; [| left; reflexivity]. split; intros _; [apply Hcond |]; reflexivity.
    + split; [| right; reflexivity]. split.
      * intros E. symmetry in E. contradiction.
      * intros H. apply Hcond in H. discriminate H.
  - intros st doc two four Hempty H2 H4 Hn2 Hn4.
    cbn [onKeyDowns].
    assert (Hd2 : isDigitKey (key two) = true) by (rewrite H2; reflexivity).
    assert (Hd4 : isDigitKey (key four) = true) by (rewrite H4; reflexivity).
    pose proof (onKeyDown_state st doc two) as Hs2.
    pose proof (digit_key_keeps_focus st doc two Hd2) as Hf2.
    destruct (onKeyDown st doc two) as [[st2 doc2] p2]. cbn [fst snd] in Hs2, Hf2.
    subst doc2.
    pose proof (onKeyDown_state st2 doc four) as Hs4.
    destruct (onKeyDown st2 doc four) as [[st4 doc4] p4]. cbn [fst snd] in Hs4 |- *.
    rewrite Hs4. cbv zeta. rewrite Hn4.
    rewrite hourKeyDown_digit by assumption.
    cbn [twoDigitHour setLastPressedKey].
    rewrite Hs2. cbv zeta. rewrite Hn2.
    rewrite hourKeyDown_digit by assumption.
    cbn [twoDigitHour setLastPressedKey].
    rewrite Hempty, H2, H4. vm_compute. reflexivity.
Qed.

(** The blur of an hour field empties the accumulator or leaves it. *)
Lemma handleBlurHourInput_accumulator (st st' : State) (refs : Refs) (name : string)
  (calls : list Call) :
  handleBlurHourInput st refs name = Ok (st', calls) ->
  twoDigitHour st' = "" \/ twoDigitHour st' = twoDigitHour st.
Proof.
  unfold handleBlurHourInput.
  set (r := if String.eqb name "hour12" then _ else _).
  assert (Hacc : twoDigitHour (fst (fst r)) = twoDigitHour st).
  { unfold r. destruct (String.eqb name "hour12"); [| reflexivity].
    destruct (optionStringIs (hour st) "0").
    - destruct (amPm st) as [[|] |]; reflexivity.
    - destruct (optionStringTruthy (hour st)); reflexivity. }
  destruct r as [[st1 newAmPm] newHour]. cbn [fst] in Hacc.
  destruct (JS.stringTruthy (twoDigitHour st) || amPmDiffers (amPm st) newAmPm).
  - destruct (onChangeExternal st refs newAmPm newHour) as [c | e]; cbn [bind];
      [intros [= <- _]; left; reflexivity | discriminate].
  - intros [= <- _]. right. exact Hacc.
Qed.

(* ------------------------------------------------------------------ *)
(** *** Properties of the value reconciler *)
(* ------------------------------------------------------------------ *)

Lemma all_empty_notifies (st : State) (refs : Refs)
  (amPmOverride : option AmPmType) (hourOverride : option string) :
  onChangeProps = true ->
  isEveryValueEmpty refs amPmOverride hourOverride = true ->
  onChangeExternal st refs amPmOverride hourOverride = Ok [OnChange None false].
Proof. intros Hp He. unfold onChangeExternal. rewrite Hp, He. reflexivity. Qed.

Lemma forallb_skipn {A} (f : A -> bool) (n : nat) (l : list A) :
  forallb f l = true -> forallb f (skipn n l) = true.
Proof.
  revert l. induction n as [| n IH]; intros [| x l]; simpl; auto.
  intros H. apply andb_true_iff in H. apply IH, H.
Qed.

Lemma formElements_numeric (refs : Refs) (amPmOverride : option AmPmType)
  (hourOverride : option string) :
  formElements refs amPmOverride hourOverride =
  app (if amPmOverrideTruthy amPmOverride then []
       else filterBoolean [amPmInput refs])
      (numericFields refs hourOverride).
Proof.
  unfold formElements, numericFields.
  destruct (amPmOverrideTruthy amPmOverride); [reflexivity |].
  destruct (amPmInput refs); reflexivity.
Qed.

(** Whenever every digit-entry field is empty, the fields are classified
    as all-empty. *)
Lemma numeric_fields_empty_classified (refs : Refs)
  (amPmOverride : option AmPmType) (hourOverride : option string) :
  forallb (fun e => negb (JS.stringTruthy (DOM.value e)))
          (numericFields refs hourOverride) = true ->
  isEveryValueEmpty refs amPmOverride hourOverride = true.
Proof.
  intros H. unfold isEveryValueEmpty, formElementsWithoutSelect.
  rewrite formElements_numeric.
  destruct (amPmOverrideTruthy amPmOverride); [exact H |].
  destruct (amPmInput refs); cbn [filterBoolean app].
  - exact H.
  - now apply forallb_skipn.
Qed.

(** With the meridiem selector rendered, or overridden, the all-empty
    test inspects exactly the digit-entry fields. *)
Lemma all_empty_test_with_selector (refs : Refs)
  (amPmOverride : option AmPmType) (hourOverride : option string) :
  amPmOverrideTruthy amPmOverride = true \/ amPmInput refs <> None ->
  formElementsWithoutSelect refs amPmOverride hourOverride
  = numericFields refs hourOverride.
Proof.
  intros Hsel. unfold formElementsWithoutSelect. rewrite formElements_numeric.
  destruct (amPmOverrideTruthy amPmOverride); [reflexivity |].
  destruct Hsel as [Hsel | Hsel]; [discriminate Hsel |].
  destruct (amPmInput refs); [reflexivity | contradiction].
Qed.

(** Without the selector and without an override, it skips the first
    digit-entry field. *)
Lemma all_empty_test_without_selector (refs : Refs) (hourOverride : option string) :
  amPmInput refs = None ->
  formElementsWithoutSelect refs None hourOverride
  = skipn 1 (numericFields refs hourOverride).
Proof.
  intros Hsel. unfold formElementsWithoutSelect. rewrite formElements_numeric.
  rewrite Hsel. reflexivity.
Qed.

Lemma every_numeric_field_empty_notifies (st : State) (refs : Refs)
  (amPmOverride : option AmPmType) (hourOverride : option string) :
  onChangeProps = true ->
  Forall (fun e => DOM.value e = "") (numericFields refs hourOverride) ->
  onChangeExternal st refs amPmOverride hourOverride = Ok [OnChange None false].
Proof.
  intros Hp Hall. apply all_empty_notifies; [assumption |].
  apply numeric_fields_empty_classified.
  apply forallb_forall. rewrite Forall_forall in Hall.
  intros e He. rewrite (Hall e He). reflexivity.
Qed.

(** C9.  With no digit-entry field rendered, the fields that the
    all-empty test inspects are none, and every reconciliation calls
    [onChange(null, false)], whatever the meridiem selector holds. *)
Theorem no_numeric_field_commits_null (st : State) (refs : Refs)
  (amPmOverride : option AmPmType) (hourOverride : option string) :
  onChangeProps = true ->
  hour12Input refs = None ->
  hour24Input refs = None ->
  minuteInput refs = None ->
  secondInput refs = None ->
  formElementsWithoutSelect refs amPmOverride hourOverride = []
  /\ onChangeExternal st refs amPmOverride hourOverride = Ok [OnChange None false].
Proof.
  intros Hp H12 H24 Hm Hs.
  assert (Hnone : formElementsWithoutSelect refs amPmOverride hourOverride = []).
  { unfold formElementsWithoutSelect, formElements. rewrite H12, H24, Hm, Hs.
    destruct (amPmOverrideTruthy amPmOverride), (hourOverrideTruthy hourOverride),
      (amPmInput refs); reflexivity. }
  split; [exact Hnone |].
  apply all_empty_notifies; [assumption |].
  unfold isEveryValueEmpty. rewrite Hnone. reflexivity.
Qed.

Lemma getValue_selector (refs : Refs) (hourOverride : option string) :
  rendered refs ->
  getValue (collectValues (formElements refs None hourOverride)) "amPm" =
  match amPmInput refs with
  | Some sel => JS.Str (DOM.value sel)
  | None => JS.Undefined
  end.
Proof.
  intros (Ha & Hat & H12 & H24 & Hm & Hs).
  unfold formElements, collectValues.
  destruct refs as [a h12 h24 mi se]; cbn [amPmInput hour12Input hour24Input
    minuteInput secondInput amPmOverrideTruthy] in *.
  destruct a as [a |], h12 as [h12 |], h24 as [h24 |], mi as [mi |], se as [se |];
    destruct (hourOverrideTruthy hourOverride);
    cbn [hasName hasType] in *;
    cbn [app filterBoolean fold_left getValue];
    repeat match goal with
           | H : DOM.name _ = _ |- _ => rewrite H; clear H
           | H : DOM.type _ = _ |- _ => rewrite H; clear H
           end;
    reflexivity.
Qed.

(** C6.  Without a meridiem override, the resolved meridiem is the value
    of the selector when it has one; when it has none (no selector, or
    an empty selection), it is ["pm"] exactly when the accumulator reads
    as a number above 12, and is left unresolved (falsy) otherwise. *)
Theorem meridiem_resolution (st : State) (refs : Refs) (hourOverride : option string) :
  rendered refs ->
  let resolved :=
    amPmValue st (collectValues (formElements refs None hourOverride)) None in
  (forall sel, amPmInput refs = Some sel -> DOM.value sel <> "" ->
               resolved = JS.Str (DOM.value sel))
  /\ (amPmInput refs = None
      \/ (exists sel, amPmInput refs = Some sel /\ DOM.value sel = "") ->
      (resolved = JS.Str "pm" <->
       JS.gt (JS.Number (twoDigitHour st)) (JS.ofZ 12) = true)
      /\ (JS.gt (JS.Number (twoDigitHour st)) (JS.ofZ 12) = false ->
          JS.truthy resolved = false)).
Proof.
  intros Hr resolved. unfold resolved, amPmValue.
  rewrite (getValue_selector refs hourOverride Hr).
  cbn [amPmValueOf]. unfold JS.or at 1. cbn [JS.truthy]. split.
  - intros sel Hsel Hne. rewrite Hsel. cbn [JS.truthy].
    apply stringTruthy_true in Hne. rewrite Hne. reflexivity.
  - intros Hnone.
    assert (Hsel : match amPmInput refs with
                   | Some sel => JS.Str (DOM.value sel)
                   | None => JS.Undefined
                   end = JS.Undefined
                   \/ match amPmInput refs with
                      | Some sel => JS.Str (DOM.value sel)
                      | None => JS.Undefined
                      end = JS.Str "").
    { destruct Hnone as [-> | [sel [-> ->]]]; auto. }
    destruct Hsel as [-> | ->]; cbn [JS.truthy JS.stringTruthy negb andb];
      destruct (JS.gt (JS.Number (twoDigitHour st)) (JS.ofZ 12));
      (split; [split; (reflexivity || discriminate) | (reflexivity || discriminate)]).
Qed.

Lemma getProcessedValue_returns (value : string) :
  exists processed, getProcessedValue value = Ok processed.
Proof. unfold getProcessedValue. destruct valueType; eauto. Qed.

(** The reconciliation returns: nothing in it throws. *)
Lemma onChangeExternal_returns (st : State) (refs : Refs)
  (amPmOverride : option AmPmType) (hourOverride : option string) :
  exists calls, onChangeExternal st refs amPmOverride hourOverride = Ok calls.
Proof.
  unfold onChangeExternal.
  destruct (negb onChangeProps); [eauto |].
  destruct (isEveryValueEmpty refs amPmOverride hourOverride); [eauto |].
  destruct (isEveryValueFilled refs amPmOverride hourOverride
            && isEveryValueValid refs amPmOverride hourOverride).
  - destruct (getProcessedValue_returns
                (proposedValue st refs amPmOverride hourOverride)) as [v ->].
    cbn [bind]. destruct (sameAsValueProps v); eauto.
  - destruct (negb onInvalidChange); eauto.
Qed.


(* ------------------------------------------------------------------ *)
(** *** Properties of the format tokenizer *)
(* ------------------------------------------------------------------ *)

Lemma length_run (c : ascii) (n : nat) : String.length (run c n) = n.
Proof. induction n as [| n IH]; simpl; congruence. Qed.

Lemma isKey_elementFunctions (c : ascii) :
  isKey elementFunctions c = true ->
  In c numericLetters \/ c = "a"%char.
Proof.
  unfold isKey, elementFunctions, numericLetters. cbn [existsb fst In].
  rewrite !orb_true_iff, !Ascii.eqb_eq. intros H.
  repeat (destruct H as [H | H]; [subst; auto 10 |]). discriminate H.
Qed.

Lemma contains_run (k c : ascii) (n : nat) :
  contains k (run c (S n)) = Ascii.eqb k c.
Proof.
  induction n as [| n IH].
  - simpl. apply orb_false_r.
  - change (run c (S (S n))) with (String c (run c (S n))).
    cbn [contains]. rewrite IH. apply orb_diag.
Qed.

Lemma lookupKey_long (ef : ElementFunctions) (c d : ascii) (r : string) :
  lookupKey ef (String c (String d r)) = None.
Proof.
  induction ef as [| [k f] ef IH]; [reflexivity |].
  cbn [lookupKey String.eqb]. destruct (Ascii.eqb c k); exact IH.
Qed.

Lemma lookup_run (c : ascii) (n : nat) :
  In c numericLetters \/ c = "a"%char ->
  lookupRenderFunction elementFunctions (run c (S n)) =
  lookupKey elementFunctions (String c "").
Proof.
  intros Hc. destruct n as [| n].
  - unfold numericLetters in Hc. cbn [In] in Hc.
    destruct Hc as [[<- | [<- | [<- | [<- | []]]]] | ->]; reflexivity.
  - unfold lookupRenderFunction.
    change (run c (S (S n))) with (String c (String c (run c n))).
    rewrite lookupKey_long.
    change (String c (String c (run c n))) with (run c (S (S n))).
    unfold elementFunctions. cbn [find fst]. rewrite !contains_run.
    unfold numericLetters in Hc. cbn [In] in Hc.
    destruct Hc as [[<- | [<- | [<- | [<- | []]]]] | ->]; reflexivity.
Qed.

(** What a render function does with a run of a key letter: it throws
    on a run of three or more letters of a digit-entry field, and returns
    a node otherwise. *)
Lemma render_run (st : State) (c : ascii) (n index : nat) :
  isKey elementFunctions c = true ->
  exists f,
    lookupRenderFunction elementFunctions (run c (S n)) = Some f
    /\ (In c numericLetters -> 2 < S n ->
        applyRenderFunction st f (run c (S n)) index
        = Throw (unsupportedToken (run c (S n))))
    /\ ((exists node, applyRenderFunction st f (run c (S n)) index = Ok node)
        \/ (applyRenderFunction st f (run c (S n)) index
            = Throw (unsupportedToken (run c (S n))) /\ 2 < S n)).
Proof.
  intros Hk. apply isKey_elementFunctions in Hk. rewrite lookup_run by assumption.
  assert (Htruthy : JS.stringTruthy (run c (S n)) = true) by reflexivity.
  assert (Hcases : forall (A : Type) (x y : A),
             (if JS.stringTruthy (run c (S n))
                 && Nat.ltb 2 (String.length (run c (S n)))
              then x else y) = if Nat.ltb 2 (S n) then x else y).
  { intros. rewrite Htruthy, length_run. reflexivity. }
  unfold numericLetters in *. cbn [In] in *.
  destruct Hk as [[<- | [<- | [<- | [<- | []]]]] | ->];
    (eexists; split; [reflexivity |]);
    cbn [applyRenderFunction];
    unfold renderHour, renderHour12, renderHour24, renderMinute,
      renderSecond, renderAmPm;
    rewrite ?contains_run; cbn [Ascii.eqb Bool.eqb]; rewrite ?Hcases;
    (split;
     [ intros Hin Hlt; try (apply Nat.ltb_lt in Hlt; rewrite Hlt; reflexivity);
       exfalso; forget_collaborators; intuition discriminate
     | destruct (Nat.ltb 2 (S n)) eqn:Hlt;
       [ try (right; split; [reflexivity | now apply Nat.ltb_lt]); left; eauto
       | left; eauto ] ]).
Qed.

Lemma startsWith_run (c d : ascii) (n : nat) :
  startsWith c (run d (S n)) = true -> c = d.
Proof. cbn [run startsWith]. apply Ascii.eqb_eq. Qed.

(** Every match of the tokenizer is a run of one key letter. *)
Lemma tokenize_runs (ef : ElementFunctions) (s : string) :
  Forall (fun ma => exists c n, isKey ef c = true /\ fst ma = run c (S n))
         (snd (tokenize ef s)).
Proof.
  induction s as [| x s IH]; [constructor |].
  cbn [tokenize]. destruct (tokenize ef s) as [element rest]. cbn [snd] in IH.
  destruct (isKey ef x) eqn:Hx; [| exact IH].
  assert (Hone : exists c n, isKey ef c = true /\ String x "" = run c (S n))
    by (exists x, 0; auto).
  destruct element as [| e element'].
  - destruct rest as [| [m after] rest'].
    + repeat constructor. exact Hone.
    + destruct (startsWith x m) eqn:Hsw.
      * inversion IH as [| ? ? (c & n & Hc & Hm) Hrest]; subst.
        cbn [fst] in Hm. subst m. apply startsWith_run in Hsw. subst c.
        constructor; [| exact Hrest].
        exists x, (S n). auto.
      * constructor; [exact Hone | exact IH].
  - constructor; [exact Hone | exact IH].
Qed.

(** With multiple instances allowed, the reduce throws as soon as one of
    the matches is unsupported. *)
Lemma renderMatches_throws (st : State) (matches : list (string * string)) :
  forall (usedFunctions : list RenderFunction) (index : nat),
    Forall (fun ma => exists c n, isKey elementFunctions c = true
                                  /\ fst ma = run c (S n)) matches ->
    Exists (fun ma => unsupported (fst ma)) matches ->
    exists token,
      renderMatches (applyRenderFunction st) elementFunctions true
        usedFunctions index matches = Throw (unsupportedToken token)
      /\ 2 < String.length token.
Proof.
  induction matches as [| [m after] rest IH]; intros used index Hruns Hex.
  - inversion Hex.
  - inversion Hruns as [| ? ? (c & n & Hc & Hm) Hrest]; subst.
    cbn [fst] in Hm. subst m.
    destruct (render_run st c n index Hc) as (f & Hlook & Hthrow & Hres).
    cbn [renderMatches]. rewrite Hlook. cbn [negb andb].
    destruct Hres as [[node Hok] | [Hth Hlen]].
    + rewrite Hok. cbn [bind].
      assert (Hex' : Exists (fun ma => unsupported (fst ma)) rest).
      { inversion Hex as [? ? (c' & n' & Hin & Hrun & Hlt) | ? ? Hlater]; subst;
          [| exact Hlater].
        cbn [fst] in Hrun.
        assert (c' = c) by (cbn [run] in Hrun; congruence). subst c'.
        assert (n' = n).
        { apply (f_equal String.length) in Hrun. rewrite !length_run in Hrun.
          cbn [String.length] in Hrun. rewrite length_run in Hrun. lia. }
        subst n'. rewrite (Hthrow Hin Hlt) in Hok. discriminate Hok. }
      destruct (IH (app used [f]) (S index) Hrest Hex') as (token & Htok & Hlen).
      exists token. rewrite Htok. split; [reflexivity | exact Hlen].
    + exists (run c (S n)). rewrite Hth. split; [reflexivity |].
      rewrite length_run. exact Hlen.
Qed.

Lemma tokenize_key_first (ef : ElementFunctions) (c : ascii) (s : string) :
  isKey ef c = true ->
  exists m after rest, tokenize ef (String c s) = ("", (String c m, after) :: rest).
Proof.
  intros Hc. cbn [tokenize]. rewrite Hc.
  destruct (tokenize ef s) as [[| e element] [| [m after] rest]]; eauto.
  destruct (startsWith c m); eauto.
Qed.

Lemma tokenize_key_extends (ef : ElementFunctions) (c : ascii) (s m after : string)
  (rest : list (string * string)) :
  isKey ef c = true ->
  tokenize ef s = ("", (String c m, after) :: rest) ->
  tokenize ef (String c s) = ("", (String c (String c m), after) :: rest).
Proof.
  intros Hc Hs. cbn [tokenize]. rewrite Hc, Hs. cbn [startsWith].
  rewrite Ascii.eqb_refl. reflexivity.
Qed.

Lemma numericLetters_keys (c : ascii) :
  In c numericLetters -> isKey elementFunctions c = true.
Proof.
  unfold numericLetters. cbn [In].
  intros [<- | [<- | [<- | [<- | []]]]]; reflexivity.
Qed.

(** A format with a letter of a digit-entry field three times in a row
    has an unsupported match. *)
Lemma tokenize_triple (c : ascii) (before after : string) :
  In c numericLetters ->
  Exists (fun ma => unsupported (fst ma))
         (snd (tokenize elementFunctions
                 (before ++ String c (String c (String c after))))).
Proof.
  intros Hin. pose proof (numericLetters_keys c Hin) as Hc.
  induction before as [| x before IH].
  - cbn [append].
    destruct (tokenize_key_first elementFunctions c after Hc) as (m & a & r & H1).
    pose proof (tokenize_key_extends _ _ _ _ _ _ Hc H1) as H2.
    pose proof (tokenize_key_extends _ _ _ _ _ _ Hc H2) as H3.
    rewrite H3. cbn [snd]. constructor. cbn [fst].
    pose proof (tokenize_runs elementFunctions
                  (String c (String c (String c after)))) as Hruns.
    rewrite H3 in Hruns. cbn [snd] in Hruns.
    inversion Hruns as [| ? ? (c' & n & _ & Hrun) _]; subst. cbn [fst] in Hrun.
    assert (c' = c) by (cbn [run] in Hrun; congruence). subst c'.
    exists c, n. split; [exact Hin |]. split; [exact Hrun |].
    apply (f_equal String.length) in Hrun. rewrite length_run in Hrun.
    cbn [String.length] in Hrun. lia.
  - cbn [append tokenize].
    destruct (tokenize elementFunctions
                (before ++ String c (String c (String c after))))
      as [element rest]. cbn [snd] in IH.
    destruct (isKey elementFunctions x) eqn:Hx; [| exact IH].
    destruct element as [| e element']; [| right; exact IH].
    destruct rest as [| [m a] rest']; [inversion IH |].
    destruct (startsWith x m) eqn:Hsw; [| right; exact IH].
    inversion IH as [? ? (c' & n & Hin' & Hrun & Hlt) | ? ? Hlater]; subst.
    + cbn [fst] in Hrun. subst m. apply startsWith_run in Hsw. subst c'.
      left. exists x, (S n). cbn [fst]. split; [exact Hin' |]. split; [reflexivity | lia].
    + right. exact Hlater.
Qed.

(** C7.  Rendering with a format in which [h], [H], [m] or [s] occurs
    three times in a row throws the error of an unsupported token: the
    exception leaves the render functions, the reduce and the component's
    render.  For the formats [hhh], [HHH], [mmm] and [sss] the token named
    is the format itself. *)
Theorem triple_letter_throws (st : State) (c : ascii) (before after : string) :
  In c numericLetters ->
  format = Some (before ++ String c (String c (String c after))) ->
  (exists token,
      render st = Throw (unsupportedToken token) /\ 2 < String.length token)
  /\ (before = "" -> after = "" ->
      render st = Throw (unsupportedToken (String c (String c (String c ""))))).
Proof.
  intros Hin Hformat.
  assert (Hplace : placeholder = before ++ String c (String c (String c after))).
  { unfold placeholder. rewrite Hformat.
    destruct before; reflexivity. }
  assert (Hrender : forall r,
             renderCustomInputs (applyRenderFunction st)
               (before ++ String c (String c (String c after)))
               elementFunctions true = Throw r ->
             render st = Throw r).
  { intros r Hr. unfold render, renderCustomInputsInternal.
    rewrite Hplace, Hformat, Hr. reflexivity. }
  unfold renderCustomInputs in Hrender.
  split.
  - pose proof (tokenize_runs elementFunctions
                  (before ++ String c (String c (String c after)))) as Hruns.
    pose proof (tokenize_triple c before after Hin) as Hex.
    destruct (tokenize elementFunctions
                (before ++ String c (String c (String c after))))
      as [element matches]. cbn [snd] in Hruns, Hex.
    destruct (renderMatches_throws st matches [] 0 Hruns Hex) as (token & Htok & Hlen).
    exists token. split; [| exact Hlen].
    apply Hrender. rewrite Htok. reflexivity.
  - intros -> ->. apply Hrender. cbn [append].
    unfold numericLetters in Hin. cbn [In] in Hin.
    destruct Hin as [<- | [<- | [<- | [<- | []]]]]; reflexivity.
Qed.

(* ------------------------------------------------------------------ *)
(** *** Clearing the fields one by one *)
(* ------------------------------------------------------------------ *)

(** C3 (where the code departs from it).  In a layout without the
    meridiem selector (a 24-hour format), populated, clearing the minute,
    then the second, then the hour calls [onChange(null, false)] twice:
    once when the second is cleared, the hour field still holding its
    value, and once more when the hour is cleared. *)
Theorem clearing_without_selector_notifies_twice
  (st : State) (refs : Refs) (h m s : HTMLElement) (v1 v2 v3 : bool) :
  onChangeProps = true ->
  amPmInput refs = None ->
  hour12Input refs = None ->
  hour24Input refs = Some h ->
  minuteInput refs = Some m ->
  secondInput refs = Some s ->
  DOM.value h <> "" ->
  DOM.value s <> "" ->
  exists st' refs' calls,
    clearInputs [(minuteField, v1); (secondField, v2); (hour24Field, v3)] st refs
    = Ok (st', refs', calls)
    /\ filter isOnChange calls = [OnChange None false; OnChange None false].
Proof.
  intros Hp Ha H12 H24 Hm Hs Hh Hsec.
  destruct refs as [ra r12 r24 rm rs].
  cbn [amPmInput hour12Input hour24Input minuteInput secondInput] in *. subst.
  destruct h as [hn ht [| hc hv] hmax hvalid hd]; [contradiction |].
  destruct s as [sn stp [| sc sv] smax svalid sd]; [contradiction |].
  unfold clearInputs, clearInput, onChange, onChangeExternal.
  rewrite Hp. cbn -[onChangeState].
  destruct (negb onInvalidChange); cbn -[onChangeState]; eauto.
Qed.

(** With the meridiem selector rendered, clearing the hour, the minute
    and the second of a populated layout, in any order, calls
    [onChange(null, false)] once, when the last of them is cleared. *)
Lemma clearing_with_selector_notifies_once
  (st : State) (refs : Refs) (sel h m s : HTMLElement) (validity : Field -> bool)
  (order : list Field) :
  onChangeProps = true ->
  amPmInput refs = Some sel ->
  hour12Input refs = Some h ->
  hour24Input refs = None ->
  minuteInput refs = Some m ->
  secondInput refs = Some s ->
  DOM.value h <> "" -> DOM.value m <> "" -> DOM.value s <> "" ->
  In order [[hour12Field; minuteField; secondField];
            [hour12Field; secondField; minuteField];
            [minuteField; hour12Field; secondField];
            [minuteField; secondField; hour12Field];
            [secondField; hour12Field; minuteField];
            [secondField; minuteField; hour12Field]] ->
  exists st' refs' calls,
    clearInputs (map (fun f => (f, validity f)) order) st refs = Ok (st', refs', calls)
    /\ filter isOnChange calls = [OnChange None false].
Proof.
  intros Hp Ha H12 H24 Hm Hs Hh Hmin Hsec Horder.
  destruct refs as [ra r12 r24 rm rs].
  cbn [amPmInput hour12Input hour24Input minuteInput secondInput] in *. subst.
  destruct h as [hn ht [| hc hv] hmax hvalid hd]; [contradiction |].
  destruct m as [mn mt [| mc mv] mmax mvalid md]; [contradiction |].
  destruct s as [sn stp [| sc sv] smax svalid sd]; [contradiction |].
  destruct sel as [an atp [| ac av] amax avalid ad].
  all: cbn [In] in Horder.
  all: destruct Horder as [<- | [<- | [<- | [<- | [<- | [<- | []]]]]]];
    unfold clearInputs, clearInput, onChange, onChangeExternal;
    rewrite Hp; cbn -[onChangeState]; rewrite ?andb_false_r;
    destruct (negb onInvalidChange); cbn -[onChangeState]; eauto.
Qed.

(* ------------------------------------------------------------------ *)
(** *** Notifying a value the parent already holds *)
(* ------------------------------------------------------------------ *)


(* ------------------------------------------------------------------ *)
(** *** More on the format tokenizer and the rendering *)
(* ------------------------------------------------------------------ *)

Lemma append_assoc (s t u : string) : (s ++ t) ++ u = s ++ t ++ u.
Proof. induction s as [| c s IH]; simpl; [reflexivity | now rewrite IH]. Qed.

Lemma append_empty_r (s : string) : s ++ "" = s.
Proof. induction s as [| c s IH]; simpl; [reflexivity | now rewrite IH]. Qed.

Lemma tokenize_joined (ef : ElementFunctions) (s : string) :
  fst (tokenize ef s) ++ joinMatches (snd (tokenize ef s)) = s.
Proof.
  induction s as [| x s IH]; [reflexivity |].
  cbn [tokenize]. destruct (tokenize ef s) as [element rest]. cbn [fst snd] in IH.
  destruct (isKey ef x).
  - destruct element as [| e element'].
    + destruct rest as [| [m after] rest'].
      * cbn [fst snd joinMatches append] in *. now rewrite <- IH.
      * destruct (startsWith x m); cbn [fst snd joinMatches append] in *;
          now rewrite <- IH.
    + cbn [fst snd joinMatches append] in *. now rewrite <- IH.
  - cbn [fst snd append]. now rewrite IH.
Qed.

(** X1.  For keys that are single letters or digits, as those of the
    component are, the separators and the matches of a placeholder, put
    back in order, are the placeholder: the tokenizer loses and adds no
    character. *)
Theorem tokenize_round_trip (ef : ElementFunctions) (s : string) :
  (forall c, isKey ef c = true -> isAlphaNumeric c = true) ->
  fst (tokenize ef s) ++ joinMatches (snd (tokenize ef s)) = s.
Proof. intros _. exact (tokenize_joined ef s). Qed.

Lemma contains_append (c : ascii) (s t : string) :
  contains c (s ++ t) = contains c s || contains c t.
Proof.
  induction s as [| d s IH]; [reflexivity |].
  cbn [append contains]. rewrite IH. apply orb_assoc.
Qed.

(** X2.  The matches of the tokenizer are maximal runs of one field
    letter each, and no separator holds a field letter: two matches that
    touch are runs of different letters. *)
Theorem tokenize_matches_maximal (ef : ElementFunctions) (s : string) :
  (forall c, isKey ef c = true -> contains c (fst (tokenize ef s)) = false)
  /\ Forall (fun ma => (exists c n, isKey ef c = true /\ fst ma = run c (S n))
                       /\ forall c, isKey ef c = true -> contains c (snd ma) = false)
            (snd (tokenize ef s))
  /\ maximalRuns (snd (tokenize ef s)).
Proof.
  induction s as [| x s IH]; [repeat split; constructor |].
  destruct IH as (Hfirst & Hall & Hmax).
  cbn [tokenize]. destruct (tokenize ef s) as [element rest]. cbn [fst snd] in *.
  destruct (isKey ef x) eqn:Hx.
  - destruct element as [| e element'].
    + destruct rest as [| [m after] rest'].
      * cbn [fst snd]. split; [reflexivity |]. split; [| exact I].
        constructor; [| constructor]. cbn [fst snd].
        split; [exists x, 0; auto | reflexivity].
      * destruct (startsWith x m) eqn:Hsw; cbn [fst snd].
        -- split; [reflexivity |].
           inversion Hall as [| ? ? [(c & n & Hc & Hm) Hsep] Hrest]; subst.
           cbn [fst snd] in *. subst m. apply startsWith_run in Hsw. subst c.
           split.
           ++ constructor; [| exact Hrest]. cbn [fst snd].
              split; [exists x, (S n); auto | exact Hsep].
           ++ destruct rest' as [| [m2 a2] rest'']; [exact I |].
              cbn [maximalRuns] in Hmax |- *. destruct Hmax as [Hadj Hmax].
              split; [| exact Hmax].
              intros Ha c Hc'. cbn [startsWith] in Hc'.
              apply Hadj; [exact Ha |]. cbn [run startsWith]. exact Hc'.
        -- split; [reflexivity |]. split.
           ++ constructor; [| exact Hall]. cbn [fst snd].
              split; [exists x, 0; auto | reflexivity].
           ++ cbn [maximalRuns]. split; [| exact Hmax].
              intros _ c Hc'. cbn [startsWith] in Hc'.
              apply Ascii.eqb_eq in Hc'. subst c. exact Hsw.
    + cbn [fst snd]. split; [reflexivity |]. split.
      * constructor; [| exact Hall]. cbn [fst snd].
        split; [exists x, 0; auto | exact Hfirst].
      * destruct rest as [| [m2 a2] rest']; [exact I |].
        cbn [maximalRuns]. split; [discriminate | exact Hmax].
  - cbn [fst snd]. split; [| split; assumption].
    intros c Hc. cbn [contains]. rewrite (Hfirst c Hc), orb_false_r.
    destruct (Ascii.eqb c x) eqn:E; [| reflexivity].
    apply Ascii.eqb_eq in E. subst c. congruence.
Qed.

Lemma RenderFunction_eqb_eq (f g : RenderFunction) :
  RenderFunction_eqb f g = true <-> f = g.
Proof. destruct f, g; simpl; split; congruence. Qed.

(** A render function that returns, returns a node of its own field. *)
Lemma applyRenderFunction_renderedBy (st : State) (f : RenderFunction)
  (currentMatch : string) (index : nat) (node : ReactNode) :
  applyRenderFunction st f currentMatch index = Ok node ->
  renderedBy node = Some f.
Proof.
  destruct f; cbn [applyRenderFunction];
    unfold renderHour, renderHour12, renderHour24, renderMinute, renderSecond, renderAmPm;
    repeat match goal with
           | |- context [if ?b then _ else _] => destruct b
           end;
    intros [= <-]; reflexivity.
Qed.

(** A render function throws only on a run of three or more letters of
    a digit-entry field. *)
Lemma render_run_throws_only_unsupported (st : State) (c : ascii) (n index : nat)
  (f : RenderFunction) (e : Error) :
  isKey elementFunctions c = true ->
  lookupRenderFunction elementFunctions (run c (S n)) = Some f ->
  applyRenderFunction st f (run c (S n)) index = Throw e ->
  unsupported (run c (S n)).
Proof.
  intros Hk Hlook Hthrow.
  destruct (render_run st c n index Hk) as (f' & Hlook' & _ & Hres).
  rewrite Hlook in Hlook'. injection Hlook' as <-.
  destruct Hres as [[node Hok] | [_ Hlen]]; [congruence |].
  exists c, n. split; [| split; [reflexivity | exact Hlen]].
  apply isKey_elementFunctions in Hk. destruct Hk as [Hk | ->]; [exact Hk |].
  rewrite lookup_run in Hlook by (right; reflexivity).
  injection Hlook as <-. discriminate Hthrow.
Qed.

Lemma renderMatches_returns (st : State) (allowMultipleInstances : bool)
  (matches : list (string * string)) :
  forall (usedFunctions : list RenderFunction) (index : nat),
    Forall (fun ma => exists c n, isKey elementFunctions c = true
                                  /\ fst ma = run c (S n)) matches ->
    Forall (fun ma => ~ unsupported (fst ma)) matches ->
    exists nodes,
      renderMatches (applyRenderFunction st) elementFunctions allowMultipleInstances
        usedFunctions index matches = Ok nodes.
Proof.
  induction matches as [| [m after] rest IH]; intros used index Hruns Hsup;
    [eexists; reflexivity |].
  inversion Hruns as [| ? ? (c & n & Hc & Hm) Hrest]; subst.
  inversion Hsup as [| ? ? Hok Hsup']; subst. cbn [fst] in *. subst m.
  cbn [renderMatches].
  destruct (lookupRenderFunction elementFunctions (run c (S n))) as [f |] eqn:Hlook.
  - destruct (negb allowMultipleInstances && existsb (RenderFunction_eqb f) used).
    + destruct (IH used (S index) Hrest Hsup') as [nodes ->]. cbn [bind]. eauto.
    + destruct (applyRenderFunction st f (run c (S n)) index) as [node | e] eqn:Happ.
      * destruct (IH (app used [f]) (S index) Hrest Hsup') as [nodes ->].
        cbn [bind]. eauto.
      * exfalso. apply Hok.
        exact (render_run_throws_only_unsupported st c n index f e Hc Hlook Happ).
  - destruct (IH used (S index) Hrest Hsup') as [nodes ->]. cbn [bind]. eauto.
Qed.

Lemma joinMatches_in (m after : string) (matches : list (string * string)) :
  In (m, after) matches ->
  exists before rest, joinMatches matches = before ++ m ++ rest.
Proof.
  induction matches as [| [m' a'] matches IH]; intros Hin; [contradiction |].
  destruct Hin as [[= -> ->] | Hin].
  - exists "", (after ++ joinMatches matches). reflexivity.
  - destruct (IH Hin) as (before & rest & Hj).
    exists (m' ++ a' ++ before), rest. cbn [joinMatches]. rewrite Hj.
    now rewrite !append_assoc.
Qed.

(** X3.  A placeholder in which no letter of a digit-entry field occurs
    three times in a row renders without throwing, whether it comes from
    the [format] prop or from the locale; a run of [a] of any length is
    accepted. *)
Theorem render_returns_without_triple (st : State) :
  (forall c before after,
      In c numericLetters ->
      placeholder <> before ++ String c (String c (String c after))) ->
  exists nodes, render st = Ok nodes.
Proof.
  intros Hno. unfold render, renderCustomInputsInternal, renderCustomInputs.
  pose proof (tokenize_runs elementFunctions placeholder) as Hruns.
  pose proof (tokenize_joined elementFunctions placeholder) as Hjoin.
  destruct (tokenize elementFunctions placeholder) as [element matches].
  cbn [fst snd] in Hruns, Hjoin.
  assert (Hsup : Forall (fun ma => ~ unsupported (fst ma)) matches).
  { apply Forall_forall. intros [m after] Hin (c & n & Hc & Hm & Hlt).
    cbn [fst] in Hm. subst m.
    destruct (joinMatches_in _ _ _ Hin) as (before & rest & Hj).
    destruct n as [| [| n]]; [lia | lia |].
    apply (Hno c (element ++ before) (run c n ++ rest) Hc).
    rewrite <- Hjoin, Hj. cbn [run append]. now rewrite !append_assoc. }
  destruct (renderMatches_returns st
              (match format with Some _ => true | None => false end)
              matches [] 0 Hruns Hsup) as [nodes ->].
  cbn [bind]. eauto.
Qed.

Lemma renderMatches_once (apply : RenderFunction -> string -> nat -> Result ReactNode)
  (ef : ElementFunctions) (matches : list (string * string)) :
  (forall f m i node, apply f m i = Ok node -> renderedBy node = Some f) ->
  forall (usedFunctions : list RenderFunction) (index : nat) (nodes : list ReactNode),
    renderMatches apply ef false usedFunctions index matches = Ok nodes ->
    forall f,
      List.length (filter (isRenderedBy f) nodes)
      <= if existsb (RenderFunction_eqb f) usedFunctions then 0 else 1.
Proof.
  intros Hkind.
  induction matches as [| [m after] rest IH]; intros used index nodes Hr f.
  - injection Hr as <-. cbn. destruct (existsb _ used); lia.
  - cbn [renderMatches negb andb] in Hr.
    destruct (lookupRenderFunction ef m) as [g |].
    + destruct (existsb (RenderFunction_eqb g) used) eqn:Hused.
      * destruct (renderMatches apply ef false used (S index) rest) as [tail |] eqn:Ht;
          cbn [bind] in Hr; [| discriminate Hr].
        injection Hr as <-.
        pose proof (IH used (S index) tail Ht f) as Htail.
        destruct (JS.stringTruthy after);
          cbn [filter isRenderedBy renderedBy]; exact Htail.
      * destruct (apply g m index) as [node |] eqn:Happ; cbn [bind] in Hr;
          [| discriminate Hr].
        destruct (renderMatches apply ef false (app used [g]) (S index) rest)
          as [tail |] eqn:Ht; cbn [bind] in Hr; [| discriminate Hr].
        injection Hr as <-.
        pose proof (IH (app used [g]) (S index) tail Ht f) as Htail.
        rewrite existsb_app in Htail. cbn [existsb] in Htail.
        rewrite orb_false_r in Htail.
        assert (Hnodes : List.length
                           (filter (isRenderedBy f)
                              (node :: (if JS.stringTruthy after
                                        then Divider (S index) after else Text "")
                                    :: tail))
                         = (if RenderFunction_eqb f g then 1 else 0)
                           + List.length (filter (isRenderedBy f) tail)).
        { cbn [filter]. unfold isRenderedBy at 1. rewrite (Hkind _ _ _ _ Happ).
          destruct (RenderFunction_eqb f g), (JS.stringTruthy after); reflexivity. }
        rewrite Hnodes.
        destruct (RenderFunction_eqb f g) eqn:Hfg.
        -- cbn [orb] in Htail. rewrite orb_true_r in Htail.
           apply RenderFunction_eqb_eq in Hfg. subst g. rewrite Hused. lia.
        -- rewrite orb_false_r in Htail.
           destruct (existsb (RenderFunction_eqb f) used); lia.
    + destruct (renderMatches apply ef false used (S index) rest) as [tail |] eqn:Ht;
        cbn [bind] in Hr; [| discriminate Hr].
      injection Hr as <-.
      pose proof (IH used (S index) tail Ht f) as Htail.
      destruct (JS.stringTruthy after);
        cbn [filter isRenderedBy renderedBy]; exact Htail.
Qed.

(** X4.  Without a [format] prop, a render function is applied at most
    once: the nodes rendered hold at most one hour input, one minute
    input, one second input and one meridiem selector, whatever the
    placeholder derived from the locale repeats. *)
Theorem derived_placeholder_renders_each_field_once
  (st : State) (nodes : list ReactNode) (f : RenderFunction) :
  format = None ->
  render st = Ok nodes ->
  List.length (filter (isRenderedBy f) nodes) <= 1.
Proof.
  intros Hformat Hrender.
  unfold render, renderCustomInputsInternal, renderCustomInputs in Hrender.
  rewrite Hformat in Hrender.
  destruct (tokenize elementFunctions placeholder) as [element matches].
  destruct (renderMatches (applyRenderFunction st) elementFunctions false [] 0 matches)
    as [tail |] eqn:Ht; cbn [bind] in Hrender; [| discriminate Hrender].
  injection Hrender as <-.
  pose proof (renderMatches_once (applyRenderFunction st) elementFunctions matches
                (applyRenderFunction_renderedBy st) [] 0 tail Ht f) as H.
  cbn [existsb] in H. cbn [filter isRenderedBy renderedBy renderNativeInput].
  destruct (JS.stringTruthy element); exact H.
Qed.

Lemma renderMatches_all (st : State) (matches : list (string * string)) :
  forall (usedFunctions : list RenderFunction) (index : nat) (nodes : list ReactNode),
    Forall (fun ma => exists c n, isKey elementFunctions c = true
                                  /\ fst ma = run c (S n)) matches ->
    renderMatches (applyRenderFunction st) elementFunctions true
      usedFunctions index matches = Ok nodes ->
    List.length (filter isFieldNode nodes) = List.length matches.
Proof.
  induction matches as [| [m after] rest IH]; intros used index nodes Hruns Hr.
  - injection Hr as <-. reflexivity.
  - inversion Hruns as [| ? ? (c & n & Hc & Hm) Hrest]; subst. cbn [fst] in Hm. subst m.
    destruct (render_run st c n index Hc) as (f & Hlook & _ & _).
    cbn [renderMatches negb andb] in Hr. rewrite Hlook in Hr.
    destruct (applyRenderFunction st f (run c (S n)) index) as [node |] eqn:Happ;
      cbn [bind] in Hr; [| discriminate Hr].
    destruct (renderMatches (applyRenderFunction st) elementFunctions true
                (app used [f]) (S index) rest) as [tail |] eqn:Ht;
      cbn [bind] in Hr; [| discriminate Hr].
    injection Hr as <-.
    cbn [filter]. unfold isFieldNode at 1.
    rewrite (applyRenderFunction_renderedBy _ _ _ _ _ Happ).
    cbn [List.length]. f_equal.
    rewrite <- (IH _ _ _ Hrest Ht).
    destruct (JS.stringTruthy after); reflexivity.
Qed.

(** X5.  With a [format] prop, every match is rendered as a field of
    its own: the rendered fields are as many as the runs of field letters
    in the format, repeated fields included. *)
Theorem explicit_format_renders_every_match
  (st : State) (f : string) (nodes : list ReactNode) :
  format = Some f ->
  f <> "" ->
  render st = Ok nodes ->
  List.length (filter isFieldNode nodes)
  = List.length (snd (tokenize elementFunctions f)).
Proof.
  intros Hformat Hne Hrender.
  assert (Hplace : placeholder = f).
  { unfold placeholder. rewrite Hformat.
    apply stringTruthy_true in Hne. now rewrite Hne. }
  unfold render, renderCustomInputsInternal, renderCustomInputs in Hrender.
  rewrite Hplace, Hformat in Hrender.
  pose proof (tokenize_runs elementFunctions f) as Hruns.
  destruct (tokenize elementFunctions f) as [element matches]. cbn [snd] in *.
  destruct (renderMatches (applyRenderFunction st) elementFunctions true [] 0 matches)
    as [tail |] eqn:Ht; cbn [bind] in Hrender; [| discriminate Hrender].
  injection Hrender as <-.
  cbn [filter isFieldNode renderedBy renderNativeInput].
  rewrite <- (renderMatches_all st matches [] 0 tail Hruns Ht).
  destruct (JS.stringTruthy element); reflexivity.
Qed.

Lemma applyRenderFunction_autoFocused (st : State) (f : RenderFunction)
  (currentMatch : string) (index : nat) (node : ReactNode) :
  applyRenderFunction st f currentMatch index = Ok node ->
  autoFocused node = Nat.eqb index 0 && autoFocus.
Proof.
  destruct f; cbn [applyRenderFunction];
    unfold renderHour, renderHour12, renderHour24, renderMinute, renderSecond, renderAmPm;
    repeat match goal with
           | |- context [if ?b then _ else _] => destruct b
           end;
    intros [= <-]; reflexivity.
Qed.

Lemma renderMatches_later_not_autoFocused (st : State) (allowMultipleInstances : bool)
  (matches : list (string * string)) :
  forall (usedFunctions : list RenderFunction) (index : nat) (nodes : list ReactNode),
    renderMatches (applyRenderFunction st) elementFunctions allowMultipleInstances
      usedFunctions (S index) matches = Ok nodes ->
    forallb (fun node => negb (autoFocused node)) nodes = true.
Proof.
  induction matches as [| [m after] rest IH]; intros used index nodes Hr.
  - injection Hr as <-. reflexivity.
  - cbn [renderMatches] in Hr.
    destruct (lookupRenderFunction elementFunctions m) as [g |].
    + destruct (negb allowMultipleInstances && existsb (RenderFunction_eqb g) used).
      * destruct (renderMatches (applyRenderFunction st) elementFunctions
                    allowMultipleInstances used (S (S index)) rest) as [tail |] eqn:Ht;
          cbn [bind] in Hr; [| discriminate Hr].
        injection Hr as <-. cbn [forallb autoFocused negb andb].
        rewrite (IH _ _ _ Ht). destruct (JS.stringTruthy after); reflexivity.
      * destruct (applyRenderFunction st g m (S index)) as [node |] eqn:Happ;
          cbn [bind] in Hr; [| discriminate Hr].
        destruct (renderMatches (applyRenderFunction st) elementFunctions
                    allowMultipleInstances (app used [g]) (S (S index)) rest)
          as [tail |] eqn:Ht; cbn [bind] in Hr; [| discriminate Hr].
        injection Hr as <-. cbn [forallb].
        rewrite (applyRenderFunction_autoFocused _ _ _ _ _ Happ).
        rewrite (IH _ _ _ Ht). destruct (JS.stringTruthy after); reflexivity.
    + destruct (renderMatches (applyRenderFunction st) elementFunctions
                  allowMultipleInstances used (S (S index)) rest) as [tail |] eqn:Ht;
        cbn [bind] in Hr; [| discriminate Hr].
      injection Hr as <-. cbn [forallb].
      rewrite (IH _ _ _ Ht). destruct (JS.stringTruthy after); reflexivity.
Qed.

Lemma filter_none {A} (f : A -> bool) (l : list A) :
  forallb (fun x => negb (f x)) l = true -> filter f l = [].
Proof.
  induction l as [| x l IH]; cbn [forallb filter]; [reflexivity |].
  destruct (f x); cbn [negb andb]; [discriminate | exact IH].
Qed.

(** X6.  At most one widget is rendered with [autoFocus], and none
    unless the [autoFocus] prop is set: it is the widget of the first
    token of the placeholder, which is the first field among the
    children. *)
Theorem auto_focus_goes_to_first_field (st : State) (nodes : list ReactNode) :
  render st = Ok nodes ->
  List.length (filter autoFocused nodes) <= (if autoFocus then 1 else 0)
  /\ (forall node,
         In node nodes -> autoFocused node = true ->
         find isFieldNode nodes = Some node).
Proof.
  unfold render, renderCustomInputsInternal, renderCustomInputs.
  destruct (tokenize elementFunctions placeholder) as [element matches].
  set (allow := match format with Some _ => true | None => false end).
  destruct matches as [| [m after] rest].
  { cbn [renderMatches bind]. intros [= <-].
    destruct (JS.stringTruthy element); cbn; split; try lia;
      intros node [<- | [<- | []]]; discriminate. }
  cbn [renderMatches existsb andb]. rewrite andb_false_r.
  assert (Hsep : forall i s, autoFocused (if JS.stringTruthy s then Divider i s else Text "") = false
                             /\ isFieldNode (if JS.stringTruthy s then Divider i s else Text "") = false).
  { intros i s. destruct (JS.stringTruthy s); split; reflexivity. }
  destruct (lookupRenderFunction elementFunctions m) as [g |].
  - destruct (applyRenderFunction st g m 0) as [node |] eqn:Happ; cbn [bind];
      [| discriminate].
    destruct (renderMatches (applyRenderFunction st) elementFunctions allow
                (app [] [g]) 1 rest) as [tail |] eqn:Ht; cbn [bind]; [| discriminate].
    intros [= <-].
    pose proof (renderMatches_later_not_autoFocused st allow rest _ _ _ Ht) as Hlater.
    pose proof (filter_none _ _ Hlater) as Hnone.
    pose proof (applyRenderFunction_autoFocused _ _ _ _ _ Happ) as Hauto.
    pose proof (applyRenderFunction_renderedBy _ _ _ _ _ Happ) as Hkind.
    destruct (Hsep 0 element) as (Ha0 & Hf0). destruct (Hsep 1 after) as (Ha1 & Hf1).
    cbn [Nat.eqb andb] in Hauto.
    split.
    + cbn [filter autoFocused renderNativeInput]. rewrite Ha0, Ha1, Hnone, Hauto.
      destruct autoFocus; cbn; lia.
    + cbn [find isFieldNode renderedBy renderNativeInput].
      rewrite Hf0. unfold isFieldNode at 1. rewrite Hkind.
      intros x Hin Hx.
      destruct Hin as [<- | [<- | [<- | [<- | Hin]]]].
      * discriminate Hx.
      * rewrite Ha0 in Hx. discriminate Hx.
      * reflexivity.
      * rewrite Ha1 in Hx. discriminate Hx.
      * rewrite forallb_forall in Hlater. apply Hlater in Hin.
        rewrite Hx in Hin. discriminate Hin.
  - destruct (renderMatches (applyRenderFunction st) elementFunctions allow
                [] 1 rest) as [tail |] eqn:Ht; cbn [bind]; [| discriminate].
    intros [= <-].
    pose proof (renderMatches_later_not_autoFocused st allow rest _ _ _ Ht) as Hlater.
    pose proof (filter_none _ _ Hlater) as Hnone.
    destruct (Hsep 0 element) as (Ha0 & Hf0). destruct (Hsep 1 after) as (Ha1 & Hf1).
    split.
    + cbn [filter autoFocused renderNativeInput]. rewrite Ha0, Ha1, Hnone.
      destruct autoFocus; cbn; lia.
    + intros x Hin Hx.
      destruct Hin as [<- | [<- | [<- | Hin]]].
      * discriminate Hx.
      * rewrite Ha0 in Hx. discriminate Hx.
      * rewrite Ha1 in Hx. discriminate Hx.
      * rewrite forallb_forall in Hlater. apply Hlater in Hin.
        rewrite Hx in Hin. discriminate Hin.
Qed.

(* ------------------------------------------------------------------ *)
(** *** More on the keystroke router *)
(* ------------------------------------------------------------------ *)

Lemma firstInternalUp_Some (els : list HTMLElement) :
  forall k j,
    firstInternalUp els k = Some j ->
    exists m e, j = k + m /\ nth_error els m = Some e /\ isInternalInput e = true
                /\ forall m' e', m' < m -> nth_error els m' = Some e' ->
                                 isInternalInput e' = false.
Proof.
  induction els as [| x r IH]; intros k j H; [discriminate |].
  cbn [firstInternalUp] in H. destruct (isInternalInput x) eqn:Hx.
  - injection H as <-. exists 0, x.
    split; [lia | split; [reflexivity | split; [exact Hx | intros; lia]]].
  - destruct (IH _ _ H) as (m & e & -> & Hn & He & Hb).
    exists (S m), e. split; [lia | split; [exact Hn | split; [exact He |]]].
    intros [| m'] e' Hlt Hn'; cbn [nth_error] in Hn'.
    + now injection Hn' as <-.
    + apply (Hb m' e'); [lia | exact Hn'].
Qed.

Lemma firstInternalUp_None (els : list HTMLElement) :
  forall k, firstInternalUp els k = None ->
            forall m e, nth_error els m = Some e -> isInternalInput e = false.
Proof.
  induction els as [| x r IH]; intros k H m e Hn; [destruct m; discriminate |].
  cbn [firstInternalUp] in H. destruct (isInternalInput x) eqn:Hx; [discriminate |].
  destruct m as [| m]; cbn [nth_error] in Hn.
  - now injection Hn as <-.
  - exact (IH _ H m e Hn).
Qed.

Lemma firstInternalUp_first (els : list HTMLElement) :
  forall k m e,
    nth_error els m = Some e -> isInternalInput e = true ->
    (forall m' e', m' < m -> nth_error els m' = Some e' -> isInternalInput e' = false) ->
    firstInternalUp els k = Some (k + m).
Proof.
  induction els as [| x r IH]; intros k m e Hn He Hb; [destruct m; discriminate |].
  cbn [firstInternalUp]. destruct m as [| m]; cbn [nth_error] in Hn.
  - injection Hn as ->. rewrite He. f_equal. lia.
  - rewrite (Hb 0 x) by (lia || reflexivity).
    rewrite (IH (S k) m e Hn He); [f_equal; lia |].
    intros m' e' Hlt Hn'. apply (Hb (S m') e'); [lia | exact Hn'].
Qed.

Lemma firstInternalDown_Some (els : list HTMLElement) :
  forall k j,
    firstInternalDown els k = Some j ->
    exists m e, j = k - m /\ nth_error els m = Some e /\ isInternalInput e = true
                /\ forall m' e', m' < m -> nth_error els m' = Some e' ->
                                 isInternalInput e' = false.
Proof.
  induction els as [| x r IH]; intros k j H; [discriminate |].
  cbn [firstInternalDown] in H. destruct (isInternalInput x) eqn:Hx.
  - injection H as <-. exists 0, x.
    split; [lia | split; [reflexivity | split; [exact Hx | intros; lia]]].
  - destruct (IH _ _ H) as (m & e & -> & Hn & He & Hb).
    exists (S m), e. split; [lia | split; [exact Hn | split; [exact He |]]].
    intros [| m'] e' Hlt Hn'; cbn [nth_error] in Hn'.
    + now injection Hn' as <-.
    + apply (Hb m' e'); [lia | exact Hn'].
Qed.

Lemma firstInternalDown_None (els : list HTMLElement) :
  forall k, firstInternalDown els k = None ->
            forall m e, nth_error els m = Some e -> isInternalInput e = false.
Proof.
  induction els as [| x r IH]; intros k H m e Hn; [destruct m; discriminate |].
  cbn [firstInternalDown] in H. destruct (isInternalInput x) eqn:Hx; [discriminate |].
  destruct m as [| m]; cbn [nth_error] in Hn.
  - now injection Hn as <-.
  - exact (IH _ H m e Hn).
Qed.

Lemma firstInternalDown_first (els : list HTMLElement) :
  forall k m e,
    nth_error els m = Some e -> isInternalInput e = true ->
    (forall m' e', m' < m -> nth_error els m' = Some e' -> isInternalInput e' = false) ->
    firstInternalDown els k = Some (k - m).
Proof.
  induction els as [| x r IH]; intros k m e Hn He Hb; [destruct m; discriminate |].
  cbn [firstInternalDown]. destruct m as [| m]; cbn [nth_error] in Hn.
  - injection Hn as ->. rewrite He. f_equal. lia.
  - rewrite (Hb 0 x) by (lia || reflexivity).
    rewrite (IH (pred k) m e Hn He); [f_equal; lia |].
    intros m' e' Hlt Hn'. apply (Hb (S m') e'); [lia | exact Hn'].
Qed.

(** The children before index [i], walked backwards. *)
Lemma nth_error_before (doc : Document) (i m : nat) :
  i <= List.length (children doc) ->
  m < i ->
  nth_error (rev (firstn i (children doc))) m = elementAt doc (i - S m).
Proof.
  intros Hi Hm. rewrite nth_error_rev, length_firstn.
  replace (Nat.min i (List.length (children doc))) with i by lia.
  apply Nat.ltb_lt in Hm. rewrite Hm. apply Nat.ltb_lt in Hm.
  rewrite nth_error_firstn.
  assert (Hlt : Nat.ltb (i - S m) i = true) by (apply Nat.ltb_lt; lia).
  rewrite Hlt. reflexivity.
Qed.

Lemma nth_error_before_Some (doc : Document) (i m : nat) (e : HTMLElement) :
  nth_error (rev (firstn i (children doc))) m = Some e ->
  m < i /\ m < List.length (children doc).
Proof.
  intros H. assert (Hl : m < List.length (rev (firstn i (children doc)))).
  { apply nth_error_Some. congruence. }
  rewrite length_rev, length_firstn in Hl. lia.
Qed.

Lemma findInput_sides (doc : Document) (i : nat) :
  i < List.length (children doc) ->
  (forall j, findInput doc i nextElementSibling = Some j ->
             i < j /\ internalAt doc j /\ noInternalBetween doc i j)
  /\ (findInput doc i nextElementSibling = None ->
      forall k, i < k -> ~ internalAt doc k)
  /\ (forall j, findInput doc i previousElementSibling = Some j ->
                j < i /\ internalAt doc j /\ noInternalBetween doc j i)
  /\ (findInput doc i previousElementSibling = None ->
      forall k, k < i -> ~ internalAt doc k).
Proof.
  intros Hi. unfold findInput, internalAt, noInternalBetween, elementAt.
  split; [| split; [| split]].
  - intros j H. apply firstInternalUp_Some in H.
    destruct H as (m & e & -> & Hn & He & Hb). rewrite nth_error_skipn in Hn.
    split; [lia |]. split; [eauto |].
    intros k e' Hk Hn'. apply (Hb (k - S i) e'); [lia |].
    rewrite nth_error_skipn. replace (S i + (k - S i)) with k by lia. exact Hn'.
  - intros H k Hk (e & Hn & He).
    pose proof (firstInternalUp_None _ _ H (k - S i) e) as Hf.
    rewrite nth_error_skipn in Hf. replace (S i + (k - S i)) with k in Hf by lia.
    rewrite (Hf Hn) in He. discriminate He.
  - intros j H. apply firstInternalDown_Some in H.
    destruct H as (m & e & -> & Hn & He & Hb).
    destruct (nth_error_before_Some _ _ _ _ Hn) as [Hm _].
    rewrite nth_error_before in Hn by lia. unfold elementAt in Hn.
    split; [lia |]. split; [exists e; split; [| exact He] |].
    + replace (pred i - m) with (i - S m) by lia. exact Hn.
    + intros k e' Hk Hn'. apply (Hb (i - S k) e'); [lia |].
      rewrite nth_error_before by lia. unfold elementAt.
      replace (i - S (i - S k)) with k by lia. exact Hn'.
  - intros H k Hk (e & Hn & He).
    pose proof (firstInternalDown_None _ _ H (i - S k) e) as Hf.
    rewrite nth_error_before in Hf by lia. unfold elementAt in Hf.
    replace (i - S (i - S k)) with k in Hf by lia.
    rewrite (Hf Hn) in He. discriminate He.
Qed.

(** X7.  [findInput] finds the nearest internal input on the side it is
    asked for: the one it returns is an internal input, no child between
    the element and it is one, and it returns nothing exactly when that
    side holds no internal input. *)
Theorem findInput_nearest (doc : Document) (i : nat) :
  i < List.length (children doc) ->
  (forall j, findInput doc i nextElementSibling = Some j ->
             i < j /\ internalAt doc j /\ noInternalBetween doc i j)
  /\ (findInput doc i nextElementSibling = None ->
      forall k, i < k -> ~ internalAt doc k)
  /\ (forall j, findInput doc i previousElementSibling = Some j ->
                j < i /\ internalAt doc j /\ noInternalBetween doc j i)
  /\ (findInput doc i previousElementSibling = None ->
      forall k, k < i -> ~ internalAt doc k).
Proof. exact (findInput_sides doc i). Qed.

(** X8.  Moving to the next internal input and then to the previous one
    comes back: when the element is itself an internal input, the
    previous internal input of its next one is the element, and the next
    internal input of its previous one is the element. *)
Theorem findInput_there_and_back (doc : Document) (i j : nat) :
  i < List.length (children doc) ->
  internalAt doc i ->
  (findInput doc i nextElementSibling = Some j ->
   findInput doc j previousElementSibling = Some i)
  /\ (findInput doc i previousElementSibling = Some j ->
      findInput doc j nextElementSibling = Some i).
Proof.
  intros Hi (ei & Hei & Hinti).
  destruct (findInput_sides doc i Hi) as (Hnext & _ & Hprev & _).
  split; intros H.
  - destruct (Hnext j H) as (Hlt & (ej & Hej & _) & Hb).
    assert (Hj : j < List.length (children doc)).
    { apply nth_error_Some. unfold elementAt in Hej. congruence. }
    unfold findInput.
    rewrite (firstInternalDown_first _ (pred j) (j - S i) ei); [f_equal; lia | | exact Hinti |].
    + rewrite nth_error_before by lia.
      replace (j - S (j - S i)) with i by lia. exact Hei.
    + intros m' e' Hm Hn'. rewrite nth_error_before in Hn' by lia.
      apply (Hb (j - S m') e'); [lia | exact Hn'].
  - destruct (Hprev j H) as (Hlt & (ej & Hej & _) & Hb).
    unfold findInput.
    rewrite (firstInternalUp_first _ (S j) (i - S j) ei); [f_equal; lia | | exact Hinti |].
    + rewrite nth_error_skipn. replace (S j + (i - S j)) with i by lia. exact Hei.
    + intros m' e' Hm Hn'. rewrite nth_error_skipn in Hn'.
      apply (Hb (S j + m') e'); [lia | exact Hn'].
Qed.

Lemma hourKeyDown_frame (name k : string) (st : State) :
  let st' := hourKeyDown name k st in
  hour st' = hour st /\ minute st' = minute st /\ second st' = second st
  /\ value st' = value st /\ isClockOpen st' = isClockOpen st
  /\ lastPressedKey st' = lastPressedKey st
  /\ (forall a, amPm st = Some a -> amPm st' = Some a)
  /\ (amPm st' <> amPm st ->
      name = "hour12" /\ amPm st = None /\ 2 <= String.length (twoDigitHour st)
      /\ JS.isNaN (JS.Number k) = false /\ twoDigitHour st' = twoDigitHour st).
Proof.
  unfold hourKeyDown.
  destruct (JS.isNaN (JS.Number k)) eqn:Hnan.
  - change (negb true) with false. cbv iota.
    destruct (String.eqb k "Backspace"); cbn; repeat split; auto; congruence.
  - change (negb false) with true. cbv iota.
    destruct (negb (Nat.eqb (String.length (twoDigitHour st)) 0)
              || JS.includes acceptedFirstDigitsForHour k);
      [| cbn; repeat split; auto; congruence].
    destruct (Nat.ltb (String.length (twoDigitHour st)) 2) eqn:Hlt.
    + destruct (negb (String.eqb (twoDigitHour st) "2")
                || JS.lt (JS.Number k) (JS.ofZ 4));
        cbn; repeat split; auto; congruence.
    + destruct (String.eqb name "hour12") eqn:Hname;
        [| cbn; repeat split; auto; congruence].
      apply String.eqb_eq in Hname. apply Nat.ltb_ge in Hlt.
      destruct (amPm st) as [a |] eqn:Ha; cbn; rewrite ?Ha;
        repeat split; auto; try congruence.
Qed.

(** The statements of [onKeyDown] on ArrowLeft and ArrowRight, before
    the blur that the focus move dispatches. *)
Lemma onKeyDown_arrow (st : State) (doc : Document) (event : KeyboardEvent) :
  key event = "ArrowLeft" \/ key event = "ArrowRight" ->
  onKeyDown st doc event =
  (setLastPressedKey (Some (key event)) st,
   focus (findInput doc (target event)
            (if String.eqb (key event) "ArrowLeft"
             then previousElementSibling else nextElementSibling)) doc,
   true).
Proof.
  intros Hk. unfold onKeyDown.
  assert (Hhour : forall name st0, hourKeyDown name (key event) st0 = st0).
  { intros name st0. unfold hourKeyDown.
    destruct Hk as [-> | ->]; reflexivity. }
  rewrite Hhour.
  destruct (isHourName (nameOfTarget doc event));
    destruct Hk as [-> | ->]; reflexivity.
Qed.

(** What the statements of [onKeyDown] leave as it was, before the blur
    that the focus move dispatches. *)
Lemma onKeyDown_frame (st : State) (doc : Document) (event : KeyboardEvent) :
  let st' := fst (fst (onKeyDown st doc event)) in
  hour st' = hour st /\ minute st' = minute st /\ second st' = second st
  /\ value st' = value st /\ isClockOpen st' = isClockOpen st
  /\ lastPressedKey st' = Some (key event)
  /\ (forall a, amPm st = Some a -> amPm st' = Some a)
  /\ (amPm st' <> amPm st ->
      nameOfTarget doc event = "hour12" /\ amPm st = None
      /\ 2 <= String.length (twoDigitHour st)
      /\ JS.isNaN (JS.Number (key event)) = false
      /\ twoDigitHour st' = twoDigitHour st).
Proof.
  cbv zeta. rewrite onKeyDown_state. cbv zeta.
  destruct (isHourName (nameOfTarget doc event)).
  - pose proof (hourKeyDown_frame (nameOfTarget doc event) (key event)
                  (setLastPressedKey (Some (key event)) st)) as H.
    cbv zeta in H. cbn [setLastPressedKey hour minute second value isClockOpen
                        lastPressedKey amPm twoDigitHour] in H.
    exact H.
  - cbn. repeat split; auto; congruence.
Qed.

Lemma sliceDropLast_append (acc : string) (c : ascii) :
  JS.sliceDropLast (acc ++ String c "") = acc.
Proof.
  unfold JS.sliceDropLast.
  assert (H : list_ascii_of_string (acc ++ String c "")
              = app (list_ascii_of_string acc) [c]).
  { induction acc as [| d acc IH]; [reflexivity |]. cbn. now rewrite IH. }
  rewrite H, removelast_last. apply string_of_list_ascii_of_string.
Qed.

(** X11.  Backspace undoes a digit: on an hour field, a digit that the
    accumulator took, followed by Backspace, leaves the accumulator as
    it was before the digit. *)
Theorem digit_then_backspace (st : State) (doc : Document) (digit back : KeyboardEvent) :
  isHourName (nameOfTarget doc digit) = true ->
  isHourName (nameOfTarget doc back) = true ->
  isDigitKey (key digit) = true ->
  key back = "Backspace" ->
  twoDigitHour (fst (fst (onKeyDown st doc digit))) = twoDigitHour st ++ key digit ->
  twoDigitHour (fst (onKeyDowns [digit; back] st doc)) = twoDigitHour st.
Proof.
  intros Hn1 Hn2 Hd Hb Happ. cbn [onKeyDowns].
  pose proof (digit_key_keeps_focus st doc digit Hd) as Hdoc.
  destruct (onKeyDown st doc digit) as [[st1 doc1] p1]. cbn [fst snd] in Happ, Hdoc.
  subst doc1.
  pose proof (onKeyDown_state st1 doc back) as Hs.
  destruct (onKeyDown st1 doc back) as [[st2 doc2] p2]. cbn [fst snd] in Hs |- *.
  rewrite Hs. cbv zeta. rewrite Hn2, Hb. unfold hourKeyDown.
  change (JS.isNaN (JS.Number "Backspace")) with true.
  cbn [negb String.eqb Ascii.eqb Bool.eqb setTwoDigitHour setLastPressedKey twoDigitHour].
  rewrite Happ.
  destruct (digit_key_value _ Hd) as [Hl | Hnan];
    [| rewrite digit_key_is_number in Hnan by assumption; discriminate].
  destruct (key digit) as [| c [| c' r]]; try discriminate Hl.
  apply sliceDropLast_append.
Qed.

(** X12.  A key-up moves the focus forward or not at all: it does
    nothing when the key is not the last key pressed, it never changes
    the children, and the focus after it is the focus before it or an
    internal input after the target. *)
Theorem key_up_moves_forward_only (st : State) (doc : Document) (event : KeyboardEvent) :
  (lastPressedKey st <> Some (key event) -> onKeyUp st doc event = doc)
  /\ children (onKeyUp st doc event) = children doc
  /\ (activeElement (onKeyUp st doc event) = activeElement doc
      \/ exists j, activeElement (onKeyUp st doc event) = Some j
                   /\ target event < j /\ internalAt doc j).
Proof.
  assert (Hcases : onKeyUp st doc event = doc
                   \/ exists j, findInput doc (target event) nextElementSibling = Some j
                                /\ onKeyUp st doc event = focus (Some j) doc).
  { unfold onKeyUp.
    destruct (findInput doc (target event) nextElementSibling) as [j |] eqn:Hf.
    - repeat match goal with
             | |- (if ?b then _ else _) = _ \/ _ => destruct b
             | |- match ?x with _ => _ end = _ \/ _ => destruct x
             end; eauto.
    - left.
      repeat match goal with
             | |- (if ?b then _ else _) = _ => destruct b
             | |- match ?x with _ => _ end = _ => destruct x
             end; reflexivity. }
  split; [| split].
  - intros Hne. unfold onKeyUp.
    destruct (lastPressedKey st) as [l |]; [| reflexivity].
    destruct (String.eqb l (key event)) eqn:E; [| reflexivity].
    apply String.eqb_eq in E. congruence.
  - destruct Hcases as [-> | (j & _ & ->)]; reflexivity.
  - destruct Hcases as [-> | (j & Hf & ->)]; [left; reflexivity |].
    right. exists j. split; [reflexivity |].
    apply firstInternalUp_Some in Hf.
    destruct Hf as (m & e & -> & Hn & He & _). rewrite nth_error_skipn in Hn.
    split; [lia |]. exists e. split; [exact Hn | exact He].
Qed.

(* ------------------------------------------------------------------ *)
(** *** More on the value reconciler *)
(* ------------------------------------------------------------------ *)

Lemma forallb_false_exists {A} (f : A -> bool) (l : list A) :
  forallb f l = false -> exists x, In x l /\ f x = false.
Proof.
  induction l as [| x l IH]; cbn [forallb]; [discriminate |].
  destruct (f x) eqn:Hx; cbn [andb].
  - intros H. destruct (IH H) as (y & Hin & Hy). exists y. split; [now right | exact Hy].
  - intros _. exists x. split; [now left | exact Hx].
Qed.

(** X13.  A reconciliation makes at most one call; without an [onChange]
    prop it makes none, not even [onInvalidChange]; and [onChange] is
    always called with [shouldCloseClock] false. *)
Theorem reconciliation_calls_at_most_once (st : State) (refs : Refs)
  (amPmOverride : option AmPmType) (hourOverride : option string)
  (calls : list Call) :
  onChangeExternal st refs amPmOverride hourOverride = Ok calls ->
  List.length calls <= 1
  /\ (onChangeProps = false -> calls = [])
  /\ (onInvalidChange = false -> ~ In OnInvalidChange calls)
  /\ (forall v shouldCloseClock,
         In (OnChange v shouldCloseClock) calls -> shouldCloseClock = false).
Proof.
  unfold onChangeExternal.
  destruct onChangeProps; cbn [negb].
  2: { intros [= <-]. repeat split; auto; intros; contradiction. }
  destruct (isEveryValueEmpty refs amPmOverride hourOverride).
  { intros [= <-]. cbn. repeat split; try lia; try discriminate.
    - intros _ [H | []]. discriminate H.
    - intros v b [[= _ <-] | []]. reflexivity. }
  destruct (isEveryValueFilled refs amPmOverride hourOverride
            && isEveryValueValid refs amPmOverride hourOverride).
  - destruct (getProcessedValue_returns
                (proposedValue st refs amPmOverride hourOverride)) as [p ->].
    cbn [bind]. destruct (sameAsValueProps p); intros [= <-]; cbn.
    + repeat split; try lia; try discriminate; intros; contradiction.
    + repeat split; try lia; try discriminate.
      * intros _ [H | []]. discriminate H.
      * intros v b [[= _ <-] | []]. reflexivity.
  - destruct onInvalidChange; cbn [negb]; intros [= <-]; cbn.
    + repeat split; try lia; try discriminate.
      intros v b [H | []]. discriminate H.
    + repeat split; try lia; try discriminate; intros; contradiction.
Qed.

(** X14.  A value is committed only from complete input: [onChange] is
    called with a value only when every form element is filled and valid
    and the value is the processed composition of the fields, different
    from the value supplied from outside; [onInvalidChange] is called
    only when some inspected field is non-empty while some form element
    is empty or invalid. *)
Theorem reconciliation_commits_only_complete_input (st : State) (refs : Refs)
  (amPmOverride : option AmPmType) (hourOverride : option string)
  (calls : list Call) :
  onChangeExternal st refs amPmOverride hourOverride = Ok calls ->
  (forall v shouldCloseClock,
      In (OnChange (Some v) shouldCloseClock) calls ->
      Forall (fun e => DOM.value e <> "" /\ valid e = true)
             (formElements refs amPmOverride hourOverride)
      /\ getProcessedValue (proposedValue st refs amPmOverride hourOverride) = Ok v
      /\ valueProps <> VString v)
  /\ (In OnInvalidChange calls ->
      (exists e, In e (formElementsWithoutSelect refs amPmOverride hourOverride)
                 /\ DOM.value e <> "")
      /\ (exists e, In e (formElements refs amPmOverride hourOverride)
                    /\ (DOM.value e = "" \/ valid e = false))).
Proof.
  unfold onChangeExternal.
  destruct (negb onChangeProps).
  { intros [= <-]. split; intros; contradiction. }
  destruct (isEveryValueEmpty refs amPmOverride hourOverride) eqn:Hempty.
  { intros [= <-]. split.
    - intros v b [H | []]. discriminate H.
    - intros [H | []]. discriminate H. }
  destruct (isEveryValueFilled refs amPmOverride hourOverride) eqn:Hfilled;
    destruct (isEveryValueValid refs amPmOverride hourOverride) eqn:Hvalid;
    cbn [andb].
  - destruct (getProcessedValue_returns
                (proposedValue st refs amPmOverride hourOverride)) as [p Hp].
    rewrite Hp. cbn [bind].
    destruct (sameAsValueProps p) eqn:Hsame; intros [= <-].
    + split; intros; contradiction.
    + split; [| intros [H | []]; discriminate H].
      intros v b [[= <- _] | []]. split; [| split; [reflexivity |]].
      * apply Forall_forall. intros e He.
        unfold isEveryValueFilled, isEveryValueValid in Hfilled, Hvalid.
        rewrite forallb_forall in Hfilled, Hvalid.
        split; [apply stringTruthy_true; auto | auto].
      * intros Hv. unfold sameAsValueProps in Hsame. rewrite Hv in Hsame.
        rewrite String.eqb_refl in Hsame. discriminate Hsame.
  - destruct (negb onInvalidChange); intros [= <-];
      (split; [intros v b H; cbn [In] in H;
               first [contradiction | destruct H as [H | []]; discriminate H] |]);
      [intros [] |].
    intros _. split.
    + apply forallb_false_exists in Hempty. destruct Hempty as (e & Hin & He).
      exists e. split; [exact Hin |]. apply negb_false_iff in He.
      now apply stringTruthy_true.
    + apply forallb_false_exists in Hvalid. destruct Hvalid as (e & Hin & He).
      exists e. split; [exact Hin | now right].
  - destruct (negb onInvalidChange); intros [= <-];
      (split; [intros v b H; cbn [In] in H;
               first [contradiction | destruct H as [H | []]; discriminate H] |]);
      [intros [] |].
    intros _. split.
    + apply forallb_false_exists in Hempty. destruct Hempty as (e & Hin & He).
      exists e. split; [exact Hin |]. apply negb_false_iff in He.
      now apply stringTruthy_true.
    + apply forallb_false_exists in Hfilled. destruct Hfilled as (e & Hin & He).
      exists e. split; [exact Hin | left]. now apply stringTruthy_false.
  - destruct (negb onInvalidChange); intros [= <-];
      (split; [intros v b H; cbn [In] in H;
               first [contradiction | destruct H as [H | []]; discriminate H] |]);
      [intros [] |].
    intros _. split.
    + apply forallb_false_exists in Hempty. destruct Hempty as (e & Hin & He).
      exists e. split; [exact Hin |]. apply negb_false_iff in He.
      now apply stringTruthy_true.
    + apply forallb_false_exists in Hfilled. destruct Hfilled as (e & Hin & He).
      exists e. split; [exact Hin | left]. now apply stringTruthy_false.
Qed.

Local Ltac blur_case Hnot :=
  let Hcond := fresh "Hcond" in
  let Hacc := fresh "Hacc" in
  let H := fresh "H" in
  match goal with
  | |- context [if ?b then _ else _] => destruct b eqn:Hcond
  end;
  [ match goal with
    | |- context [onChangeExternal ?s ?r ?a ?h] =>
        let calls := fresh "calls" in
        destruct (onChangeExternal_returns s r a h) as [calls ->];
        cbn [bind]; eexists; exists calls
    end;
    split; [reflexivity |];
    split; [reflexivity |];
    split; [reflexivity |];
    split; [reflexivity | intros H; destruct (Hnot H)]
  | apply orb_false_iff in Hcond; destruct Hcond as [Hacc _];
    apply stringTruthy_false in Hacc;
    eexists; eexists; split; [reflexivity |];
    split; [exact Hacc |];
    split; [reflexivity |];
    split; [reflexivity | intros H; destruct (Hnot H)] ].

(** X15.  The blur of an hour field always returns and always leaves the
    accumulator empty, the minute and the second as they were; on the
    24-hour field it always reconciles, without overrides, and changes
    nothing else. *)
Theorem blur_empties_accumulator (st : State) (refs : Refs) (name : string) :
  exists st' calls,
    handleBlurHourInput st refs name = Ok (st', calls)
    /\ twoDigitHour st' = ""
    /\ minute st' = minute st /\ second st' = second st
    /\ (name <> "hour12" ->
        onChangeExternal st refs None None = Ok calls
        /\ st' = setTwoDigitHour "" st).
Proof.
  unfold handleBlurHourInput.
  destruct (String.eqb name "hour12") eqn:Hname.
  - assert (Hnot : name <> "hour12" -> False)
      by (intros H; apply H; now apply String.eqb_eq).
    destruct (optionStringIs (hour st) "0");
      [destruct (amPm st) as [[|] |] | destruct (optionStringTruthy (hour st))].
    all: blur_case Hnot.
  - replace (amPmDiffers (amPm st) None) with true
      by (destruct (amPm st); reflexivity).
    rewrite orb_true_r.
    destruct (onChangeExternal_returns st refs None None) as [calls Hc].
    rewrite Hc. cbn [bind]. exists (setTwoDigitHour "" st), calls.
    repeat split; reflexivity.
Qed.

Lemma formElements_override_refs (refs refs' : Refs) (a : AmPmType)
  (hourOverride : option string) :
  hour24Input refs' = hour24Input refs ->
  minuteInput refs' = minuteInput refs ->
  secondInput refs' = secondInput refs ->
  hourOverrideTruthy hourOverride = true \/ hour12Input refs' = hour12Input refs ->
  formElements refs' (Some a) hourOverride = formElements refs (Some a) hourOverride.
Proof.
  intros H24 Hm Hs H12. unfold formElements. cbn [amPmOverrideTruthy].
  rewrite H24, Hm, Hs.
  destruct H12 as [-> | ->]; [reflexivity |].
  reflexivity.
Qed.

(** X16.  Overrides replace what they override: with a meridiem override
    the select is not consulted, with a non-empty hour override the
    12-hour field is not consulted either, and of the component state
    only the accumulator is read.  Two reconciliations that agree on the
    remaining fields and on the accumulator make the same calls. *)
Theorem overrides_replace_fields (st st' : State) (refs refs' : Refs)
  (a : AmPmType) (hourOverride : option string) :
  twoDigitHour st' = twoDigitHour st ->
  hour24Input refs' = hour24Input refs ->
  minuteInput refs' = minuteInput refs ->
  secondInput refs' = secondInput refs ->
  hourOverrideTruthy hourOverride = true \/ hour12Input refs' = hour12Input refs ->
  onChangeExternal st' refs' (Some a) hourOverride
  = onChangeExternal st refs (Some a) hourOverride.
Proof.
  intros Hacc H24 Hm Hs H12.
  pose proof (formElements_override_refs refs refs' a hourOverride H24 Hm Hs H12) as Hfe.
  unfold onChangeExternal, isEveryValueEmpty, isEveryValueFilled, isEveryValueValid,
    formElementsWithoutSelect, proposedValue, amPmValue.
  rewrite Hfe, Hacc. reflexivity.
Qed.

Lemma padStart_two_characters (c d : ascii) :
  padStart (JS.Str (String c (String d ""))) = String c (String d "").
Proof. reflexivity. Qed.

(** X17.  A two-character hour override is composed verbatim: the
    proposed value begins with it, whatever the fields hold. *)
Theorem hour_override_composed_verbatim (st : State) (refs : Refs)
  (amPmOverride : option AmPmType) (h : string) :
  String.length h = 2 ->
  exists rest,
    proposedValue st refs amPmOverride (Some h) = h ++ ":" ++ rest.
Proof.
  intros Hlen.
  destruct h as [| c [| d [| e h]]]; try discriminate Hlen.
  unfold proposedValue. cbn [hourOverrideTruthy JS.stringTruthy].
  rewrite padStart_two_characters. eexists. reflexivity.
Qed.

(** X18.  Integers from 0 to 99 are padded to exactly two characters
    that read back as the same number. *)
Theorem padStart_round_trip (n : Z) :
  (0 <= n <= 99)%Z ->
  String.length (padStart (JS.Num (JS.ofZ n))) = 2
  /\ JS.Number (padStart (JS.Num (JS.ofZ n))) = JS.ofZ n.
Proof.
  intros Hn.
  replace n with (Z.of_nat (Z.to_nat n)) by lia.
  assert (Hk : Z.to_nat n < 100) by lia.
  generalize dependent (Z.to_nat n). clear n Hn. intros k Hk.
  do 100 (destruct k as [| k]; [split; vm_compute; reflexivity |]).
  lia.
Qed.

(** X19.  A change event touches the one slot its field name selects and
    nothing else: never the accumulator, the last pressed key, the value
    or the clock flag; the minute and the second take the typed text as
    it is; an hour above 23 is not stored. *)
Theorem change_touches_one_slot (st st' : State) (refs : Refs)
  (event : ChangeEvent) (calls : list Call) :
  onChange st refs event = Ok (st', calls) ->
  twoDigitHour st' = twoDigitHour st
  /\ lastPressedKey st' = lastPressedKey st
  /\ value st' = value st
  /\ isClockOpen st' = isClockOpen st
  /\ (amPm st' = amPm st
      \/ targetName event = "amPm" /\ amPm st' = asAmPmType (targetValue event))
  /\ (hour st' = hour st
      \/ (targetName event = "hour12" \/ targetName event = "hour24")
         /\ JS.gt (JS.Number (targetValue event)) (JS.ofZ 23) = false)
  /\ (minute st' = minute st
      \/ targetName event = "minute" /\ minute st' = Some (targetValue event))
  /\ (second st' = second st
      \/ targetName event = "second" /\ second st' = Some (targetValue event)).
Proof.
  unfold onChange.
  destruct (onChangeExternal_returns st refs None None) as [cs ->]. cbn [bind].
  intros [= <- _]. unfold onChangeState.
  destruct (String.eqb (targetName event) "amPm") eqn:Ha.
  { apply String.eqb_eq in Ha. repeat split; auto. }
  destruct (String.eqb (targetName event) "hour12") eqn:H12.
  { apply String.eqb_eq in H12.
    destruct (JS.gt (JS.Number (targetValue event)) (JS.ofZ 23)) eqn:Hgt;
      repeat split; auto. }
  destruct (String.eqb (targetName event) "hour24") eqn:H24.
  { apply String.eqb_eq in H24.
    destruct (JS.gt (JS.Number (targetValue event)) (JS.ofZ 23)) eqn:Hgt;
      repeat split; auto. }
  destruct (String.eqb (targetName event) "minute") eqn:Hm.
  { apply String.eqb_eq in Hm. repeat split; auto. }
  destruct (String.eqb (targetName event) "second") eqn:Hs.
  { apply String.eqb_eq in Hs. repeat split; auto. }
  repeat split; auto.
Qed.

Lemma getValue_fields (refs : Refs) (amPmOverride : option AmPmType)
  (hourOverride : option string) :
  rendered refs ->
  let values := collectValues (formElements refs amPmOverride hourOverride) in
  getValue values "hour12"
  = (if hourOverrideTruthy hourOverride then JS.Undefined
     else fieldValue (hour12Input refs))
  /\ getValue values "hour24" = fieldValue (hour24Input refs)
  /\ getValue values "minute" = fieldValue (minuteInput refs)
  /\ getValue values "second" = fieldValue (secondInput refs).
Proof.
  intros (Ha & Hat & H12 & H24 & Hm & Hs).
  unfold formElements, collectValues, fieldValue.
  destruct refs as [a h12 h24 mi se]; cbn [amPmInput hour12Input hour24Input
    minuteInput secondInput] in *.
  destruct a as [a |], h12 as [h12 |], h24 as [h24 |], mi as [mi |], se as [se |];
    destruct (hourOverrideTruthy hourOverride);
    destruct (amPmOverrideTruthy amPmOverride);
    cbn [hasName hasType] in *;
    cbn [app filterBoolean fold_left getValue];
    repeat match goal with
           | H : DOM.name _ = _ |- _ => rewrite H; clear H
           | H : DOM.type _ = _ |- _ => rewrite H; clear H
           end;
    cbn; auto.
Qed.

(** X20.  In a layout without the 24-hour field, and without an hour
    override, the 12-hour field counts only together with a resolved
    meridiem: when the field reads as zero or the meridiem is unresolved,
    the hour is composed as ["00"], and otherwise it is the padded
    result of [convert12to24] (or ["00"] when that result is zero or not
    a number). *)
Theorem twelve_hour_composition (st : State) (refs : Refs)
  (amPmOverride : option AmPmType) (hourOverride : option string) :
  rendered refs ->
  hour24Input refs = None ->
  hourOverrideTruthy hourOverride = false ->
  let values := collectValues (formElements refs amPmOverride hourOverride) in
  let hour12 := fieldValue (hour12Input refs) in
  let resolved := amPmValue st values amPmOverride in
  let converted := convert12to24 hour12 resolved in
  exists rest,
    proposedValue st refs amPmOverride hourOverride
    = (if JS.truthy hour12 && JS.truthy resolved && JS.numberTruthy converted
       then padStart (JS.Num converted) else "00") ++ ":" ++ rest.
Proof.
  intros Hr H24 Hh values hour12 resolved converted.
  destruct (getValue_fields refs amPmOverride hourOverride Hr) as (G12 & G24 & _ & _).
  fold values in G12, G24. rewrite Hh in G12. rewrite H24 in G24.
  cbn [fieldValue] in G24.
  unfold proposedValue. fold values. fold resolved.
  rewrite Hh, G12, G24. fold hour12. fold converted.
  eexists. f_equal.
  unfold JS.or at 2. cbn [JS.truthy].
  unfold JS.and at 1.
  destruct (JS.truthy hour12) eqn:T12; cbn [andb].
  - unfold JS.and. destruct (JS.truthy resolved) eqn:Tr; cbn [andb].
    + unfold JS.or. cbn [JS.truthy].
      destruct (JS.numberTruthy converted); cbn [JS.ToNumber]; reflexivity.
    + unfold JS.or. rewrite Tr. cbn [JS.ToNumber]. reflexivity.
  - unfold JS.or. rewrite T12. cbn [JS.ToNumber]. reflexivity.
Qed.

(** X21.  A field that is not rendered is composed as ["00"]: without
    the second field the proposed value ends in [":00"], and without the
    minute field its middle part is ["00"]. *)
Theorem absent_fields_compose_as_zero (st : State) (refs : Refs)
  (amPmOverride : option AmPmType) (hourOverride : option string) :
  rendered refs ->
  (secondInput refs = None ->
   exists hm, proposedValue st refs amPmOverride hourOverride = hm ++ ":00")
  /\ (minuteInput refs = None ->
      exists hh ss,
        proposedValue st refs amPmOverride hourOverride = hh ++ ":00:" ++ ss).
Proof.
  intros Hr.
  destruct (getValue_fields refs amPmOverride hourOverride Hr) as (_ & _ & Gm & Gs).
  split; intros Hnone.
  - rewrite Hnone in Gs. cbn [fieldValue] in Gs.
    unfold proposedValue. rewrite Gs.
    match goal with
    | |- exists hm, ?A ++ ":" ++ ?B ++ ":" ++ ?P = _ =>
        exists (A ++ ":" ++ B); change P with "00"
    end.
    rewrite !append_assoc. reflexivity.
  - rewrite Hnone in Gm. cbn [fieldValue] in Gm.
    unfold proposedValue. rewrite Gm.
    eexists. eexists. reflexivity.
Qed.

Lemma blur_of_settled_state (st : State) (refs : Refs) (a : AmPmType) :
  amPm st = Some a ->
  twoDigitHour st = "" ->
  optionStringIs (hour st) "0" = false ->
  optionStringTruthy (hour st) = true ->
  handleBlurHourInput st refs "hour12" = Ok (st, []).
Proof.
  destruct st as [am0 acc h mi se v open lk].
  cbn [amPm twoDigitHour hour]. intros -> -> H0 Ht.
  unfold handleBlurHourInput.
  change (String.eqb "hour12" "hour12") with true.
  cbn [amPm twoDigitHour hour]. rewrite H0, Ht.
  cbn [JS.stringTruthy orb amPmDiffers].
  destruct a; reflexivity.
Qed.

(** X22.  On the 12-hour field holding a non-empty hour, a blur settles
    the state: a second blur, whatever the fields then hold, makes no
    call and changes nothing. *)
Theorem second_blur_is_silent (st st' : State) (refs refs' : Refs)
  (calls : list Call) :
  optionStringTruthy (hour st) = true ->
  handleBlurHourInput st refs "hour12" = Ok (st', calls) ->
  handleBlurHourInput st' refs' "hour12" = Ok (st', []).
Proof.
  intros Ht. unfold handleBlurHourInput at 1.
  change (String.eqb "hour12" "hour12") with true. cbv iota.
  rewrite Ht.
  destruct (optionStringIs (hour st) "0") eqn:H0;
    destruct (amPm st) as [[|] |] eqn:Ha.
  all: match goal with
       | |- context [if ?b then _ else _] => destruct b eqn:Hc
       end.
  all: try match goal with
           | |- context [onChangeExternal ?s ?r ?x ?h] =>
               destruct (onChangeExternal_returns s r x h) as [cs ->]; cbn [bind]
           end.
  all: intros [= <- _].
  all: eapply blur_of_settled_state;
    [ cbn [amPm setAmPm setHour setTwoDigitHour]; try rewrite Ha; reflexivity
    | cbn [twoDigitHour setAmPm setHour setTwoDigitHour];
      first [ reflexivity
            | apply orb_false_iff in Hc; destruct Hc as [Hc _];
              now apply stringTruthy_false in Hc ]
    | first [reflexivity | exact H0]
    | first [reflexivity | exact Ht] ].
Qed.

(* ------------------------------------------------------------------ *)
(** *** The key-down event with the blur it dispatches *)
(* ------------------------------------------------------------------ *)

Lemma optionStringIs_true (o : option string) (s : string) :
  optionStringIs o s = true -> o = Some s.
Proof.
  destruct o as [x |]; cbn [optionStringIs]; [| discriminate].
  intros H. apply String.eqb_eq in H. now subst.
Qed.

Local Ltac blur_effects_case :=
  let Hcond := fresh "Hcond" in
  let Hacc := fresh "Hacc" in
  match goal with
  | |- context [if ?b then _ else _] => destruct b eqn:Hcond
  end;
  [ match goal with
    | |- context [onChangeExternal ?s ?r ?a ?h] =>
        let calls := fresh "calls" in
        destruct (onChangeExternal_returns s r a h) as [calls ->];
        cbn [bind]; eexists; exists calls
    end;
    split; [reflexivity |]; cbn [setAmPm setHour setTwoDigitHour twoDigitHour amPm hour
                                 minute second value isClockOpen lastPressedKey]
  | apply orb_false_iff in Hcond; destruct Hcond as [Hacc _];
    apply stringTruthy_false in Hacc;
    eexists; eexists; split; [reflexivity |];
    cbn [setAmPm setHour setTwoDigitHour twoDigitHour amPm hour
         minute second value isClockOpen lastPressedKey] ].

(** What a blur of an hour field does to the state. *)
Lemma handleBlurHourInput_effects (st : State) (refs : Refs) (name : string) :
  exists st2 calls,
    handleBlurHourInput st refs name = Ok (st2, calls)
    /\ (twoDigitHour st2 = ""
        /\ minute st2 = minute st /\ second st2 = second st
        /\ value st2 = value st /\ isClockOpen st2 = isClockOpen st
        /\ lastPressedKey st2 = lastPressedKey st)
    /\ (forall a, amPm st = Some a -> amPm st2 = Some a)
    /\ (blurSetsAmPm st name = false -> amPm st2 = amPm st)
    /\ (hour st2 = hour st
        \/ name = "hour12" /\ hour st = Some "0" /\ hour st2 = Some "12").
Proof.
  unfold handleBlurHourInput, blurSetsAmPm.
  destruct (String.eqb name "hour12") eqn:Hname; cbn [andb].
  - apply String.eqb_eq in Hname.
    destruct (optionStringIs (hour st) "0") eqn:H0;
      [apply optionStringIs_true in H0;
       destruct (amPm st) as [[|] |] eqn:Ha
      | destruct (optionStringTruthy (hour st)) eqn:Ht;
        [destruct (amPm st) as [a |] eqn:Ha |] ].
    all: blur_effects_case.
    all: repeat match goal with
                | |- _ /\ _ => split
                end;
      try reflexivity; try assumption; try discriminate;
      try (intros a0 Hx; first [exact Hx | discriminate Hx | congruence]);
      try (intros _; assumption);
      try (left; reflexivity);
      try (right; repeat split; assumption).
  - destruct (onChangeExternal_returns st refs None None) as [calls Hc].
    replace (amPmDiffers (amPm st) None) with true
      by (destruct (amPm st); reflexivity).
    rewrite orb_true_r, Hc. cbn [bind].
    exists (setTwoDigitHour "" st), calls.
    split; [reflexivity |]. split; [repeat split |].
    split; [intros a Ha; exact Ha |]. split; [reflexivity | left; reflexivity].
Qed.

Lemma setTwoDigitHour_same (st : State) : setTwoDigitHour (twoDigitHour st) st = st.
Proof. destruct st; reflexivity. Qed.

(** X9.  ArrowLeft and ArrowRight navigate, and the focus move they make
    blurs the field that had the focus: the key is recorded as the last
    key pressed, the default action is prevented, the focus goes to what
    [findInput] returns on that side (and stays when it returns
    nothing); when no hour field loses the focus nothing else changes
    and no callback is called, and when one does, the state and the
    calls are those of its blur handler. *)
Theorem arrow_keys_navigate_and_blur (st : State) (refs : Refs) (doc : Document)
  (event : KeyboardEvent) :
  key event = "ArrowLeft" \/ key event = "ArrowRight" ->
  let doc' :=
    focus (findInput doc (target event)
             (if String.eqb (key event) "ArrowLeft"
              then previousElementSibling else nextElementSibling)) doc in
  match blurredHourInput doc doc' with
  | None =>
      keyDownEvent st refs doc event
      = Ok (setLastPressedKey (Some (key event)) st, doc', true, [])
  | Some name =>
      exists st2 calls,
        handleBlurHourInput st refs name = Ok (st2, calls)
        /\ keyDownEvent st refs doc event
           = Ok (setLastPressedKey (Some (key event)) st2, doc', true, calls)
  end.
Proof.
  intros Hk. cbv zeta. unfold keyDownEvent.
  rewrite (onKeyDown_arrow st doc event Hk).
  destruct (blurredHourInput doc _) as [name |]; [| reflexivity].
  cbn [setLastPressedKey twoDigitHour]. rewrite setTwoDigitHour_same.
  destruct (handleBlurHourInput_effects st refs name)
    as (st2 & calls & Hblur & (Hacc & Hmi & Hse & Hva & Hop & Hlk) & Hkeep & Hset & Hhour).
  exists st2, calls. split; [exact Hblur |].
  rewrite Hblur. cbn [bind]. do 2 f_equal. f_equal. f_equal.
  destruct st2 as [a2 acc2 h2 mi2 se2 v2 o2 lk2].
  cbn [amPm twoDigitHour hour minute second value isClockOpen lastPressedKey
       setLastPressedKey] in *.
  subst mi2 se2 v2 o2.
  destruct (blurSetsAmPm st name); [reflexivity |].
  rewrite (Hset eq_refl). reflexivity.
Qed.

(** X10.  A key-down event always returns.  It never changes the minute,
    the second, the value or the clock flag, records the key, and never
    replaces a meridiem that is set.  The hour changes only when the
    12-hour field loses the focus holding ['0'], which becomes ['12'].
    When no hour field loses the focus no callback is called, the hour
    is as it was, and the meridiem changes only from [null], on the
    12-hour field, on a numeric key typed when the accumulator is
    already full, which then stays as it is; when an hour field loses
    the focus the accumulator ends empty. *)
Theorem key_down_event_frame (st : State) (refs : Refs) (doc : Document)
  (event : KeyboardEvent) :
  exists st' doc' prevented calls,
    keyDownEvent st refs doc event = Ok (st', doc', prevented, calls)
    /\ (minute st' = minute st /\ second st' = second st
        /\ value st' = value st /\ isClockOpen st' = isClockOpen st
        /\ lastPressedKey st' = Some (key event))
    /\ (forall a, amPm st = Some a -> amPm st' = Some a)
    /\ (hour st' <> hour st ->
        blurredHourInput doc doc' = Some "hour12"
        /\ hour st = Some "0" /\ hour st' = Some "12")
    /\ (blurredHourInput doc doc' = None ->
        calls = [] /\ hour st' = hour st
        /\ (amPm st' <> amPm st ->
            nameOfTarget doc event = "hour12" /\ amPm st = None
            /\ 2 <= String.length (twoDigitHour st)
            /\ JS.isNaN (JS.Number (key event)) = false
            /\ twoDigitHour st' = twoDigitHour st))
    /\ (forall name, blurredHourInput doc doc' = Some name -> twoDigitHour st' = "").
Proof.
  unfold keyDownEvent.
  pose proof (onKeyDown_frame st doc event) as Hframe. cbv zeta in Hframe.
  destruct (onKeyDown st doc event) as [[st1 doc'] prevented].
  cbn [fst] in Hframe.
  destruct Hframe as (Hh & Hmi & Hse & Hva & Hop & Hlk & Hkeep & Hchange).
  destruct (blurredHourInput doc doc') as [name |] eqn:Hblurred.
  - destruct (handleBlurHourInput_effects (setTwoDigitHour (twoDigitHour st1) st) refs name)
      as (st2 & calls & Hblur & (Hacc & Hmi2 & Hse2 & Hva2 & Hop2 & Hlk2)
          & Hkeep2 & Hset2 & Hhour2).
    rewrite Hblur. cbn [bind].
    change (blurSetsAmPm (setTwoDigitHour (twoDigitHour st1) st) name)
      with (blurSetsAmPm st name) in Hset2.
    cbn [setTwoDigitHour amPm hour minute second value isClockOpen lastPressedKey]
      in Hkeep2, Hset2, Hhour2.
    eexists; exists doc', prevented, calls. split; [reflexivity |].
    cbn [amPm twoDigitHour hour minute second value isClockOpen lastPressedKey].
    rewrite Hblurred.
    split; [repeat split; assumption |].
    split; [| split; [| split; [intros H; discriminate H |]]].
    + intros a Ha. destruct (blurSetsAmPm st name); [now apply Hkeep2 | now apply Hkeep].
    + intros Hne. destruct Hhour2 as [Hsame | (Hn & H0 & H12)];
        [contradiction |]. subst name. repeat split; assumption.
    + intros name' _. exact Hacc.
  - eexists; exists doc', prevented, []. split; [reflexivity |].
    rewrite Hblurred.
    split; [repeat split; assumption |].
    split; [exact Hkeep |].
    split; [intros Hne; contradiction |].
    split; [| intros name' H; discriminate H].
    intros _. split; [reflexivity |]. split; [exact Hh | exact Hchange].
Qed.

(* ------------------------------------------------------------------ *)
(** *** The divider key and the formatter options *)
(* ------------------------------------------------------------------ *)

Lemma firstDivider_first (s d : string) :
  firstDivider s = Some d ->
  exists before c after,
    d = String c "" /\ s = before ++ String c after
    /\ isAlphaNumeric c = false
    /\ (forall x, contains x before = true -> isAlphaNumeric x = true).
Proof.
  induction s as [| c r IH]; cbn [firstDivider]; intros H; [discriminate |].
  destruct (isAlphaNumeric c) eqn:Hc.
  - destruct (IH H) as (before & c' & after & -> & -> & Hc' & Hbefore).
    exists (String c before), c', after. repeat split; auto.
    intros x. cbn [contains]. intros Hx. apply orb_true_iff in Hx.
    destruct Hx as [Hx | Hx]; [| now apply Hbefore].
    apply Ascii.eqb_eq in Hx. now subst x.
  - injection H as <-. exists "", c, r. repeat split; auto.
    intros x Hx. discriminate Hx.
Qed.

(** X23.  Key-down prevents the default action exactly on ArrowLeft,
    ArrowRight and the divider key, and moves the focus on no other key.
    The divider key is the first character of the placeholder that is
    neither a digit nor a letter, and it moves forward, to the input
    that [findInput] returns on the next side. *)
Theorem divider_key_moves_forward (st : State) (doc : Document)
  (event : KeyboardEvent) :
  let result := onKeyDown st doc event in
  (snd result = true <->
   key event = "ArrowLeft" \/ key event = "ArrowRight"
   \/ divider = Some (key event))
  /\ (snd result = false -> snd (fst result) = doc)
  /\ (divider = Some (key event) ->
      snd (fst result)
      = focus (findInput doc (target event) nextElementSibling) doc
      /\ exists before c after,
           key event = String c ""
           /\ placeholder = before ++ String c after
           /\ isAlphaNumeric c = false
           /\ (forall x, contains x before = true -> isAlphaNumeric x = true)).
Proof.
  unfold onKeyDown.
  set (st2 := if isHourName (nameOfTarget doc event) then _ else _).
  clearbody st2.
  assert (Hdiv : match divider with
                 | Some d => String.eqb (key event) d
                 | None => false
                 end = true <-> divider = Some (key event)).
  { destruct divider as [d |]; split; intros H; try discriminate H.
    - apply String.eqb_eq in H. now subst d.
    - injection H as ->. apply String.eqb_refl. }
  assert (Hfirst : divider = Some (key event) ->
                   exists before c after,
                     key event = String c ""
                     /\ placeholder = before ++ String c after
                     /\ isAlphaNumeric c = false
                     /\ (forall x, contains x before = true -> isAlphaNumeric x = true)).
  { intros Hk. unfold divider in Hk. now apply firstDivider_first. }
  destruct (String.eqb (key event) "ArrowLeft") eqn:Hl.
  { apply String.eqb_eq in Hl. cbn [orb fst snd].
    split; [split; auto |]. split; [discriminate |].
    intros Hk. destruct (Hfirst Hk) as (before & c & after & Hc & _).
    rewrite Hl in Hc. discriminate Hc. }
  apply String.eqb_neq in Hl.
  destruct (String.eqb (key event) "ArrowRight") eqn:Hr.
  { apply String.eqb_eq in Hr. cbn [orb fst snd].
    split; [split; auto |]. split; [discriminate |].
    intros Hk. split; [reflexivity | now apply Hfirst]. }
  apply String.eqb_neq in Hr. cbn [orb].
  destruct (match divider with
            | Some d => String.eqb (key event) d
            | None => false
            end) eqn:Hd; cbn [fst snd].
  - assert (Hk : divider = Some (key event)) by now apply Hdiv.
    split; [split; auto |]. split; [discriminate |].
    intros _. split; [reflexivity | now apply Hfirst].
  - split; [| split; [reflexivity |]].
    + split; [discriminate |].
      intros [H | [H | H]]; [contradiction | contradiction |].
      apply Hdiv in H. discriminate H.
    + intros Hk. apply Hdiv in Hk. discriminate Hk.
Qed.

Lemma indexOf_allViews (d : Detail.t) :
  indexOf allViews d
  = match d with Detail.hour => 0%Z | Detail.minute => 1%Z | Detail.second => 2%Z end.
Proof. destruct d; reflexivity. Qed.

Lemma cacheGet_None (cache : FormatterOptionsCache) (level : Z) :
  cacheGet cache level = None -> ~ In level (map fst cache).
Proof.
  induction cache as [| [l o] r IH]; cbn [cacheGet map fst In]; [intros _ [] |].
  destruct (Z.eqb l level) eqn:He; [discriminate |].
  apply Z.eqb_neq in He. intros H [Hl | Hin]; [contradiction | now apply IH].
Qed.

Lemma formatterOptions_invariant (d : Detail.t) (cache : FormatterOptionsCache) :
  cacheInvariant cache ->
  fst (formatterOptions d cache) = buildOptions (indexOf allViews d)
  /\ cacheInvariant (snd (formatterOptions d cache)).
Proof.
  intros (Hco & Hnd & Hin). unfold formatterOptions.
  destruct (cacheGet cache (indexOf allViews d)) as [o |] eqn:Hget; cbn [fst snd].
  - split; [now apply Hco | now repeat split].
  - split; [reflexivity |]. split; [| split].
    + intros level options. cbn [cacheGet].
      destruct (Z.eqb (indexOf allViews d) level) eqn:He.
      * apply Z.eqb_eq in He. intros [= <-]. now rewrite He.
      * apply Hco.
    + cbn [map fst]. constructor; [now apply cacheGet_None | exact Hnd].
    + cbn [map fst]. intros x [<- | Hx]; [| now apply Hin].
      rewrite indexOf_allViews. destruct d; cbn; auto.
Qed.

Lemma cacheAfter_invariant (renders : list Detail.t) (cache : FormatterOptionsCache) :
  cacheInvariant cache -> cacheInvariant (cacheAfter renders cache).
Proof.
  revert cache. induction renders as [| d r IH]; intros cache H; cbn [cacheAfter].
  - exact H.
  - apply IH. now apply formatterOptions_invariant.
Qed.

(** X24.  The formatter options do not depend on what was rendered
    before: whatever renders have filled the module-level cache, a render
    gets the options of its own [maxDetail] - the hour always, the minute
    unless [maxDetail] is the hour, the second only when it is the
    second - and the cache never holds more than three entries. *)
Theorem formatter_options_independent_of_history
  (renders : list Detail.t) (d : Detail.t) :
  fst (formatterOptions d (cacheAfter renders []))
  = {| Intl.hour := Some "numeric";
       Intl.minute := match d with Detail.hour => None | _ => Some "numeric" end;
       Intl.second := match d with Detail.second => Some "numeric" | _ => None end |}
  /\ List.length (snd (formatterOptions d (cacheAfter renders []))) <= 3.
Proof.
  assert (Hempty : cacheInvariant []).
  { split; [intros l o H; discriminate H |].
    split; [constructor | intros x []]. }
  pose proof (cacheAfter_invariant renders [] Hempty) as Hinv.
  destruct (formatterOptions_invariant d _ Hinv) as (Hopt & _ & Hnd & Hin).
  split.
  - rewrite Hopt, indexOf_allViews. destruct d; reflexivity.
  - pose proof (NoDup_incl_length Hnd Hin) as Hlen.
    rewrite length_map in Hlen. exact Hlen.
Qed.

End Component.

End TimeInput.

Import TimeInput.

(* ================================================================== *)
(** ** The null commit and the value supplied from outside *)
(* ================================================================== *)

Section NullCommit.

Variable convert12to24 : JS.value -> JS.value -> JS.number.
Variable getHoursMinutes : string -> string.
Variable getHoursMinutesSeconds : string -> string.
Variable fractionToString : Q -> string.
Variable maxDetail : Detail.t.
Variable onInvalidChange : bool.

Local Abbreviation reconcile valueProps :=
  (onChangeExternal convert12to24 getHoursMinutes getHoursMinutesSeconds
     fractionToString maxDetail true onInvalidChange valueProps).

(** C10.  When the fields are classified as all-empty, [onChange(null,
    false)] is called whatever value is supplied from outside, [null] and
    the empty string included; and the value supplied from outside
    changes the outcome of a reconciliation only when the fields are all
    filled and valid. *)
Theorem null_commit_not_deduplicated (st : State) (refs : Refs)
  (amPmOverride : option AmPmType) (hourOverride : option string) :
  (isEveryValueEmpty refs amPmOverride hourOverride = true ->
   forall valueProps,
     reconcile valueProps st refs amPmOverride hourOverride
     = Ok [OnChange None false])
  /\ (isEveryValueEmpty refs amPmOverride hourOverride = true
      \/ isEveryValueFilled refs amPmOverride hourOverride
         && isEveryValueValid refs amPmOverride hourOverride = false ->
      forall valueProps valueProps',
        reconcile valueProps st refs amPmOverride hourOverride
        = reconcile valueProps' st refs amPmOverride hourOverride).
Proof.
  split.
  - intros He valueProps. now apply all_empty_notifies.
  - intros Hcase valueProps valueProps'. unfold onChangeExternal. cbn [negb].
    destruct (isEveryValueEmpty refs amPmOverride hourOverride); [reflexivity |].
    destruct Hcase as [Hcase | ->]; [discriminate Hcase | reflexivity].
Qed.

End NullCommit.

(* ================================================================== *)
(** ** The hour convention round trip *)
(* ================================================================== *)

(** C5.  For every hour from 0 to 23, [to12] (0 to (12, am), 1-11 to
    (h, am), 12 to (12, pm), 13-23 to (h - 12, pm)) gives an hour from 1
    to 12 with a meridiem, [am] exactly below 12, and [to24] on that pair
    gives the hour back. *)
Theorem hour_round_trip (hour24 : Z) :
  (0 <= hour24 <= 23)%Z ->
  exists hour12 meridiem,
    HourConvention.to12 hour24 = Some (hour12, meridiem)
    /\ HourConvention.to24 hour12 meridiem = Some hour24
    /\ (1 <= hour12 <= 12)%Z
    /\ (meridiem = am <-> (hour24 < 12)%Z).
Proof.
  intros Hrange.
  assert (Hcases : In hour24 (map Z.of_nat (seq 0 24))).
  { apply in_map_iff. exists (Z.to_nat hour24). split; [lia |].
    apply in_seq. lia. }
  cbn [seq map] in Hcases. cbn [In] in Hcases.
  repeat (destruct Hcases as [<- | Hcases];
          [ eexists; eexists; split; [reflexivity |];
            split; [reflexivity |]; split; [lia |];
            split; intros H; first [reflexivity | lia | discriminate H] |]).
  contradiction.
Qed.

(* ================================================================== *)
(** ** The model run on the scenarios of the test suite *)
(* ================================================================== *)

Example Number_examples :
  map JS.Number ["12"; ""; " "; "Backspace"; "0x1F"; "1.5"; "-3"; "2e1"; "."; "1 "; "24"]
  = [JS.Finite 12; JS.Finite 0; JS.Finite 0; JS.NaN; JS.Finite 31; JS.Finite (3 # 2);
     JS.Finite (-3); JS.Finite 20; JS.NaN; JS.Finite 1; JS.Finite 24].
Proof. vm_compute. reflexivity. Qed.

Example tokenize_default_placeholder :
  tokenize elementFunctions "h:mm:ss a"
  = ("", [("h", ":"); ("mm", ":"); ("ss", " "); ("a", "")]).
Proof. reflexivity. Qed.

Example render_meridiem_only :
  render "h:mm a" (Some "a") Detail.minute false (initialState None)
  = Ok [NativeInput VNull Detail.minute; Text ""; AmPm false None; Text ""].
Proof. reflexivity. Qed.

Example render_unsupported_tokens :
  map (fun f => render "h:mm a" (Some f) Detail.minute false (initialState None))
      ["hhh"; "HHH"; "mmm"; "sss"]
  = map (fun f => Throw (unsupportedToken f)) ["hhh"; "HHH"; "mmm"; "sss"].
Proof. reflexivity. Qed.

(** "triggers onChange correctly when changed custom input": the hour
    of [22:17:03] changed to 8. *)
Example change_hour_to_8 :
  onChange Sample.convert12to24 Sample.getHoursMinutes Sample.getHoursMinutesSeconds
    Sample.fractionToString Detail.second true false (VString "22:17:03")
    (setAmPm (Some pm) (initialState None))
    (updateField hour12Field (withValue "8" true) sampleRefs12)
    {| targetName := "hour12"; targetValue := "8" |}
  = Ok (setHour (Some "20") (setAmPm (Some pm) (initialState None)),
        [OnChange (Some "20:17:03") false]).
Proof. vm_compute. reflexivity. Qed.

(** "triggers onChange correctly when cleared custom inputs": hour,
    minute and second of a 12-hour layout cleared in document order. *)
Example clear_in_document_order :
  option_map snd
    (match clearInputs Sample.convert12to24 Sample.getHoursMinutes
             Sample.getHoursMinutesSeconds Sample.fractionToString Detail.second
             true false (VString "22:17:03")
             [(hour12Field, true); (minuteField, true); (secondField, true)]
             (initialState None) sampleRefs12 with
     | Ok r => Some r
     | Throw _ => None
     end)
  = Some [OnChange None false].
Proof. vm_compute. reflexivity. Qed.

(** Typing 4 in the empty hour field moves the focus to the minute;
    typing 1 does not. *)
Example key_up_after_4_and_after_1 :
  DOM.activeElement (onKeyUp (sampleStateAfter "4") sampleDocument (sampleKey "4")) = Some 3
  /\ DOM.activeElement
       (onKeyUp (fst (fst (onKeyDown Sample.convert24to12 "h:mm a" None
                             (initialState None) sampleDocument (sampleKey "1"))))
          sampleDocument (sampleKey "1")) = Some 1.
Proof. split; vm_compute; reflexivity. Qed.

(** "... by typing with multiple keys": keys 1 and 2 go down, then key
    1 goes up, which is not the last key pressed, then key 2. *)
Example key_up_out_of_order :
  let st := fst (onKeyDowns Sample.convert24to12 "h:mm a" None
                   [sampleKey "1"; sampleKey "2"] (initialState None) sampleDocument) in
  twoDigitHour st = "12"
  /\ DOM.activeElement (onKeyUp st sampleDocument (sampleKey "1")) = Some 1
  /\ DOM.activeElement (onKeyUp st sampleDocument (sampleKey "2")) = Some 3.
Proof. repeat split. Qed.

(** "does not jump ... the second digit entered for the hour would make
    it larger than 23". *)
Example key_up_after_24 :
  let st := fst (onKeyDowns Sample.convert24to12 "h:mm a" None
                   [sampleKey "2"; sampleKey "4"] (initialState None) sampleDocument) in
  DOM.activeElement (onKeyUp st sampleDocument (sampleKey "4")) = Some 1.
Proof. reflexivity. Qed.

(** "triggers onChange correctly when there is a value for the minute
    input, but not the amPm, and the hour is set": the change of the hour
    to 8 finds the selector empty, the blur that follows resolves the
    meridiem and commits [08:30]. *)
Example hour_8_then_blur :
  let refs := {| amPmInput := Some (Sample.select "");
                 hour12Input := Some (Sample.numberInput "hour12" "8" "12");
                 hour24Input := None;
                 minuteInput := Some (Sample.numberInput "minute" "30" "59");
                 secondInput := None |} in
  let changed := onChange Sample.convert12to24 Sample.getHoursMinutes
                   Sample.getHoursMinutesSeconds Sample.fractionToString Detail.minute
                   true true VNull (setMinute (Some "30") (initialState None)) refs
                   {| targetName := "hour12"; targetValue := "8" |} in
  changed = Ok (setHour (Some "8") (setMinute (Some "30") (initialState None)),
                [OnInvalidChange])
  /\ handleBlurHourInput Sample.convert24to12 Sample.convert12to24
       Sample.getHoursMinutes Sample.getHoursMinutesSeconds Sample.fractionToString
       Detail.minute true true VNull
       (setHour (Some "8") (setMinute (Some "30") (initialState None))) refs "hour12"
     = Ok (setTwoDigitHour ""
             (setAmPm (Some am)
                (setHour (Some "8") (setMinute (Some "30") (initialState None)))),
           [OnChange (Some "08:30") false]).
Proof. split; vm_compute; reflexivity. Qed.

(* ================================================================== *)
(** ** Instances of the theorems *)
(* ================================================================== *)

Lemma onKeyUp_advances_witness :
  (lastPressedKey (sampleStateAfter "4") = Some (key (sampleKey "4"))
   /\ isDigitKey (key (sampleKey "4")) = true
   /\ DOM.activeElement sampleDocument = Some (target (sampleKey "4"))
   /\ elementAt sampleDocument (target (sampleKey "4"))
      = Some (Sample.numberInput "hour12" "" "12")
   /\ "12" <> ""
   /\ findInput sampleDocument (target (sampleKey "4")) DOM.nextElementSibling = Some 3)
  /\ DOM.activeElement (onKeyUp (sampleStateAfter "4") sampleDocument (sampleKey "4"))
     = Some 3.
Proof.
  split; [repeat split; discriminate |].
  pose proof (onKeyUp_advances_exactly_when
                (sampleStateAfter "4") sampleDocument (sampleKey "4")
                (Sample.numberInput "hour12" "" "12") "12" 3
                eq_refl eq_refl eq_refl eq_refl eq_refl
                ltac:(discriminate) eq_refl) as H.
  cbv zeta in H. destruct H as [H _].
  apply H; left; reflexivity.
Defined.

Lemma hour_accumulator_witness :
  (Forall (fun event => keyValue (key event))
          [sampleKey "2"; sampleKey "4"; sampleKey "Backspace"; sampleKey "1"; sampleKey " "]
   /\ twoDigitHour (initialState None) = ""
   /\ isHourName (nameOfTarget sampleDocument (sampleKey "2")) = true)
  /\ (String.length
        (twoDigitHour
           (fst (onKeyDowns Sample.convert24to12 "h:mm a" None
                   [sampleKey "2"; sampleKey "4"; sampleKey "Backspace";
                    sampleKey "1"; sampleKey " "]
                   (initialState None) sampleDocument))) <= 2
      /\ JS.lt
           (JS.Number
              (twoDigitHour
                 (fst (onKeyDowns Sample.convert24to12 "h:mm a" None
                         [sampleKey "2"; sampleKey "4"; sampleKey "Backspace";
                          sampleKey "1"; sampleKey " "]
                         (initialState None) sampleDocument))))
           (JS.ofZ 24) = true)
  /\ twoDigitHour
       (fst (onKeyDowns Sample.convert24to12 "h:mm a" None
               [sampleKey "2"; sampleKey "4"] (initialState None) sampleDocument))
     = "2".
Proof.
  assert (Hkeys : Forall (fun event => keyValue (key event))
                    [sampleKey "2"; sampleKey "4"; sampleKey "Backspace";
                     sampleKey "1"; sampleKey " "]).
  { apply Forall_cons; [left; reflexivity |].
    apply Forall_cons; [left; reflexivity |].
    apply Forall_cons; [right; vm_compute; reflexivity |].
    apply Forall_cons; [left; reflexivity |].
    apply Forall_cons; [left; reflexivity |].
    apply Forall_nil. }
  destruct (hour_accumulator_invariant Sample.convert24to12 "h:mm a" None)
    as [Hbound [_ Htyped]].
  split; [repeat split; exact Hkeys |].
  split.
  - exact (Hbound _ (initialState None) sampleDocument Hkeys eq_refl).
  - exact (Htyped (initialState None) sampleDocument (sampleKey "2") (sampleKey "4")
             eq_refl eq_refl eq_refl eq_refl eq_refl).
Defined.

Lemma clearing_without_selector_witness :
  (amPmInput sampleRefs24 = None
   /\ hour12Input sampleRefs24 = None
   /\ hour24Input sampleRefs24 = Some (Sample.numberInput "hour24" "22" "23")
   /\ minuteInput sampleRefs24 = Some (Sample.numberInput "minute" "17" "59")
   /\ secondInput sampleRefs24 = Some (Sample.numberInput "second" "3" "59")
   /\ "22" <> "" /\ "3" <> "")
  /\ exists st' refs' calls,
       clearInputs Sample.convert12to24 Sample.getHoursMinutes
         Sample.getHoursMinutesSeconds Sample.fractionToString Detail.second
         true false (VString "22:17:03")
         [(minuteField, true); (secondField, true); (hour24Field, true)]
         (initialState None) sampleRefs24
       = Ok (st', refs', calls)
       /\ filter isOnChange calls = [OnChange None false; OnChange None false].
Proof.
  split; [repeat split; discriminate |].
  exact (clearing_without_selector_notifies_twice
           Sample.convert12to24 Sample.getHoursMinutes Sample.getHoursMinutesSeconds
           Sample.fractionToString Detail.second true false (VString "22:17:03")
           (initialState None) sampleRefs24
           (Sample.numberInput "hour24" "22" "23")
           (Sample.numberInput "minute" "17" "59")
           (Sample.numberInput "second" "3" "59")
           true true true
           eq_refl eq_refl eq_refl eq_refl eq_refl eq_refl
           ltac:(discriminate) ltac:(discriminate)).
Defined.



Lemma hour_round_trip_witness :
  (0 <= 22 <= 23)%Z
  /\ exists hour12 meridiem,
       HourConvention.to12 22 = Some (hour12, meridiem)
       /\ HourConvention.to24 hour12 meridiem = Some 22%Z
       /\ (1 <= hour12 <= 12)%Z
       /\ (meridiem = am <-> (22 < 12)%Z).
Proof.
  split; [lia |].
  apply (hour_round_trip 22). lia.
Defined.

Lemma meridiem_resolution_witness :
  (rendered sampleRefs12 /\ rendered sampleRefsEmpty)
  /\ amPmValue (initialState None)
       (collectValues (formElements sampleRefs12 None None)) None
     = JS.Str "pm"
  /\ amPmValue (setTwoDigitHour "13" (initialState None))
       (collectValues (formElements sampleRefsEmpty None None)) None
     = JS.Str "pm"
  /\ JS.truthy
       (amPmValue (setTwoDigitHour "09" (initialState None))
          (collectValues (formElements sampleRefsEmpty None None)) None)
     = false.
Proof.
  assert (H12 : rendered sampleRefs12) by (repeat split).
  assert (He : rendered sampleRefsEmpty) by (repeat split).
  split; [split; assumption |].
  split; [| split].
  - exact (proj1 (meridiem_resolution (initialState None) sampleRefs12 None H12)
             (Sample.select "pm") eq_refl ltac:(discriminate)).
  - apply (proj2 (meridiem_resolution (setTwoDigitHour "13" (initialState None))
                    sampleRefsEmpty None He)).
    + right. exists (Sample.select ""). split; reflexivity.
    + reflexivity.
  - apply (proj2 (meridiem_resolution (setTwoDigitHour "09" (initialState None))
                    sampleRefsEmpty None He)).
    + right. exists (Sample.select ""). split; reflexivity.
    + reflexivity.
Defined.

Lemma triple_letter_witness :
  In "m"%char numericLetters
  /\ render "h:mm a" (Some "mmm") Detail.minute false (initialState None)
     = Throw (unsupportedToken "mmm").
Proof.
  split; [right; right; left; reflexivity |].
  apply (proj2 (triple_letter_throws "h:mm a" (Some "mmm") Detail.minute false
                  (initialState None) "m"%char "" ""
                  (or_intror (or_intror (or_introl eq_refl))) eq_refl));
    reflexivity.
Defined.



Lemma no_numeric_field_witness :
  (hour12Input (sampleRefsMeridiemOnly "pm") = None
   /\ hour24Input (sampleRefsMeridiemOnly "pm") = None
   /\ minuteInput (sampleRefsMeridiemOnly "pm") = None
   /\ secondInput (sampleRefsMeridiemOnly "pm") = None)
  /\ onChangeExternal Sample.convert12to24 Sample.getHoursMinutes
       Sample.getHoursMinutesSeconds Sample.fractionToString Detail.minute
       true false (VString "12:00")
       (initialState None) (sampleRefsMeridiemOnly "pm") None None
     = Ok [OnChange None false].
Proof.
  split; [repeat split |].
  exact (proj2 (no_numeric_field_commits_null
                  Sample.convert12to24 Sample.getHoursMinutes
                  Sample.getHoursMinutesSeconds Sample.fractionToString Detail.minute
                  true false (VString "12:00")
                  (initialState None) (sampleRefsMeridiemOnly "pm") None None
                  eq_refl eq_refl eq_refl eq_refl eq_refl)).
Defined.

Lemma null_commit_witness :
  isEveryValueEmpty sampleRefsEmpty None None = true
  /\ onChangeExternal Sample.convert12to24 Sample.getHoursMinutes
       Sample.getHoursMinutesSeconds Sample.fractionToString Detail.second
       true false VNull
       (initialState None) sampleRefsEmpty None None
     = Ok [OnChange None false]
  /\ onChangeExternal Sample.convert12to24 Sample.getHoursMinutes
       Sample.getHoursMinutesSeconds Sample.fractionToString Detail.second
       true false (VString "")
       (initialState None) sampleRefsEmpty None None
     = Ok [OnChange None false].
Proof.
  split; [reflexivity |].
  split;
    apply (proj1 (null_commit_not_deduplicated
                    Sample.convert12to24 Sample.getHoursMinutes
                    Sample.getHoursMinutesSeconds Sample.fractionToString Detail.second
                    false (initialState None) sampleRefsEmpty None None));
    reflexivity.
Defined.

(* ================================================================== *)
(** ** Instances of the further properties *)
(* ================================================================== *)

Lemma render_returns_witness :
  exists nodes,
    render "h:mm:ss a" None Detail.second false (initialState None) = Ok nodes.
Proof.
  apply (render_returns_without_triple "h:mm:ss a" None Detail.second false
           (initialState None)).
  intros c before after _ Heq. cbn [placeholder] in Heq.
  do 9 (destruct before as [| ? before];
        [cbn in Heq; congruence | cbn in Heq; injection Heq as _ Heq]).
  destruct before; cbn in Heq; discriminate Heq.
Defined.

Lemma derived_placeholder_witness :
  exists nodes,
    render "h:mm h" None Detail.minute false (initialState None) = Ok nodes
    /\ List.length (filter (isRenderedBy RenderHour) nodes) <= 1.
Proof.
  eexists. split; [reflexivity |].
  apply (derived_placeholder_renders_each_field_once "h:mm h" None Detail.minute false
           (initialState None) _ RenderHour eq_refl eq_refl).
Defined.

Lemma explicit_format_witness :
  exists nodes,
    render "h:mm a" (Some "h:mm h") Detail.minute false (initialState None) = Ok nodes
    /\ List.length (filter isFieldNode nodes) = 3.
Proof.
  eexists. split; [reflexivity |].
  apply (explicit_format_renders_every_match "h:mm a" (Some "h:mm h") Detail.minute false
           (initialState None) "h:mm h" _ eq_refl ltac:(discriminate) eq_refl).
Defined.

Lemma findInput_nearest_witness :
  1 < List.length (DOM.children sampleDocument)
  /\ 1 < 3 /\ internalAt sampleDocument 3 /\ noInternalBetween sampleDocument 1 3.
Proof.
  split; [cbn; lia |].
  apply (proj1 (findInput_nearest sampleDocument 1 ltac:(cbn; lia)) 3 eq_refl).
Defined.

Lemma findInput_there_and_back_witness :
  (1 < List.length (DOM.children sampleDocument) /\ internalAt sampleDocument 1)
  /\ findInput sampleDocument 3 DOM.previousElementSibling = Some 1.
Proof.
  assert (H : internalAt sampleDocument 1).
  { exists (Sample.numberInput "hour12" "" "12"). split; reflexivity. }
  split; [split; [cbn; lia | exact H] |].
  apply (proj1 (findInput_there_and_back sampleDocument 1 3 ltac:(cbn; lia) H) eq_refl).
Defined.

Lemma tokenize_round_trip_witness :
  (forall c, isKey elementFunctions c = true -> isAlphaNumeric c = true)
  /\ fst (tokenize elementFunctions "h:mm:ss a")
     ++ joinMatches (snd (tokenize elementFunctions "h:mm:ss a"))
     = "h:mm:ss a".
Proof.
  assert (H : forall c, isKey elementFunctions c = true -> isAlphaNumeric c = true).
  { intros c Hc. unfold isKey, elementFunctions in Hc. cbn [existsb fst] in Hc.
    rewrite !orb_true_iff, !Ascii.eqb_eq in Hc.
    destruct Hc as [Hc | [Hc | [Hc | [Hc | [Hc | Hc]]]]];
      first [discriminate Hc | subst c; reflexivity]. }
  split; [exact H |].
  exact (tokenize_round_trip elementFunctions "h:mm:ss a" H).
Defined.

Lemma arrow_keys_witness :
  key (sampleKey "ArrowRight") = "ArrowRight"
  /\ keyDownEvent Sample.convert24to12 Sample.convert12to24 Sample.getHoursMinutes
       Sample.getHoursMinutesSeconds Sample.fractionToString "h:mm a" None
       Detail.minute true false VNull
       (setTwoDigitHour "1" (initialState None)) sampleRefsOfDocument
       sampleDocument (sampleKey "ArrowRight")
     = Ok (setLastPressedKey (Some "ArrowRight") (initialState None),
           focus (Some 3) sampleDocument, true, [OnChange None false]).
Proof.
  split; [reflexivity |].
  pose proof (arrow_keys_navigate_and_blur
                Sample.convert24to12 Sample.convert12to24 Sample.getHoursMinutes
                Sample.getHoursMinutesSeconds Sample.fractionToString "h:mm a" None
                Detail.minute true false VNull
                (setTwoDigitHour "1" (initialState None)) sampleRefsOfDocument
                sampleDocument (sampleKey "ArrowRight") (or_intror eq_refl)) as H.
  cbn in H. destruct H as (st2 & calls & Hblur & Hevent).
  injection Hblur as <- <-. exact Hevent.
Defined.

Lemma digit_then_backspace_witness :
  (isHourName (nameOfTarget sampleDocument (sampleKey "1")) = true
   /\ isDigitKey (key (sampleKey "1")) = true
   /\ key (sampleKey "Backspace") = "Backspace")
  /\ twoDigitHour
       (fst (onKeyDowns Sample.convert24to12 "h:mm a" None
               [sampleKey "1"; sampleKey "Backspace"]
               (setTwoDigitHour "2" (initialState None)) sampleDocument))
     = "2".
Proof.
  split; [repeat split |].
  exact (digit_then_backspace Sample.convert24to12 "h:mm a" None
           (setTwoDigitHour "2" (initialState None)) sampleDocument
           (sampleKey "1") (sampleKey "Backspace")
           eq_refl eq_refl eq_refl eq_refl eq_refl).
Defined.

Lemma reconciliation_calls_witness :
  onChangeExternal Sample.convert12to24 Sample.getHoursMinutes
    Sample.getHoursMinutesSeconds Sample.fractionToString Detail.second
    true true VNull (initialState None) sampleRefs12 None None
  = Ok [OnChange (Some "22:17:03") false]
  /\ List.length [OnChange (Some "22:17:03") false] <= 1.
Proof.
  split; [reflexivity |].
  exact (proj1 (reconciliation_calls_at_most_once
                  Sample.convert12to24 Sample.getHoursMinutes
                  Sample.getHoursMinutesSeconds Sample.fractionToString Detail.second
                  true true VNull (initialState None) sampleRefs12 None None
                  [OnChange (Some "22:17:03") false] eq_refl)).
Defined.

Lemma reconciliation_commits_witness :
  onChangeExternal Sample.convert12to24 Sample.getHoursMinutes
    Sample.getHoursMinutesSeconds Sample.fractionToString Detail.second
    true true VNull (initialState None) sampleRefs12 None None
  = Ok [OnChange (Some "22:17:03") false]
  /\ Forall (fun e => DOM.value e <> "" /\ DOM.valid e = true)
            (formElements sampleRefs12 None None).
Proof.
  split; [reflexivity |].
  exact (proj1 (proj1 (reconciliation_commits_only_complete_input
                  Sample.convert12to24 Sample.getHoursMinutes
                  Sample.getHoursMinutesSeconds Sample.fractionToString Detail.second
                  true true VNull (initialState None) sampleRefs12 None None
                  [OnChange (Some "22:17:03") false] eq_refl)
                 "22:17:03" false (or_introl eq_refl))).
Defined.

Lemma overrides_replace_fields_witness :
  onChangeExternal Sample.convert12to24 Sample.getHoursMinutes
    Sample.getHoursMinutesSeconds Sample.fractionToString Detail.second
    true true VNull (setHour (Some "12") (initialState None))
    (updateField amPmField (withValue "" true)
       (updateField hour12Field (withValue "0" true) sampleRefs12))
    (Some am) (Some "00")
  = onChangeExternal Sample.convert12to24 Sample.getHoursMinutes
      Sample.getHoursMinutesSeconds Sample.fractionToString Detail.second
      true true VNull (initialState None) sampleRefs12 (Some am) (Some "00").
Proof.
  exact (overrides_replace_fields
           Sample.convert12to24 Sample.getHoursMinutes
           Sample.getHoursMinutesSeconds Sample.fractionToString Detail.second
           true true VNull (initialState None) (setHour (Some "12") (initialState None))
           sampleRefs12
           (updateField amPmField (withValue "" true)
              (updateField hour12Field (withValue "0" true) sampleRefs12))
           am (Some "00") eq_refl eq_refl eq_refl eq_refl (or_introl eq_refl)).
Defined.

Lemma hour_override_witness :
  String.length "00" = 2
  /\ exists rest,
       proposedValue Sample.convert12to24 Sample.fractionToString
         (initialState None) sampleRefs12 (Some am) (Some "00") = "00" ++ ":" ++ rest.
Proof.
  split; [reflexivity |].
  exact (hour_override_composed_verbatim Sample.convert12to24 Sample.fractionToString
           (initialState None) sampleRefs12 (Some am) "00" eq_refl).
Defined.

Lemma padStart_round_trip_witness :
  (0 <= 7 <= 99)%Z
  /\ String.length (padStart Sample.fractionToString (JS.Num (JS.ofZ 7))) = 2
  /\ JS.Number (padStart Sample.fractionToString (JS.Num (JS.ofZ 7))) = JS.ofZ 7.
Proof.
  split; [lia |].
  apply (padStart_round_trip Sample.fractionToString 7). lia.
Defined.

Lemma change_touches_one_slot_witness :
  exists st' calls,
    onChange Sample.convert12to24 Sample.getHoursMinutes
      Sample.getHoursMinutesSeconds Sample.fractionToString Detail.second
      true true VNull (setTwoDigitHour "1" (initialState None))
      (updateField minuteField (withValue "5" true) sampleRefs12)
      {| targetName := "minute"; targetValue := "5" |}
    = Ok (st', calls)
    /\ twoDigitHour st' = "1" /\ minute st' = Some "5" /\ hour st' = None.
Proof.
  eexists. eexists. split; [reflexivity |].
  pose proof (change_touches_one_slot
                Sample.convert12to24 Sample.getHoursMinutes
                Sample.getHoursMinutesSeconds Sample.fractionToString Detail.second
                true true VNull (setTwoDigitHour "1" (initialState None)) _
                (updateField minuteField (withValue "5" true) sampleRefs12)
                {| targetName := "minute"; targetValue := "5" |} _ eq_refl) as H.
  destruct H as (Hacc & _).
  split; [exact Hacc | split; reflexivity].
Defined.

Lemma twelve_hour_composition_witness :
  (rendered sampleRefs12 /\ hour24Input sampleRefs12 = None)
  /\ exists rest,
       proposedValue Sample.convert12to24 Sample.fractionToString
         (initialState None) sampleRefs12 None None = "22" ++ ":" ++ rest.
Proof.
  assert (H : rendered sampleRefs12) by (repeat split).
  split; [split; [exact H | reflexivity] |].
  exact (twelve_hour_composition Sample.convert12to24 Sample.fractionToString
           (initialState None) sampleRefs12 None None H eq_refl eq_refl).
Defined.

Lemma absent_fields_witness :
  (rendered (sampleRefsMeridiemOnly "pm") /\ secondInput (sampleRefsMeridiemOnly "pm") = None)
  /\ exists hm,
       proposedValue Sample.convert12to24 Sample.fractionToString
         (initialState None) (sampleRefsMeridiemOnly "pm") None None = hm ++ ":00".
Proof.
  assert (H : rendered (sampleRefsMeridiemOnly "pm")) by (repeat split).
  split; [split; [exact H | reflexivity] |].
  exact (proj1 (absent_fields_compose_as_zero Sample.convert12to24 Sample.fractionToString
                  (initialState None) (sampleRefsMeridiemOnly "pm") None None H) eq_refl).
Defined.

Lemma second_blur_witness :
  optionStringTruthy (hour (setHour (Some "8") (initialState None))) = true
  /\ handleBlurHourInput Sample.convert24to12 Sample.convert12to24
       Sample.getHoursMinutes Sample.getHoursMinutesSeconds Sample.fractionToString
       Detail.second true true VNull
       (setTwoDigitHour "" (setAmPm (Some am) (setHour (Some "8") (initialState None))))
       sampleRefsEmpty "hour12"
     = Ok (setTwoDigitHour "" (setAmPm (Some am) (setHour (Some "8") (initialState None))),
           []).
Proof.
  split; [reflexivity |].
  exact (second_blur_is_silent Sample.convert24to12 Sample.convert12to24
           Sample.getHoursMinutes Sample.getHoursMinutesSeconds Sample.fractionToString
           Detail.second true true VNull
           (setHour (Some "8") (initialState None)) _
           sampleRefs12 sampleRefsEmpty _ eq_refl eq_refl).
Defined.

Lemma auto_focus_witness :
  exists nodes,
    render "h:mm a" None Detail.minute true (initialState None) = Ok nodes
    /\ List.length (filter autoFocused nodes) <= 1.
Proof.
  eexists. split; [reflexivity |].
  exact (proj1 (auto_focus_goes_to_first_field "h:mm a" None Detail.minute true
                  (initialState None) _ eq_refl)).
Defined.
